(** * Time-Management: the reporting and aggregation core

    A shallow embedding of the calculation functions of
    [src/pages/Reports.tsx], [src/pages/Dashboard.tsx],
    [src/pages/TimeEntries.tsx] and [src/utils/localization.ts], the
    properties the specification states about them, and further
    properties that the code itself shows.

    Conventions of the embedding.

    - A JavaScript [Date] is its time value: milliseconds since the epoch,
      an integer ([Z]).  The store's [timestamptz] columns ([start_time],
      [end_time], [created_at]) arrive as ISO instants carrying their
      offset, so the field is modelled by the instant it parses to.
    - The store's [date] column and the filter's [dateFrom]/[dateTo]
      (an [<input type="date">]) are ['yyyy-MM-dd'] strings; the field is
      modelled by the calendar day it denotes, a day number counted from
      1970-01-01.  [new Date(s)] reads such a string as UTC midnight,
      date-fns' [parseISO s] as local midnight; both readings are kept.
    - A field that is [null], [undefined] or the empty string is [None]
      (all three are falsy, and the code only tests truthiness).
    - Local time is UTC plus a constant offset [tz], in minutes east of
      Greenwich (daylight-saving changes are not modelled).
    - The ambient clock [new Date()] is the explicit argument [now].
    - [duration_minutes] is an [integer] column: a JavaScript number that
      is an integer, for which [parseFloat(String(n))] is [n] and [isNaN]
      is false.  Hours and amounts are exact rationals ([Q]).
    - An object used as a map ([Record<string, ...>]) is the list of its
      own properties in insertion order; a key is taken not to name a
      property inherited from [Object.prototype]. *)

From Stdlib Require Import ZArith QArith Qround List String Ascii Bool Lia.
From Stdlib Require Import DecimalString DecimalZ DecimalPos.
From Stdlib Require Import Sorted Permutation.
Import ListNotations.

Local Open Scope string_scope.
Local Open Scope Z_scope.

(** ** JavaScript values *)

Module JS.

(** Truthiness of a string: every string but the empty one. *)
Definition truthyStr (s : string) : bool := negb (s =? "")%string.

(** Truthiness of a nullable number: present and not zero. *)
Definition truthyNum (n : option Z) : bool :=
  match n with
  | Some v => negb (v =? 0)
  | None => false
  end.

(** The number a nullable number stands for in arithmetic. *)
Definition valueOf (n : option Z) : Z :=
  match n with
  | Some v => v
  | None => 0
  end.

(** [a !== b] for an optional string field against a string. *)
Definition strictNeq (a : option string) (b : string) : bool :=
  match a with
  | Some s => negb (s =? b)%string
  | None => true
  end.

(** [Math.round]: the nearest integer, halves toward plus infinity. *)
Definition Math_round (x : Q) : Z := Qfloor (x + (1 # 2)).

(** [Math.round(x * 100) / 100]. *)
Definition round2 (x : Q) : Q := inject_Z (Math_round (x * 100)) / 100.

(** [Math.round(x * 10) / 10]. *)
Definition round1 (x : Q) : Q := inject_Z (Math_round (x * 10)) / 10.

(** [x > 0] on numbers. *)
Definition positive (x : Q) : bool := negb (Qle_bool x 0).

(** [String(n)] of an integer. *)
Definition toString (n : Z) : string := NilZero.string_of_int (Z.to_int n).

(** *** Arrays: [Array.prototype.sort], a stable sort.

    [le a b] stands for [compareFn(a, b) <= 0]; a comparator that returns
    [NaN] counts as returning [+0]. *)
Section Sort.
Context {A : Type} (le : A -> A -> bool).

Fixpoint insert (x : A) (l : list A) : list A :=
  match l with
  | [] => [x]
  | y :: l' => if le x y then x :: y :: l' else y :: insert x l'
  end.

Fixpoint sort (l : list A) : list A :=
  match l with
  | [] => []
  | x :: l' => insert x (sort l')
  end.
End Sort.

(** *** Objects used as maps from string keys

    The properties are kept in insertion order; [Object.entries] lists
    the array-index keys first, in ascending numeric order, then the
    other keys in insertion order. *)
Definition object (V : Type) : Type := list (string * V).

Fixpoint get {V} (k : string) (o : object V) : option V :=
  match o with
  | [] => None
  | (k', v) :: o' => if (k =? k')%string then Some v else get k o'
  end.

(** [o[k] = f(o[k])] when the property exists, [o[k] = f(init)] when it
    does not (the [if (!o[k]) o[k] = init] idiom followed by an update). *)
Fixpoint upsert {V} (k : string) (init : V) (f : V -> V) (o : object V)
  : object V :=
  match o with
  | [] => [(k, f init)]
  | (k', v) :: o' =>
      if (k =? k')%string then (k', f v) :: o'
      else (k', v) :: upsert k init f o'
  end.

Definition digitVal (c : ascii) : option Z :=
  let n := Z.of_nat (nat_of_ascii c) in
  if (48 <=? n) && (n <=? 57) then Some (n - 48) else None.

Fixpoint digitsVal (acc : Z) (s : string) : option Z :=
  match s with
  | EmptyString => Some acc
  | String c s' =>
      match digitVal c with
      | Some d => digitsVal (acc * 10 + d) s'
      | None => None
      end
  end.

(** The array index a key denotes, if it is the canonical decimal
    numeral of an integer below [2^32 - 1]. *)
Definition arrayIndex (k : string) : option Z :=
  match k with
  | EmptyString => None
  | String c rest =>
      if (c =? "0")%char && negb (rest =? "")%string then None
      else match digitsVal 0 k with
           | Some n => if n <? 4294967295 then Some n else None
           | None => None
           end
  end.

Definition isIndexKey {V} (kv : string * V) : bool :=
  match arrayIndex (fst kv) with Some _ => true | None => false end.

Definition indexLe {V} (a b : string * V) : bool :=
  match arrayIndex (fst a), arrayIndex (fst b) with
  | Some x, Some y => x <=? y
  | _, _ => true
  end.

Definition entries {V} (o : object V) : list (string * V) :=
  sort indexLe (filter isIndexKey o)
    ++ filter (fun kv => negb (isIndexKey kv)) o.

(** *** Further string and number helpers *)

Fixpoint zeros (n : nat) : string :=
  match n with
  | O => ""
  | S k => String "0" (zeros k)
  end.

(** [s.padStart(n, '0')]. *)
Definition padStart0 (n : nat) (s : string) : string :=
  (zeros (n - String.length s) ++ s)%string.

(** [Math.ceil(a / b)] on integers, for a positive [b]. *)
Definition ceilDiv (a b : Z) : Z := - ((- a) / b).

End JS.

(** ** Calendar: [Date] and date-fns in local time *)

Module Cal.

Definition msPerMinute : Z := 60000.
Definition msPerDay : Z := 86400000.

(** Day number of a civil date of the proleptic Gregorian calendar. *)
Definition days_from_civil (y m d : Z) : Z :=
  let y' := if m <=? 2 then y - 1 else y in
  let era := y' / 400 in
  let yoe := y' - era * 400 in
  let mp := (m + 9) mod 12 in
  let doy := (153 * mp + 2) / 5 + d - 1 in
  let doe := yoe * 365 + yoe / 4 - yoe / 100 + doy in
  era * 146097 + doe - 719468.

(** Civil date (year, month 1..12, day) of a day number. *)
Definition civil_from_days (z : Z) : Z * Z * Z :=
  let z := z + 719468 in
  let era := z / 146097 in
  let doe := z - era * 146097 in
  let yoe := (doe - doe / 1460 + doe / 36524 - doe / 146096) / 365 in
  let y := yoe + era * 400 in
  let doy := doe - (365 * yoe + yoe / 4 - yoe / 100) in
  let mp := (5 * doy + 2) / 153 in
  let d := doy - (153 * mp + 2) / 5 + 1 in
  let m := if mp <? 10 then mp + 3 else mp - 9 in
  (if m <=? 2 then y + 1 else y, m, d).

(** [new Date('yyyy-MM-dd')]: a date-only string is UTC midnight. *)
Definition utcMidnight (day : Z) : Z := day * msPerDay.

(** The local calendar day an instant falls on. *)
Definition localDay (tz t : Z) : Z := (t + tz * msPerMinute) / msPerDay.

(** Local midnight of a calendar day; [parseISO('yyyy-MM-dd')]. *)
Definition localMidnight (tz day : Z) : Z := day * msPerDay - tz * msPerMinute.

(** [d.setHours(0, 0, 0, 0)] and date-fns' [startOfDay]. *)
Definition startOfDay (tz t : Z) : Z := localMidnight tz (localDay tz t).

(** [d.setHours(23, 59, 59, 999)]. *)
Definition endOfDay (tz t : Z) : Z := startOfDay tz t + (msPerDay - 1).

(** [startOfWeek(d, { weekStartsOn: 1 })] of [utils/localization.ts]:
    local midnight of the Monday on or before [d] (day 0 was a Thursday). *)
Definition startOfWeek (tz t : Z) : Z :=
  let d := localDay tz t in
  localMidnight tz (d - (d + 3) mod 7).

Definition getFullYear (tz t : Z) : Z :=
  let '(y, _, _) := civil_from_days (localDay tz t) in y.

(** [getMonth]: 0 for January. *)
Definition getMonth (tz t : Z) : Z :=
  let '(_, m, _) := civil_from_days (localDay tz t) in m - 1.

Definition getDate (tz t : Z) : Z :=
  let '(_, _, d) := civil_from_days (localDay tz t) in d.

Definition digit (n : Z) : ascii := ascii_of_nat (48 + Z.to_nat (n mod 10)).

Definition pad2 (n : Z) : string :=
  String (digit (n / 10)) (String (digit n) "").

(** Four digits: years 0 to 9999. *)
Definition pad4 (n : Z) : string :=
  String (digit (n / 1000)) (String (digit (n / 100)) (pad2 n)).

(** Abbreviated month names of date-fns' Danish locale ([da]). *)
Definition monthAbbr (m0 : Z) : string :=
  match m0 with
  | 0 => "jan." | 1 => "feb." | 2 => "mar." | 3 => "apr."
  | 4 => "maj" | 5 => "jun." | 6 => "jul." | 7 => "aug."
  | 8 => "sep." | 9 => "okt." | 10 => "nov." | _ => "dec."
  end.

(** [format(d, 'yyyy-MM-dd')]. *)
Definition format_yyyy_MM_dd (tz t : Z) : string :=
  (pad4 (getFullYear tz t) ++ "-" ++ pad2 (getMonth tz t + 1)
     ++ "-" ++ pad2 (getDate tz t))%string.

(** [format(d, 'yyyy-MM')]. *)
Definition format_yyyy_MM (tz t : Z) : string :=
  (pad4 (getFullYear tz t) ++ "-" ++ pad2 (getMonth tz t + 1))%string.

(** [formatDate(d, 'dd MMM')]. *)
Definition format_dd_MMM (tz t : Z) : string :=
  (pad2 (getDate tz t) ++ " " ++ monthAbbr (getMonth tz t))%string.

(** [formatDate(d)], the default ['dd/MM-yyyy']. *)
Definition formatDate (tz t : Z) : string :=
  (pad2 (getDate tz t) ++ "/" ++ pad2 (getMonth tz t + 1)
     ++ "-" ++ pad4 (getFullYear tz t))%string.

(** [formatMonthYear(d)]: ['MMM yyyy']. *)
Definition formatMonthYear (tz t : Z) : string :=
  (monthAbbr (getMonth tz t) ++ " " ++ pad4 (getFullYear tz t))%string.

Definition num2 (a b : ascii) : option Z :=
  match JS.digitVal a, JS.digitVal b with
  | Some x, Some y => Some (x * 10 + y)
  | _, _ => None
  end.

(** [parseISO] of a ['yyyy-MM-dd'] string: local midnight of that day;
    [None] is the Invalid Date. *)
Definition parseISO (tz : Z) (s : string) : option Z :=
  match s with
  | String y1 (String y2 (String y3 (String y4 (String "-"
      (String m1 (String m2 (String "-" (String d1 (String d2 ""))))))))) =>
      match num2 y1 y2, num2 y3 y4, num2 m1 m2, num2 d1 d2 with
      | Some yh, Some yl, Some m, Some d =>
          if (1 <=? m) && (m <=? 12) && (1 <=? d) && (d <=? 31)
          then Some (localMidnight tz (days_from_civil (yh * 100 + yl) m d))
          else None
      | _, _, _, _ => None
      end
  | _ => None
  end.

(** date-fns' [differenceInSeconds]: whole seconds, truncated toward 0. *)
Definition differenceInSeconds (later earlier : Z) : Z :=
  Z.quot (later - earlier) 1000.

(** An instant written as a UTC civil date and time of day. *)
Definition utc (y m d hh mm ss : Z) : Z :=
  days_from_civil y m d * msPerDay + ((hh * 60 + mm) * 60 + ss) * 1000.

(** *** Weeks and months *)

(** [getDay]: the local day of the week, 0 for Sunday (day 0 was a
    Thursday). *)
Definition getDay (tz t : Z) : Z := (localDay tz t + 4) mod 7.

(** The day number [MakeDay(year, month, date)] of the language: the month
    index may lie outside 0..11 and the date outside the month. *)
Definition makeDay (y mi d : Z) : Z :=
  days_from_civil (y + mi / 12) (mi mod 12 + 1) 1 + (d - 1).

(** date-fns' [startOfWeek(date, { weekStartsOn })]:
    [diff = (day < weekStartsOn ? 7 : 0) + day - weekStartsOn], then
    [setDate(getDate() - diff)] and [setHours(0, 0, 0, 0)]. *)
Definition dateStartOfWeek (weekStartsOn tz t : Z) : Z :=
  let d := getDay tz t in
  let diff := (if d <? weekStartsOn then 7 else 0) + d - weekStartsOn in
  localMidnight tz (localDay tz t - diff).

(** date-fns' [endOfWeek(date, { weekStartsOn })]:
    [diff = (day < weekStartsOn ? -7 : 0) + 6 - (day - weekStartsOn)], then
    [setDate(getDate() + diff)] and [setHours(23, 59, 59, 999)]. *)
Definition dateEndOfWeek (weekStartsOn tz t : Z) : Z :=
  let d := getDay tz t in
  let diff := (if d <? weekStartsOn then -7 else 0) + 6 - (d - weekStartsOn) in
  localMidnight tz (localDay tz t + diff) + (msPerDay - 1).

(** date-fns' [startOfMonth]: [setDate(1)], [setHours(0, 0, 0, 0)]. *)
Definition startOfMonth (tz t : Z) : Z :=
  localMidnight tz (makeDay (getFullYear tz t) (getMonth tz t) 1).

(** date-fns' [endOfMonth]: [setFullYear(year, month + 1, 0)],
    [setHours(23, 59, 59, 999)]. *)
Definition endOfMonth (tz t : Z) : Z :=
  localMidnight tz (makeDay (getFullYear tz t) (getMonth tz t + 1) 0)
  + (msPerDay - 1).

(** date-fns' [addMonths]: the same day of the month [amount] months on,
    or the last day of that month if it has fewer days; the time of day is
    kept. *)
Definition addMonths (amount tz t : Z) : Z :=
  let timeOfDay := t - startOfDay tz t in
  let dayOfMonth := getDate tz t in
  let endOfDesiredMonth :=
    makeDay (getFullYear tz t) (getMonth tz t + amount + 1) 0 in
  let '(y, m, daysInMonth) := civil_from_days endOfDesiredMonth in
  if daysInMonth <=? dayOfMonth
  then localMidnight tz endOfDesiredMonth + timeOfDay
  else localMidnight tz (makeDay y (m - 1) dayOfMonth) + timeOfDay.

(** date-fns' [subMonths]. *)
Definition subMonths (amount tz t : Z) : Z := addMonths (- amount) tz t.

End Cal.

(** ** [utils/localization.ts] *)

Module Localization.

(** [startOfWeek]: date-fns' with [weekStartsOn: 1]. *)
Definition startOfWeek (tz date : Z) : Z := Cal.dateStartOfWeek 1 tz date.

(** [endOfWeek]: date-fns' with [weekStartsOn: 1]. *)
Definition endOfWeek (tz date : Z) : Z := Cal.dateEndOfWeek 1 tz date.

End Localization.

(** ** Data model

    Each page declares its own [TimeEntry] interface over the same
    [time_entries] row (fetched with [select('*')] and the joined [task]
    and [customer]); the record below is that row, with every field the
    calculations read.  [duration] is read by the dashboard only. *)

Module Customer.
Record t : Type := mk { id : string; name : string }.
End Customer.

Module Task.
Record t : Type := mk { id : string; name : string }.
End Task.

Module TimeEntry.
Record t : Type := mk {
  id : string;
  customer_id : option string;
  start_time : option Z;
  end_time : option Z;
  task : option Task.t;
  customer : option Customer.t;
  duration_minutes : option Z;
  duration : option Z;
  date : option Z;
  billable : bool;
  rate : option Q;
  created_at : option Z
}.
End TimeEntry.

Inductive GroupBy : Type := customer | project | task | day.

Inductive PeriodView : Type := week | month | quarter.

Module ReportFilters.
Record t : Type := mk {
  dateFrom : option Z;
  dateTo : option Z;
  customer : string;
  project : string;
  groupBy : GroupBy;
  billableOnly : bool
}.
End ReportFilters.

Module ReportData.
Record t : Type := mk {
  name : string;
  value : Q;
  seconds : Z;
  billableHours : Q;
  nonBillableHours : Q
}.
End ReportData.

Module PeriodSummary.
Record t : Type := mk {
  period : string;
  totalHours : Q;
  billableHours : Q;
  nonBillableHours : Q;
  billablePercentage : Z
}.
End PeriodSummary.

Module ClientSummary.
Record t : Type := mk {
  clientId : string;
  clientName : string;
  totalHours : Q;
  billableHours : Q;
  nonBillableHours : Q;
  billableAmount : Q
}.
End ClientSummary.

(** ** [pages/Reports.tsx] *)

Module Reports.

(** [calculateDuration], in seconds. *)
Definition calculateDuration (now : Z) (entry : TimeEntry.t) : Z :=
  if JS.truthyNum (TimeEntry.duration_minutes entry)
  then JS.valueOf (TimeEntry.duration_minutes entry) * 60
  else
    match TimeEntry.start_time entry, TimeEntry.end_time entry with
    | Some startTime, Some endTime =>
        Cal.differenceInSeconds endTime startTime
    | Some startTime, None => Cal.differenceInSeconds now startTime
    | None, _ => 0
    end.

(** The date an entry is filed under: the expression
    [entry.date ? new Date(entry.date)
      : entry.start_time ? new Date(entry.start_time) : new Date()],
    written out three times in the source ([filterTimeEntries], the
    ['day'] case of [generateReport], [generatePeriodSummaries]). *)
Definition entryDate (now : Z) (entry : TimeEntry.t) : Z :=
  match TimeEntry.date entry with
  | Some d => Cal.utcMidnight d
  | None =>
      match TimeEntry.start_time entry with
      | Some s => s
      | None => now
      end
  end.

(** The predicate of [filterTimeEntries], one [return false] after the
    other. *)
Definition keepEntry (tz now : Z) (filters : ReportFilters.t)
    (entry : TimeEntry.t) : bool :=
  let entryDate := entryDate now entry in
  if match ReportFilters.dateFrom filters with
     | Some from => entryDate <? Cal.startOfDay tz (Cal.utcMidnight from)
     | None => false
     end
  then false
  else if match ReportFilters.dateTo filters with
          | Some to => Cal.endOfDay tz (Cal.utcMidnight to) <? entryDate
          | None => false
          end
  then false
  else if JS.truthyStr (ReportFilters.customer filters)
          && JS.strictNeq (TimeEntry.customer_id entry)
               (ReportFilters.customer filters)
  then false
  else if JS.truthyStr (ReportFilters.project filters)
  then false
  else if ReportFilters.billableOnly filters
          && negb (TimeEntry.billable entry)
  then false
  else true.

Definition filterTimeEntries (tz now : Z) (filters : ReportFilters.t)
    (entries : list TimeEntry.t) : list TimeEntry.t :=
  filter (keepEntry tz now filters) entries.

(** *** [generateReport] *)

Record Durations : Type := mkDurations {
  total : Z;
  billable : Z;
  nonBillable : Z
}.

(** The [switch (filters.groupBy)] that picks an entry's group key. *)
Definition groupKey (tz now : Z) (g : GroupBy) (entry : TimeEntry.t)
  : string :=
  match g with
  | customer =>
      match TimeEntry.customer entry with
      | Some c =>
          if JS.truthyStr (Customer.name c) then Customer.name c
          else "Unknown Customer"
      | None => "Unknown Customer"
      end
  | project => "Unknown Project"
  | task =>
      match TimeEntry.task entry with
      | Some t =>
          if JS.truthyStr (Task.name t) then Task.name t
          else "Unknown Task"
      | None => "Unknown Task"
      end
  | day => Cal.format_yyyy_MM_dd tz (entryDate now entry)
  end.

Definition addDuration (isBillable : bool) (durationInSeconds : Z)
    (d : Durations) : Durations :=
  if isBillable
  then mkDurations (total d + durationInSeconds)
         (billable d + durationInSeconds) (nonBillable d)
  else mkDurations (total d + durationInSeconds)
         (billable d) (nonBillable d + durationInSeconds).

(** The state of the [forEach] over the filtered entries. *)
Record Totals : Type := mkTotals {
  groupedData : JS.object Durations;
  totalSeconds : Z;
  totalBillableSeconds : Z;
  totalNonBillableSeconds : Z
}.

Definition accumulate (tz now : Z) (g : GroupBy) (acc : Totals)
    (entry : TimeEntry.t) : Totals :=
  let durationInSeconds := calculateDuration now entry in
  let key := groupKey tz now g entry in
  let isBillable := TimeEntry.billable entry in
  mkTotals
    (JS.upsert key (mkDurations 0 0 0)
       (addDuration isBillable durationInSeconds) (groupedData acc))
    (totalSeconds acc + durationInSeconds)
    (if isBillable then totalBillableSeconds acc + durationInSeconds
     else totalBillableSeconds acc)
    (if isBillable then totalNonBillableSeconds acc
     else totalNonBillableSeconds acc + durationInSeconds).

(** Seconds to hours with two decimals:
    [Math.round(s / 3600 * 100) / 100]. *)
Definition hours2 (s : Z) : Q := JS.round2 (inject_Z s / 3600).

(** The row of one group.  The name of a ['day'] group is
    [formatDate(parseISO(name), 'dd MMM')]; a key is always a string that
    [format] produced, and the last branch is never taken. *)
Definition toRow (tz : Z) (g : GroupBy) (kv : string * Durations)
  : ReportData.t :=
  let '(name, durations) := kv in
  ReportData.mk
    match g with
    | day =>
        match Cal.parseISO tz name with
        | Some d => Cal.format_dd_MMM tz d
        | None => "Invalid Date"
        end
    | _ => name
    end
    (hours2 (total durations))
    (total durations)
    (hours2 (billable durations))
    (hours2 (nonBillable durations)).

(** Comparators of the final sort.  [newDate] is [new Date(string)] on a
    string that is not in an ISO format, which the language leaves to the
    implementation; [None] is the Invalid Date, whose [getTime()] is
    [NaN]. *)
Definition byDateOfName (newDate : string -> option Z)
    (a b : ReportData.t) : bool :=
  match newDate (ReportData.name a), newDate (ReportData.name b) with
  | Some dateA, Some dateB => dateA - dateB <=? 0
  | _, _ => true
  end.

Definition bySecondsDesc (a b : ReportData.t) : bool :=
  ReportData.seconds b - ReportData.seconds a <=? 0.

Record Report : Type := mkReport {
  reportData : list ReportData.t;
  totalHours : Q;
  totalBillableHours : Q;
  totalNonBillableHours : Q
}.

Definition generateReport (newDate : string -> option Z) (tz now : Z)
    (filters : ReportFilters.t) (timeEntries : list TimeEntry.t) : Report :=
  let filteredEntries := filterTimeEntries tz now filters timeEntries in
  let g := ReportFilters.groupBy filters in
  let acc :=
    fold_left (accumulate tz now g) filteredEntries (mkTotals [] 0 0 0) in
  let data := map (toRow tz g) (JS.entries (groupedData acc)) in
  let sorted :=
    match g with
    | day => JS.sort (byDateOfName newDate) data
    | _ => JS.sort bySecondsDesc data
    end in
  mkReport sorted
    (hours2 (totalSeconds acc))
    (hours2 (totalBillableSeconds acc))
    (hours2 (totalNonBillableSeconds acc)).

(** *** [generatePeriodSummaries] *)

Definition periodKey (tz now : Z) (view : PeriodView)
    (entry : TimeEntry.t) : string :=
  let entryDate := entryDate now entry in
  match view with
  | week => Cal.format_yyyy_MM_dd tz (Cal.startOfWeek tz entryDate)
  | month => Cal.format_yyyy_MM tz entryDate
  | quarter =>
      let q := Cal.getMonth tz entryDate / 3 + 1 in
      (JS.toString (Cal.getFullYear tz entryDate) ++ "-Q"
         ++ JS.toString q)%string
  end.

(** [periodGroups[periodKey].push(entry)], creating the array first. *)
Definition pushEntry (tz now : Z) (view : PeriodView)
    (periodGroups : JS.object (list TimeEntry.t)) (entry : TimeEntry.t)
  : JS.object (list TimeEntry.t) :=
  JS.upsert (periodKey tz now view entry) []
    (fun group => (group ++ [entry])%list) periodGroups.

(** The three running sums of the inner [forEach]. *)
Definition sumEntry (now : Z) (acc : Durations) (entry : TimeEntry.t)
  : Durations :=
  addDuration (TimeEntry.billable entry) (calculateDuration now entry) acc.

(** The label of a period; as in [toRow], the keys are strings that
    [format] produced and [parseISO] reads them back. *)
Definition periodLabel (tz : Z) (view : PeriodView) (period : string)
  : string :=
  match view with
  | week =>
      match Cal.parseISO tz period with
      | Some d => ("Week of " ++ Cal.formatDate tz d)%string
      | None => "Invalid Date"
      end
  | month =>
      match Cal.parseISO tz (period ++ "-01") with
      | Some d => Cal.formatMonthYear tz d
      | None => "Invalid Date"
      end
  | quarter => period
  end.

Definition summarizePeriod (tz now : Z) (view : PeriodView)
    (kv : string * list TimeEntry.t) : PeriodSummary.t :=
  let '(period, entries) := kv in
  let sums := fold_left (sumEntry now) entries (mkDurations 0 0 0) in
  let totalHours := (inject_Z (total sums) / 3600)%Q in
  let billableHours := (inject_Z (billable sums) / 3600)%Q in
  let nonBillableHours := (inject_Z (nonBillable sums) / 3600)%Q in
  PeriodSummary.mk
    (periodLabel tz view period)
    (JS.round2 totalHours)
    (JS.round2 billableHours)
    (JS.round2 nonBillableHours)
    (if JS.positive totalHours
     then JS.Math_round (billableHours / totalHours * 100)
     else 0%Z).

(** [localeCompare] is the host's collation, a parameter here. *)
Definition byPeriod (localeCompare : string -> string -> Z)
    (a b : PeriodSummary.t) : bool :=
  localeCompare (PeriodSummary.period a) (PeriodSummary.period b) <=? 0.

Definition generatePeriodSummaries (localeCompare : string -> string -> Z)
    (tz now : Z) (filters : ReportFilters.t) (selectedPeriodView : PeriodView)
    (timeEntries : list TimeEntry.t) : list PeriodSummary.t :=
  let filteredEntries := filterTimeEntries tz now filters timeEntries in
  let periodGroups :=
    fold_left (pushEntry tz now selectedPeriodView) filteredEntries [] in
  let summaries :=
    map (summarizePeriod tz now selectedPeriodView)
      (JS.entries periodGroups) in
  JS.sort (byPeriod localeCompare) summaries.

(** *** [generateClientSummaries] *)

Record ClientGroup : Type := mkClientGroup {
  entries : list TimeEntry.t;
  groupCustomer : Customer.t
}.

(** [if (customer && entry.customer_id)]: the entry joins the group of
    [customer.id], which is created with that customer record. *)
Definition addToClientGroups (clientGroups : JS.object ClientGroup)
    (entry : TimeEntry.t) : JS.object ClientGroup :=
  match TimeEntry.customer entry, TimeEntry.customer_id entry with
  | Some c, Some cid =>
      if JS.truthyStr cid
      then JS.upsert (Customer.id c) (mkClientGroup [] c)
             (fun grp => mkClientGroup (entries grp ++ [entry])%list
                                        (groupCustomer grp))
             clientGroups
      else clientGroups
  | _, _ => clientGroups
  end.

(** The sums of one client: seconds, and the amount in currency units. *)
Record ClientSums : Type := mkClientSums {
  clientDurations : Durations;
  amount : Q
}.

(** [if (entry.rate && entry.rate > 0)]. *)
Definition hasRate (entry : TimeEntry.t) : bool :=
  match TimeEntry.rate entry with
  | Some r => JS.positive r
  | None => false
  end.

Definition rateOf (entry : TimeEntry.t) : Q :=
  match TimeEntry.rate entry with
  | Some r => r
  | None => 0
  end.

Definition sumClientEntry (now : Z) (acc : ClientSums)
    (entry : TimeEntry.t) : ClientSums :=
  let duration := calculateDuration now entry in
  mkClientSums
    (addDuration (TimeEntry.billable entry) duration (clientDurations acc))
    (if TimeEntry.billable entry && hasRate entry
     then amount acc + inject_Z duration / 3600 * rateOf entry
     else amount acc).

Definition summarizeClient (now : Z) (kv : string * ClientGroup)
  : ClientSummary.t :=
  let '(clientId, grp) := kv in
  let sums :=
    fold_left (sumClientEntry now) (entries grp)
      (mkClientSums (mkDurations 0 0 0) 0) in
  ClientSummary.mk
    clientId
    (Customer.name (groupCustomer grp))
    (JS.round2 (inject_Z (total (clientDurations sums)) / 3600))
    (JS.round2 (inject_Z (billable (clientDurations sums)) / 3600))
    (JS.round2 (inject_Z (nonBillable (clientDurations sums)) / 3600))
    (JS.round2 (amount sums)).

Definition nonZero (summary : ClientSummary.t) : bool :=
  JS.positive (ClientSummary.totalHours summary).

Definition byTotalHoursDesc (a b : ClientSummary.t) : bool :=
  Qle_bool (ClientSummary.totalHours b - ClientSummary.totalHours a) 0.

(** The groups built by the first [forEach]. *)
Definition clientGroups (timeEntries : list TimeEntry.t)
  : JS.object ClientGroup :=
  fold_left addToClientGroups timeEntries [].

Definition generateClientSummaries (now : Z)
    (timeEntries : list TimeEntry.t) : list ClientSummary.t :=
  let summaries :=
    map (summarizeClient now) (JS.entries (clientGroups timeEntries)) in
  let nonZeroSummaries := filter nonZero summaries in
  JS.sort byTotalHoursDesc nonZeroSummaries.

(** *** The effect that regenerates the reports *)

(** The effect that regenerates the three reports when the entries or the
    filters change: [if (timeEntries.length > 0) { generateReport();
    generatePeriodSummaries(); generateClientSummaries() }].  [None]: the
    state is left as it was. *)
Definition regenerate (newDate : string -> option Z)
    (localeCompare : string -> string -> Z) (tz now : Z)
    (filters : ReportFilters.t) (selectedPeriodView : PeriodView)
    (timeEntries : list TimeEntry.t)
  : option (Report * list PeriodSummary.t * list ClientSummary.t) :=
  match timeEntries with
  | [] => None
  | _ =>
      Some (generateReport newDate tz now filters timeEntries,
            generatePeriodSummaries localeCompare tz now filters
              selectedPeriodView timeEntries,
            generateClientSummaries now timeEntries)
  end.

(** *** Quick date ranges and the duration column *)

Inductive DateRange : Type := today | thisWeek | thisMonth | lastMonth | allTime.

(** [setDateRange]: the new filters.  A filter's date is the string
    [format(d, 'yyyy-MM-dd')], modelled by the local day of [d]; the other
    fields are those of [prev]. *)
Definition setDateRange (tz now : Z) (range : DateRange)
    (prev : ReportFilters.t) : ReportFilters.t :=
  let withDates (from to : option Z) :=
    ReportFilters.mk from to (ReportFilters.customer prev)
      (ReportFilters.project prev) (ReportFilters.groupBy prev)
      (ReportFilters.billableOnly prev) in
  match range with
  | today =>
      withDates (Some (Cal.localDay tz now)) (Some (Cal.localDay tz now))
  | thisWeek =>
      withDates (Some (Cal.localDay tz (Localization.startOfWeek tz now)))
        (Some (Cal.localDay tz (Localization.endOfWeek tz now)))
  | thisMonth =>
      withDates (Some (Cal.localDay tz (Cal.startOfMonth tz now)))
        (Some (Cal.localDay tz (Cal.endOfMonth tz now)))
  | lastMonth =>
      let firstOfLastMonth :=
        Cal.localMidnight tz
          (Cal.makeDay (Cal.getFullYear tz now) (Cal.getMonth tz now - 1) 1) in
      withDates (Some (Cal.localDay tz (Cal.startOfMonth tz firstOfLastMonth)))
        (Some (Cal.localDay tz (Cal.endOfMonth tz firstOfLastMonth)))
  | allTime => withDates None None
  end.

(** [formatDuration], applied to the whole seconds of a row. *)
Definition formatDuration (seconds : Z) : string :=
  let hours := seconds / 3600 in
  let minutes := Z.rem seconds 3600 / 60 in
  (JS.toString hours ++ "h " ++ JS.toString minutes ++ "m")%string.

(** The share of billable hours shown above the report:
    [totalHours > 0
       ? Math.round((totalBillableHours / totalHours) * 100) : 0],
    from the rounded totals that [generateReport] has set. *)
Definition billablePercentage (report : Report) : Z :=
  if JS.positive (totalHours report)
  then JS.Math_round (totalBillableHours report / totalHours report * 100)
  else 0.

End Reports.

(** ** [pages/Dashboard.tsx] *)

Module Dashboard.

(** [getEntryDate]; [null] is [None].  [parseISO] reads a date-only
    string as local midnight. *)
Definition getEntryDate (tz : Z) (entry : TimeEntry.t) : option Z :=
  match TimeEntry.date entry with
  | Some d => Some (Cal.localMidnight tz d)
  | None =>
      match TimeEntry.start_time entry with
      | Some s => Some s
      | None =>
          match TimeEntry.created_at entry with
          | Some c => Some c
          | None => None
          end
      end
  end.

(** [isDateInRange(date, start, end?)], with date-fns' [isAfter],
    [isBefore] and [isEqual] on the time values. *)
Definition isDateInRange (date : option Z) (start : Z) (end_ : option Z)
  : bool :=
  match date with
  | None => false
  | Some d =>
      match end_ with
      | Some e =>
          ((start <? d) || (d =? start)) && ((d <? e) || (d =? e))
      | None => (start <? d) || (d =? start)
      end
  end.

(** What one turn of the loop of [calculateTotalHours] adds to
    [totalMinutes]. *)
Definition entryMinutes (entry : TimeEntry.t) : Z :=
  match TimeEntry.duration_minutes entry with
  | Some minutes => minutes
  | None =>
      match TimeEntry.duration entry with
      | Some minutes => minutes
      | None =>
          match TimeEntry.start_time entry, TimeEntry.end_time entry with
          | Some start, Some end_ =>
              let diffMs := end_ - start in
              let diffMinutes := diffMs / 60000 in
              if 0 <? diffMinutes then diffMinutes else 0
          | _, _ => 0
          end
      end
  end.

(** [calculateTotalHours]: hours with one decimal. *)
Definition calculateTotalHours (entries : list TimeEntry.t) : Q :=
  match entries with
  | [] => 0
  | _ =>
      let totalMinutes :=
        fold_left (fun acc entry => acc + entryMinutes entry) entries 0 in
      JS.round1 (inject_Z totalMinutes / 60)
  end.

(** *** The periods of the highlights and their entries *)

Definition today (tz now : Z) : Z := Cal.startOfDay tz now.
Definition thisWeekStart (tz now : Z) : Z := Localization.startOfWeek tz now.
Definition thisWeekEnd (tz now : Z) : Z := Localization.endOfWeek tz now.
Definition thisMonthStart (tz now : Z) : Z := Cal.startOfMonth tz now.
Definition thisMonthEnd (tz now : Z) : Z := Cal.endOfMonth tz now.
Definition lastMonthStart (tz now : Z) : Z :=
  Cal.startOfMonth tz (Cal.subMonths 1 tz now).
Definition lastMonthEnd (tz now : Z) : Z :=
  Cal.endOfMonth tz (Cal.subMonths 1 tz now).

Definition todayEntries (tz now : Z) (allTimeEntries : list TimeEntry.t)
  : list TimeEntry.t :=
  filter (fun entry => isDateInRange (getEntryDate tz entry) (today tz now) None)
    allTimeEntries.

Definition thisWeekEntries (tz now : Z) (allTimeEntries : list TimeEntry.t)
  : list TimeEntry.t :=
  filter (fun entry =>
            isDateInRange (getEntryDate tz entry) (thisWeekStart tz now)
              (Some (thisWeekEnd tz now)))
    allTimeEntries.

Definition thisMonthEntries (tz now : Z) (allTimeEntries : list TimeEntry.t)
  : list TimeEntry.t :=
  filter (fun entry =>
            isDateInRange (getEntryDate tz entry) (thisMonthStart tz now)
              (Some (thisMonthEnd tz now)))
    allTimeEntries.

Definition lastMonthEntries (tz now : Z) (allTimeEntries : list TimeEntry.t)
  : list TimeEntry.t :=
  filter (fun entry =>
            isDateInRange (getEntryDate tz entry) (lastMonthStart tz now)
              (Some (lastMonthEnd tz now)))
    allTimeEntries.

End Dashboard.

(** ** The rows, the form and the filters of [pages/TimeEntries.tsx] *)

Module Project.
Record t : Type := mk { id : string; name : string; customer_id : string }.
End Project.

(** A row of the list: the page's [TimeEntry], that is the entry as the
    reports read it and the fields that only this page reads. *)
Module ListRow.
Record t : Type := mk {
  entry : TimeEntry.t;
  task_id : string;
  project_id : option string;
  project : option Project.t;
  description : option string;
  active : bool
}.
End ListRow.

(** The state [formData] of the form.  [date] is the value of the date
    input, [None] for the empty string. *)
Module FormData.
Record t : Type := mk {
  task_id : string;
  project_id : string;
  customer_id : string;
  date : option Z;
  duration_hours : string;
  duration_minutes : string;
  description : string;
  billable : bool;
  active : bool;
  rate : string
}.
End FormData.

(** The object that [handleSubmit] sends to the table, in an update and in
    an insert alike. *)
Module Payload.
Record t : Type := mk {
  task_id : string;
  project_id : string;
  customer_id : string;
  date : Z;
  duration_minutes : Z;
  description : string;
  billable : bool;
  active : bool;
  rate : option Q
}.
End Payload.

(** The state [filters] of the list. *)
Module ListFilters.
Record t : Type := mk {
  task : string;
  project : string;
  customer : string;
  dateFrom : option Z;
  dateTo : option Z;
  billable : string;
  active : string
}.
End ListFilters.

(** ** [pages/TimeEntries.tsx] *)

Module TimeEntries.

(** [getEntryDate] of [calculateTimeHighlights]. *)
Definition getEntryDate (tz : Z) (entry : TimeEntry.t) : option Z :=
  match TimeEntry.date entry with
  | Some d => Some (Cal.localMidnight tz d)
  | None =>
      match TimeEntry.start_time entry with
      | Some s => Some s
      | None =>
          match TimeEntry.created_at entry with
          | Some c => Some c
          | None => None
          end
      end
  end.

Definition isDateInRange (date : option Z) (start : Z) (end_ : option Z)
  : bool :=
  match date with
  | None => false
  | Some d =>
      match end_ with
      | Some e =>
          ((start <? d) || (d =? start)) && ((d <? e) || (d =? e))
      | None => (start <? d) || (d =? start)
      end
  end.

(** One turn of the loop of [calculateTotalHours]; this page does not
    read [duration]. *)
Definition entryMinutes (entry : TimeEntry.t) : Z :=
  match TimeEntry.duration_minutes entry with
  | Some minutes => minutes
  | None =>
      match TimeEntry.start_time entry, TimeEntry.end_time entry with
      | Some start, Some end_ =>
          let diffMs := end_ - start in
          let diffMinutes := diffMs / 60000 in
          if 0 <? diffMinutes then diffMinutes else 0
      | _, _ => 0
      end
  end.

Definition calculateTotalHours (entries : list TimeEntry.t) : Q :=
  match entries with
  | [] => 0
  | _ =>
      let totalMinutes :=
        fold_left (fun acc entry => acc + entryMinutes entry) entries 0 in
      JS.round1 (inject_Z totalMinutes / 60)
  end.

(** *** The periods of [calculateTimeHighlights]; "This Week" has no end *)

Definition today (tz now : Z) : Z := Cal.startOfDay tz now.
Definition thisWeekStart (tz now : Z) : Z := Localization.startOfWeek tz now.
Definition thisMonthStart (tz now : Z) : Z := Cal.startOfMonth tz now.
Definition thisMonthEnd (tz now : Z) : Z := Cal.endOfMonth tz now.
Definition lastMonthStart (tz now : Z) : Z :=
  Cal.startOfMonth tz (Cal.subMonths 1 tz now).
Definition lastMonthEnd (tz now : Z) : Z :=
  Cal.endOfMonth tz (Cal.subMonths 1 tz now).

Definition todayEntries (tz now : Z) (entries : list TimeEntry.t)
  : list TimeEntry.t :=
  filter (fun entry => isDateInRange (getEntryDate tz entry) (today tz now) None)
    entries.

Definition thisWeekEntries (tz now : Z) (entries : list TimeEntry.t)
  : list TimeEntry.t :=
  filter (fun entry =>
            isDateInRange (getEntryDate tz entry) (thisWeekStart tz now) None)
    entries.

Definition thisMonthEntries (tz now : Z) (entries : list TimeEntry.t)
  : list TimeEntry.t :=
  filter (fun entry =>
            isDateInRange (getEntryDate tz entry) (thisMonthStart tz now)
              (Some (thisMonthEnd tz now)))
    entries.

Definition lastMonthEntries (tz now : Z) (entries : list TimeEntry.t)
  : list TimeEntry.t :=
  filter (fun entry =>
            isDateInRange (getEntryDate tz entry) (lastMonthStart tz now)
              (Some (lastMonthEnd tz now)))
    entries.

(** *** The timer and the duration column *)

(** [formatElapsedTime]. *)
Definition formatElapsedTime (seconds : Z) : string :=
  let hours := seconds / 3600 in
  let minutes := Z.rem seconds 3600 / 60 in
  let secs := Z.rem seconds 60 in
  (JS.padStart0 2 (JS.toString hours) ++ ":"
   ++ JS.padStart0 2 (JS.toString minutes) ++ ":"
   ++ JS.padStart0 2 (JS.toString secs))%string.

(** The text [`${hours}h ${minutes}m`]. *)
Definition hoursAndMinutes (hours minutes : Z) : string :=
  (JS.toString hours ++ "h " ++ JS.toString minutes ++ "m")%string.

(** [formatDuration] of the list. *)
Definition formatDuration (durationMinutes startTime endTime : option Z)
  : string :=
  match durationMinutes with
  | Some dm => hoursAndMinutes (dm / 60) (Z.rem dm 60)
  | None =>
      match startTime, endTime with
      | Some start, Some end_ =>
          let durationInSeconds := Cal.differenceInSeconds end_ start in
          let durationInMinutes := durationInSeconds / 60 in
          hoursAndMinutes (durationInMinutes / 60) (Z.rem durationInMinutes 60)
      | _, _ => "-"
      end
  end.

(** [stopTimer]: the row as the update leaves it, [None] when no timer
    runs.  [now] is the clock reading taken for [end_time]; [now'] the
    later one that stands in for a missing [start_time]. *)
Definition stopTimer (tz now now' : Z) (activeTimer : option TimeEntry.t)
  : option TimeEntry.t :=
  match activeTimer with
  | None => None
  | Some timer =>
      let endTime := now in
      let startTime :=
        match TimeEntry.start_time timer with
        | Some s => s
        | None => now'
        end in
      let durationInSeconds := Cal.differenceInSeconds endTime startTime in
      let durationInMinutes := JS.ceilDiv durationInSeconds 60 in
      Some (TimeEntry.mk (TimeEntry.id timer) (TimeEntry.customer_id timer)
              (TimeEntry.start_time timer) (Some endTime)
              (TimeEntry.task timer) (TimeEntry.customer timer)
              (Some durationInMinutes) (TimeEntry.duration timer)
              (Some (Cal.localDay tz startTime))
              (TimeEntry.billable timer) (TimeEntry.rate timer)
              (TimeEntry.created_at timer))
  end.

(** *** The form: [openModal] and [handleSubmit] *)

(** [a || b] on a string that may be missing. *)
Definition orElse (a : option string) (b : string) : string :=
  match a with
  | Some x => if JS.truthyStr x then x else b
  | None => b
  end.

(** [openModal]: the form as it opens, for an entry to edit or for a new
    one.  [numberToString] is [Number.prototype.toString] on a rate. *)
Definition openModal (numberToString : Q -> string) (tz now : Z)
    (timeEntry : option ListRow.t) : FormData.t :=
  match timeEntry with
  | Some row =>
      let te := ListRow.entry row in
      let date :=
        match TimeEntry.date te with
        | Some d => d
        | None =>
            match TimeEntry.start_time te with
            | Some s => Cal.localDay tz s
            | None => Cal.localDay tz now
            end
        end in
      let '(durationHours, durationMinutes) :=
        match TimeEntry.duration_minutes te with
        | Some dm => (JS.toString (dm / 60), JS.toString (Z.rem dm 60))
        | None =>
            match TimeEntry.start_time te, TimeEntry.end_time te with
            | Some start, Some end_ =>
                let durationInSeconds := Cal.differenceInSeconds end_ start in
                let durationInMinutes := durationInSeconds / 60 in
                (JS.toString (durationInMinutes / 60),
                 JS.toString (Z.rem durationInMinutes 60))
            | _, _ => ("", "")
            end
        end in
      FormData.mk
        (ListRow.task_id row)
        (orElse (ListRow.project_id row) "")
        (orElse (TimeEntry.customer_id te)
           (match ListRow.project row with
            | Some p =>
                if JS.truthyStr (Project.customer_id p)
                then Project.customer_id p else ""
            | None => ""
            end))
        (Some date)
        durationHours
        durationMinutes
        (orElse (ListRow.description row) "")
        (TimeEntry.billable te)
        (ListRow.active row)
        (match TimeEntry.rate te with
         | Some r => if Qeq_bool r 0 then "" else numberToString r
         | None => ""
         end)
  | None =>
      FormData.mk "" "" "" (Some (Cal.localDay tz now)) "" "" "" true true ""
  end.

(** What [handleSubmit] does with the form: it shows an error, or sends
    the payload. *)
Inductive Outcome : Type :=
| Rejected (error : string)
| Sent (payload : Payload.t).

(** [x || 0] on the result of [parseInt], [None] being [NaN]. *)
Definition orZero (x : option Z) : Z :=
  match x with
  | Some n => n
  | None => 0
  end.

(** [handleSubmit].  [parseInt] and [parseFloat] are the language's;
    [None] is [NaN], which is stored as [null]. *)
Definition handleSubmit (parseInt : string -> option Z)
    (parseFloat : string -> option Q) (formData : FormData.t) : Outcome :=
  if negb (JS.truthyStr (FormData.task_id formData))
  then Rejected "Please select a task"
  else if negb (JS.truthyStr (FormData.project_id formData))
  then Rejected "Please select a project"
  else if negb (JS.truthyStr (FormData.customer_id formData))
  then Rejected "Please select a customer"
  else
    match FormData.date formData with
    | None => Rejected "Date is required"
    | Some date =>
        let hours := orZero (parseInt (FormData.duration_hours formData)) in
        let minutes := orZero (parseInt (FormData.duration_minutes formData)) in
        if (hours =? 0) && (minutes =? 0)
        then Rejected "Please enter a duration"
        else
          let totalMinutes := hours * 60 + minutes in
          let rate :=
            if JS.truthyStr (FormData.rate formData)
            then parseFloat (FormData.rate formData)
            else None in
          Sent (Payload.mk
                  (FormData.task_id formData)
                  (FormData.project_id formData)
                  (FormData.customer_id formData)
                  date
                  totalMinutes
                  (FormData.description formData)
                  (FormData.billable formData)
                  (FormData.active formData)
                  rate)
    end.

(** *** The list's filter: [filteredTimeEntries] *)

(** [s.includes(q)]. *)
Definition includes (s q : string) : bool :=
  match String.index 0 q s with
  | Some _ => true
  | None => false
  end.

Definition nameOrEmpty {A} (name : A -> string) (x : option A) : string :=
  match x with
  | Some a => name a
  | None => ""
  end.

(** [matchesSearch]; [toLowerCase] is the language's. *)
Definition matchesSearch (toLowerCase : string -> string)
    (searchQuery : string) (row : ListRow.t) : bool :=
  let entry := ListRow.entry row in
  let hit (text : string) :=
    includes (toLowerCase text) (toLowerCase searchQuery) in
  hit (nameOrEmpty Task.name (TimeEntry.task entry))
  || hit (nameOrEmpty Project.name (ListRow.project row))
  || hit (nameOrEmpty Customer.name (TimeEntry.customer entry))
  || hit (orElse (ListRow.description row) "").

(** The date an entry of the list is filtered by; [None] is [null]. *)
Definition listEntryDate (entry : TimeEntry.t) : option Z :=
  match TimeEntry.date entry with
  | Some d => Some (Cal.utcMidnight d)
  | None =>
      match TimeEntry.start_time entry with
      | Some s => Some s
      | None => None
      end
  end.

(** [matchesFilters], one [if] after the other. *)
Definition matchesFilters (tz : Z) (filters : ListFilters.t) (row : ListRow.t)
  : bool :=
  let entry := ListRow.entry row in
  let m1 :=
    negb (JS.truthyStr (ListFilters.task filters)
          && negb (ListRow.task_id row =? ListFilters.task filters)%string) in
  let m2 :=
    m1 && negb (JS.truthyStr (ListFilters.project filters)
                && JS.strictNeq (ListRow.project_id row)
                     (ListFilters.project filters)) in
  let m3 :=
    m2 && negb (JS.truthyStr (ListFilters.customer filters)
                && JS.strictNeq (TimeEntry.customer_id entry)
                     (ListFilters.customer filters)) in
  let m4 :=
    if JS.truthyStr (ListFilters.billable filters)
    then
      if (ListFilters.billable filters =? "yes")%string
         && negb (TimeEntry.billable entry)
      then false
      else if (ListFilters.billable filters =? "no")%string
              && TimeEntry.billable entry
      then false
      else m3
    else m3 in
  let m5 :=
    if JS.truthyStr (ListFilters.active filters)
    then
      if (ListFilters.active filters =? "yes")%string
         && negb (ListRow.active row)
      then false
      else if (ListFilters.active filters =? "no")%string
              && ListRow.active row
      then false
      else m4
    else m4 in
  let entryDate := listEntryDate entry in
  let m6 :=
    match ListFilters.dateFrom filters, entryDate with
    | Some from, Some d =>
        if d <? Cal.startOfDay tz (Cal.utcMidnight from) then false else m5
    | _, _ => m5
    end in
  let m7 :=
    match ListFilters.dateTo filters, entryDate with
    | Some to, Some d =>
        if Cal.endOfDay tz (Cal.utcMidnight to) <? d then false else m6
    | _, _ => m6
    end in
  m7.

Definition filteredTimeEntries (toLowerCase : string -> string) (tz : Z)
    (searchQuery : string) (filters : ListFilters.t)
    (timeEntries : list ListRow.t) : list ListRow.t :=
  filter (fun row => matchesSearch toLowerCase searchQuery row
                     && matchesFilters tz filters row)
    timeEntries.

End TimeEntries.

Local Open Scope list_scope.

(** ** Definitions in the specification's words, and predicates on entries *)

(** The entries on which the three computations are bound to agree: a
    non-zero [duration_minutes]; or no recorded minutes at all and either
    no start, or a start and an end a whole, non-negative number of
    minutes apart. *)
Definition recordedInMinutes (e : TimeEntry.t) : bool :=
  match TimeEntry.duration_minutes e with
  | Some m => negb (m =? 0)
  | None =>
      match TimeEntry.duration e with
      | Some _ => false
      | None =>
          match TimeEntry.start_time e, TimeEntry.end_time e with
          | Some s, Some t => (s <=? t) && ((t - s) mod 60000 =? 0)
          | Some _, None => false
          | None, _ => true
          end
      end
  end.

Definition noOtherFilter (f : ReportFilters.t) : bool :=
  negb (JS.truthyStr (ReportFilters.customer f))
  && negb (JS.truthyStr (ReportFilters.project f))
  && negb (ReportFilters.billableOnly f).

(** The membership test in the specification's words: [date >= start]
    and, when an end is given, [date <= end]; in the report the bounds are
    the start of the day of [dateFrom] and the end of the day of [dateTo],
    and an absent bound does not constrain. *)
Definition inRange (tz : Z) (f : ReportFilters.t) (date : Z) : bool :=
  match ReportFilters.dateFrom f with
  | Some a => Cal.startOfDay tz (Cal.utcMidnight a) <=? date
  | None => true
  end
  && match ReportFilters.dateTo f with
     | Some b => date <=? Cal.endOfDay tz (Cal.utcMidnight b)
     | None => true
     end.

(** The tests of [filterTimeEntries] that do not look at dates. *)
Definition passesOtherFilters (f : ReportFilters.t) (e : TimeEntry.t) : bool :=
  negb (JS.truthyStr (ReportFilters.customer f)
        && JS.strictNeq (TimeEntry.customer_id e) (ReportFilters.customer f))
  && negb (JS.truthyStr (ReportFilters.project f))
  && negb (ReportFilters.billableOnly f && negb (TimeEntry.billable e)).

(** The [data] array of [generateReport] before it is sorted. *)
Definition unsortedRows (tz now : Z) (f : ReportFilters.t)
    (timeEntries : list TimeEntry.t) : list (string * Reports.Durations) :=
  JS.entries
    (Reports.groupedData
       (fold_left (Reports.accumulate tz now (ReportFilters.groupBy f))
          (Reports.filterTimeEntries tz now f timeEntries)
          (Reports.mkTotals [] 0 0 0))).

(** What the specification asks of a report by day: the rows of the day
    groups in ascending order of their day, that is of their
    ['yyyy-MM-dd'] key. *)
Definition chronologicalRows (tz now : Z) (f : ReportFilters.t)
    (timeEntries : list TimeEntry.t) : list ReportData.t :=
  map (Reports.toRow tz (ReportFilters.groupBy f))
    (JS.sort (fun a b => String.leb (fst a) (fst b))
       (unsortedRows tz now f timeEntries)).

(** The key under which [generateClientSummaries] files an entry:
    [customer.id] when both the joined customer and a non-empty
    [customer_id] are there. *)
Definition clientKey (e : TimeEntry.t) : option string :=
  match TimeEntry.customer e, TimeEntry.customer_id e with
  | Some c, Some cid => if JS.truthyStr cid then Some (Customer.id c) else None
  | _, _ => None
  end.

Definition hasClient (e : TimeEntry.t) : bool :=
  match clientKey e with Some _ => true | None => false end.

Definition ofClient (k : string) (e : TimeEntry.t) : bool :=
  match clientKey e with Some k' => (k' =? k)%string | None => false end.

Definition sumQ (l : list Q) : Q := fold_right Qplus 0%Q l.

(** The amount of one entry in the specification's words: its hours times
    its own rate, nothing without a rate. *)
Definition entryAmount (now : Z) (e : TimeEntry.t) : Q :=
  match TimeEntry.rate e with
  | Some r => inject_Z (Reports.calculateDuration now e) / 3600 * r
  | None => 0
  end.

(** The sum of the amounts over the billable entries. *)
Definition billableAmountOf (now : Z) (es : list TimeEntry.t) : Q :=
  sumQ (map (entryAmount now) (filter TimeEntry.billable es)).

(** The seconds of the billable entries. *)
Definition billableSecondsOf (now : Z) (es : list TimeEntry.t) : Z :=
  fold_right Z.add 0
    (map (Reports.calculateDuration now) (filter TimeEntry.billable es)).

(** The data model's invariant on rates: none is negative. *)
Definition nonNegativeRate (e : TimeEntry.t) : Prop :=
  match TimeEntry.rate e with
  | Some r => (0 <= r)%Q
  | None => True
  end.

Definition isSome {A} (o : option A) : bool :=
  match o with Some _ => true | None => false end.

(** An entry for which no computation reads the clock: it has a [date] or
    a [start_time], and if it has a [start_time] it also has an [end_time]
    or a non-zero [duration_minutes]. *)
Definition clockFree (e : TimeEntry.t) : bool :=
  (isSome (TimeEntry.date e) || isSome (TimeEntry.start_time e))
  && (JS.truthyNum (TimeEntry.duration_minutes e)
      || isSome (TimeEntry.end_time e)
      || negb (isSome (TimeEntry.start_time e))).

Definition allClockFree (l : list TimeEntry.t) : Prop :=
  Forall (fun e => clockFree e = true) l.

(** ** Sample data *)

Definition acme : Customer.t := Customer.mk "c1" "A".

(** A timer that was started on 2024-01-10 at 09:00 UTC and still runs. *)
Definition runningEntry : TimeEntry.t :=
  TimeEntry.mk "running" None (Some (Cal.utc 2024 1 10 9 0 0)) None
    None None None None None true None None.

(** An entry whose end (09:00) lies before its start (10:00). *)
Definition reversedEntry : TimeEntry.t :=
  TimeEntry.mk "reversed" (Some "c1")
    (Some (Cal.utc 2024 1 10 10 0 0)) (Some (Cal.utc 2024 1 10 9 0 0))
    None (Some acme) None None None true None None.

(** An entry with [duration_minutes = 0] and timestamps an hour apart. *)
Definition zeroMinutesEntry : TimeEntry.t :=
  TimeEntry.mk "zero" (Some "c1")
    (Some (Cal.utc 2024 1 10 9 0 0)) (Some (Cal.utc 2024 1 10 10 0 0))
    None (Some acme) (Some 0) None None true None None.

(** The second entry of the specification's scenario: 09:00 to 10:30 local
    time (UTC+1) on 2024-01-01, not billable, no [date]. *)
Definition ninetyMinutesTimed : TimeEntry.t :=
  TimeEntry.mk "e2" (Some "c1")
    (Some (Cal.utc 2024 1 1 8 0 0)) (Some (Cal.utc 2024 1 1 9 30 0))
    None (Some acme) None None None false None None.

Definition newYearFilter (billableOnly : bool) : ReportFilters.t :=
  ReportFilters.mk (Some (Cal.days_from_civil 2024 1 1))
    (Some (Cal.days_from_civil 2024 1 1)) "" "" customer billableOnly.

(** A ninety-minute entry, recorded as minutes. *)
Definition ninetyMinutes : TimeEntry.t :=
  TimeEntry.mk "e1" (Some "c1") None None None (Some acme) (Some 90) None
    (Some (Cal.days_from_civil 2024 1 1)) true None None.

(** An entry with neither [date] nor [start_time], created on 2024-01-01
    at noon UTC. *)
Definition undatedEntry : TimeEntry.t :=
  TimeEntry.mk "undated" None None None None None (Some 30) None None true
    None (Some (Cal.utc 2024 1 1 12 0 0)).

(** The week of 8 to 14 January 2024, in Copenhagen's winter time. *)
Definition weekFilter : ReportFilters.t :=
  ReportFilters.mk (Some (Cal.days_from_civil 2024 1 8))
    (Some (Cal.days_from_civil 2024 1 14)) "" "" customer false.

Definition lastDayEntry : TimeEntry.t :=
  TimeEntry.mk "sunday" (Some "c1") None None None (Some acme) (Some 45)
    None (Some (Cal.days_from_civil 2024 1 14)) true None None.

Definition projectFilter : ReportFilters.t :=
  ReportFilters.mk None None "" "p1" customer false.

Definition may2024 : TimeEntry.t :=
  TimeEntry.mk "may2024" (Some "c1") None None None (Some acme) (Some 60)
    None (Some (Cal.days_from_civil 2024 5 1)) true None None.

Definition may2023 : TimeEntry.t :=
  TimeEntry.mk "may2023" (Some "c1") None None None (Some acme) (Some 120)
    None (Some (Cal.days_from_civil 2023 5 1)) true None None.

Definition dayFilter : ReportFilters.t :=
  ReportFilters.mk None None "" "" day false.

Definition customerFilter : ReportFilters.t :=
  ReportFilters.mk None None "" "" customer false.

Definition row2024 : ReportData.t :=
  ReportData.mk "01 maj" (100 # 100) 3600 (100 # 100) (0 # 100).

Definition row2023 : ReportData.t :=
  ReportData.mk "01 maj" (200 # 100) 7200 (200 # 100) (0 # 100).

(** One billable minute at a rate of 1 per hour. *)
Definition oneMinuteAtOne : TimeEntry.t :=
  TimeEntry.mk "minute" (Some "c1") None None None (Some acme) (Some 1)
    None (Some (Cal.days_from_civil 2024 1 1)) true (Some (1 # 1)) None.

(** Two billable hours at a rate of 500 per hour. *)
Definition twoHoursAt500 : TimeEntry.t :=
  TimeEntry.mk "scenario" (Some "c1") None None None (Some acme) (Some 120)
    None (Some (Cal.days_from_civil 2024 1 1)) true (Some (500 # 1)) None.

(** An entry that has the joined customer record but no [customer_id]. *)
Definition noCustomerId : TimeEntry.t :=
  TimeEntry.mk "orphan" None None None None (Some acme) (Some 60) None
    (Some (Cal.days_from_civil 2024 1 1)) true None None.

(** An entry that has a [customer_id] but no joined customer record. *)
Definition noCustomerRecord : TimeEntry.t :=
  TimeEntry.mk "dangling" (Some "c9") None None None None (Some 60) None
    (Some (Cal.days_from_civil 2024 1 1)) true None None.

Definition runningFilter : ReportFilters.t :=
  ReportFilters.mk None None "" "" task false.

(** The row of the list for the ninety-minute entry. *)
Definition sampleRow : ListRow.t :=
  ListRow.mk ninetyMinutes "t1" (Some "p1") None (Some "Meeting") true.

(** ** Further definitions for the properties of the aggregation *)

Definition sumZ (l : list Z) : Z := fold_right Z.add 0 l.

(** The seconds the report resolves for the entries that pass the filter. *)
Definition filteredSeconds (tz now : Z) (f : ReportFilters.t)
    (timeEntries : list TimeEntry.t) : list Z :=
  map (Reports.calculateDuration now)
    (Reports.filterTimeEntries tz now f timeEntries).

(** A group whose total is the sum of its two parts. *)
Definition balanced (d : Reports.Durations) : Prop :=
  Reports.total d = Reports.billable d + Reports.nonBillable d.

Definition projectGrouping : ReportFilters.t :=
  ReportFilters.mk None None "" "" project false.

(** ** Further definitions for the calendar, the filter and the groups *)

(** The day number of day [d] of month [mp] (0 for March) of the year
    [ys] that begins in March. *)
Definition marchDay (ys mp d : Z) : Z :=
  let era := ys / 400 in
  let yoe := ys - era * 400 in
  era * 146097 + (yoe * 365 + yoe / 4 - yoe / 100 + ((153 * mp + 2) / 5 + d - 1))
  - 719468.

(** The first day of the month with index [n], counted from January of
    year 0. *)
Definition monthStart (n : Z) : Z := Cal.makeDay 0 n 1.

(** The index of the month a day falls in. *)
Definition monthOf (z : Z) : Z :=
  let '(y, m, _) := Cal.civil_from_days z in 12 * y + (m - 1).

(** The calendar-day form of the date tests of [filterTimeEntries]. *)
Definition dayInRange (f : ReportFilters.t) (d : Z) : bool :=
  match ReportFilters.dateFrom f with
  | Some a => a <=? d
  | None => true
  end
  && match ReportFilters.dateTo f with
     | Some b => d <=? b
     | None => true
     end.

(** The local day on which UTC midnight of a date falls: the date itself
    from UTC eastwards, the day before west of UTC. *)
Definition localDayOfDate (tz d : Z) : Z := if 0 <=? tz then d else d - 1.

Definition shiftRange (tz : Z) (f : ReportFilters.t) : ReportFilters.t :=
  ReportFilters.mk
    (option_map (localDayOfDate tz) (ReportFilters.dateFrom f))
    (option_map (localDayOfDate tz) (ReportFilters.dateTo f))
    (ReportFilters.customer f) (ReportFilters.project f)
    (ReportFilters.groupBy f) (ReportFilters.billableOnly f).

(** The text of the duration column of a row of the list:
    [formatDuration(entry.duration_minutes, entry.start_time,
    entry.end_time)]. *)
Definition shownDuration (e : TimeEntry.t) : string :=
  TimeEntries.formatDuration (TimeEntry.duration_minutes e)
    (TimeEntry.start_time e) (TimeEntry.end_time e).

(** An entry with recorded minutes, or with both time stamps. *)
Definition hasDuration (e : TimeEntry.t) : bool :=
  isSome (TimeEntry.duration_minutes e)
  || (isSome (TimeEntry.start_time e) && isSome (TimeEntry.end_time e)).

(** No negative minutes, and no end before the start. *)
Definition forward (e : TimeEntry.t) : Prop :=
  match TimeEntry.duration_minutes e with
  | Some dm => 0 <= dm
  | None =>
      match TimeEntry.start_time e, TimeEntry.end_time e with
      | Some s, Some t => s <= t
      | _, _ => True
      end
  end.

(** The resolved seconds of a list of entries. *)
Definition secondsOf (now : Z) (l : list TimeEntry.t) : Z :=
  sumZ (map (Reports.calculateDuration now) l).

(** The entries of the group with key [k]. *)
Definition inGroup (tz now : Z) (g : GroupBy) (k : string)
    (e : TimeEntry.t) : bool :=
  (Reports.groupKey tz now g e =? k)%string.

(** The entries of the period with key [k]. *)
Definition inPeriod (tz now : Z) (view : PeriodView) (k : string)
    (e : TimeEntry.t) : bool :=
  (Reports.periodKey tz now view e =? k)%string.

Definition notBillable (e : TimeEntry.t) : bool := negb (TimeEntry.billable e).

(** ** Further definitions for the form and the list *)

(** A [parseInt] for the strings that [toString] writes: an optional
    minus sign and decimal digits. *)
Definition parseDecimal (s : string) : option Z :=
  option_map Z.of_int (NilZero.int_of_string s).

(** The list's filters without the two dates. *)
Definition clearDates (filters : ListFilters.t) : ListFilters.t :=
  ListFilters.mk (ListFilters.task filters) (ListFilters.project filters)
    (ListFilters.customer filters) None None
    (ListFilters.billable filters) (ListFilters.active filters).

(** The report's filters with the dates of the list's filters and nothing
    else. *)
Definition datesOnly (filters : ListFilters.t) : ReportFilters.t :=
  ReportFilters.mk (ListFilters.dateFrom filters) (ListFilters.dateTo filters)
    "" "" customer false.

(** The list's filters with another choice for "billable". *)
Definition withBillable (choice : string) (filters : ListFilters.t)
  : ListFilters.t :=
  ListFilters.mk (ListFilters.task filters) (ListFilters.project filters)
    (ListFilters.customer filters) (ListFilters.dateFrom filters)
    (ListFilters.dateTo filters) choice (ListFilters.active filters).

Definition noListFilters : ListFilters.t :=
  ListFilters.mk "" "" "" None None "" "".

(** A year that ['yyyy'] writes with four digits. *)
Definition fourDigitYear (tz t : Z) : Prop :=
  0 <= Cal.getFullYear tz t <= 9999.

(** The three sums of the group with key [k]. *)
Definition groupDurations (tz now : Z) (g : GroupBy) (k : string)
    (kept : list TimeEntry.t) : Reports.Durations :=
  let group := filter (inGroup tz now g k) kept in
  Reports.mkDurations (secondsOf now group)
    (secondsOf now (filter TimeEntry.billable group))
    (secondsOf now (filter notBillable group)).

(** * Properties *)

(** ** Sanity checks of the calendar and object models *)

Example days_from_civil_epoch : Cal.days_from_civil 1970 1 1 = 0.
Proof. reflexivity. Qed.

Example civil_from_days_2024 :
  Cal.civil_from_days (Cal.days_from_civil 2024 2 29) = (2024, 2, 29).
Proof. reflexivity. Qed.

Example startOfWeek_wednesday :
  Cal.format_yyyy_MM_dd 60 (Cal.startOfWeek 60 (Cal.utc 2024 1 10 12 0 0))
  = "2024-01-08".
Proof. vm_compute. reflexivity. Qed.

Example parseISO_format :
  option_map (Cal.format_dd_MMM 60) (Cal.parseISO 60 "2024-05-01")
  = Some "01 maj".
Proof. vm_compute. reflexivity. Qed.

Example entries_order :
  JS.entries [("b", 1); ("10", 2); ("a", 3); ("2", 4); ("02", 5)]
  = [("2", 4); ("10", 2); ("b", 1); ("a", 3); ("02", 5)].
Proof. vm_compute. reflexivity. Qed.

(** The specification's scenarios: two entries of ninety minutes for
    customer A on 2024-01-01, one billable, one not. *)
Example scenario_all_entries :
  Reports.reportData
    (Reports.generateReport (fun _ => None) 60 0 (newYearFilter false)
       [ninetyMinutes; ninetyMinutesTimed])
  = [ReportData.mk "A" (300 # 100) 10800 (150 # 100) (150 # 100)].
Proof. vm_compute. reflexivity. Qed.

Example scenario_billable_only :
  Reports.reportData
    (Reports.generateReport (fun _ => None) 60 0 (newYearFilter true)
       [ninetyMinutes; ninetyMinutesTimed])
  = [ReportData.mk "A" (150 # 100) 5400 (150 # 100) (0 # 100)].
Proof. vm_compute. reflexivity. Qed.

Example scenario_highlights :
  Dashboard.calculateTotalHours [ninetyMinutes; ninetyMinutesTimed] = 30 # 10
  /\ TimeEntries.calculateTotalHours [ninetyMinutes; ninetyMinutesTimed]
     = 30 # 10.
Proof. split; vm_compute; reflexivity. Qed.

(** ** General facts about the JavaScript layer *)

Section SortFacts.
Context {A : Type} (le : A -> A -> bool).

Lemma insert_perm (x : A) (l : list A) :
  Permutation (x :: l) (JS.insert le x l).
Proof.
  induction l as [|y l IH]; simpl.
  - apply Permutation_refl.
  - destruct (le x y).
    + apply Permutation_refl.
    + eapply perm_trans; [apply perm_swap|].
      now apply perm_skip.
Qed.

Lemma sort_perm (l : list A) : Permutation l (JS.sort le l).
Proof.
  induction l as [|x l IH]; simpl.
  - apply perm_nil.
  - eapply perm_trans; [apply perm_skip, IH | apply insert_perm].
Qed.

Lemma sort_In (x : A) (l : list A) : In x (JS.sort le l) <-> In x l.
Proof.
  split; intro H.
  - eapply Permutation_in; [apply Permutation_sym, sort_perm | exact H].
  - eapply Permutation_in; [apply sort_perm | exact H].
Qed.

Hypothesis le_total : forall a b, le a b = true \/ le b a = true.
Hypothesis le_trans :
  forall a b c, le a b = true -> le b c = true -> le a c = true.

Lemma insert_sorted (x : A) (l : list A) :
  StronglySorted (fun a b => le a b = true) l ->
  StronglySorted (fun a b => le a b = true) (JS.insert le x l).
Proof.
  induction 1 as [|y l Hs IH Hy]; simpl.
  - constructor; [constructor | constructor].
  - destruct (le x y) eqn:Hxy.
    + constructor.
      * now constructor.
      * constructor; [exact Hxy|].
        rewrite Forall_forall in Hy |- *.
        intros z Hz. eapply le_trans; [exact Hxy | now apply Hy].
    + constructor; [exact IH|].
      rewrite Forall_forall in Hy |- *.
      intros z Hz.
      apply (Permutation_in _ (Permutation_sym (insert_perm x l))) in Hz.
      destruct Hz as [<- | Hz].
      * destruct (le_total x y) as [H | H]; [congruence | exact H].
      * now apply Hy.
Qed.

Lemma sort_sorted (l : list A) :
  StronglySorted (fun a b => le a b = true) (JS.sort le l).
Proof.
  induction l as [|x l IH]; simpl.
  - constructor.
  - now apply insert_sorted.
Qed.
End SortFacts.

Lemma entries_In {V} (kv : string * V) (o : JS.object V) :
  In kv (JS.entries o) <-> In kv o.
Proof.
  unfold JS.entries. rewrite in_app_iff, sort_In, !filter_In.
  destruct (JS.isIndexKey kv); simpl; intuition congruence.
Qed.

Lemma entries_nil {V} : JS.entries (@nil (string * V)) = [].
Proof. reflexivity. Qed.

Lemma fold_left_ext_in {A B} (f g : A -> B -> A) (l : list B) :
  (forall a x, In x l -> f a x = g a x) ->
  forall a, fold_left f l a = fold_left g l a.
Proof.
  induction l as [|x l IH]; intros H a; simpl.
  - reflexivity.
  - rewrite (H a x) by now left.
    apply IH. intros a' y Hy. apply H. now right.
Qed.

(** Keys and stored values of an object after [upsert]. *)
Lemma upsert_In {V} (k : string) (init : V) (f : V -> V) (o : JS.object V)
    (kv : string * V) :
  In kv (JS.upsert k init f o) ->
  In kv o \/ (fst kv = k /\
              (snd kv = f init \/ exists v, In (k, v) o /\ snd kv = f v)).
Proof.
  induction o as [|[k' v] o IH]; simpl.
  - intros [<- | []]. right. simpl. auto.
  - destruct (String.eqb_spec k k') as [-> | Hne]; simpl.
    + intros [<- | H]; [|auto].
      right. simpl. split; [reflexivity|]. right. exists v. auto.
    + intros [<- | H]; [auto|].
      destruct (IH H) as [H' | [Hk [Hi | [v' [Hv Hs]]]]]; auto.
      right. split; [exact Hk|]. right. exists v'. auto.
Qed.

Lemma upsert_Forall {V} (R : V -> Prop) (k : string) (init : V)
    (f : V -> V) (o : JS.object V) :
  R (f init) -> (forall v, R v -> R (f v)) ->
  Forall (fun kv => R (snd kv)) o ->
  Forall (fun kv => R (snd kv)) (JS.upsert k init f o).
Proof.
  intros Hinit Hf Ho. rewrite Forall_forall in Ho |- *.
  intros kv Hkv.
  destruct (upsert_In _ _ _ _ _ Hkv) as [H | [_ [-> | [v [Hv ->]]]]].
  - now apply Ho.
  - exact Hinit.
  - apply Hf. exact (Ho _ Hv).
Qed.

(** ** Duration resolution (claims C1, C3, C5) *)

Lemma calculateDuration_minutes (now : Z) (e : TimeEntry.t) (m : Z) :
  TimeEntry.duration_minutes e = Some m -> m <> 0 ->
  Reports.calculateDuration now e = m * 60.
Proof.
  intros Hm Hnz. unfold Reports.calculateDuration. rewrite Hm. simpl.
  destruct (Z.eqb_spec m 0); [contradiction | reflexivity].
Qed.

Lemma whole_minutes_seconds (s t : Z) :
  s <= t -> (t - s) mod 60000 = 0 ->
  Cal.differenceInSeconds t s = 60 * ((t - s) / 60000).
Proof.
  intros Hle Hmod. unfold Cal.differenceInSeconds.
  rewrite Z.quot_div_nonneg by lia.
  pose proof (Z.div_mod (t - s) 60000 ltac:(lia)) as H1.
  pose proof (Z.div_mod (t - s) 1000 ltac:(lia)) as H2.
  pose proof (Z.mod_pos_bound (t - s) 1000 ltac:(lia)) as H3.
  lia.
Qed.

(** Without recorded minutes, an end a second or more before the start
    resolves to a negative number of seconds. *)
Lemma calculateDuration_negative (now : Z) (e : TimeEntry.t) (s t : Z) :
  JS.truthyNum (TimeEntry.duration_minutes e) = false ->
  TimeEntry.start_time e = Some s -> TimeEntry.end_time e = Some t ->
  t - s <= -1000 ->
  Reports.calculateDuration now e < 0.
Proof.
  intros Hm Hs Ht Hlt. unfold Reports.calculateDuration.
  rewrite Hm, Hs, Ht. unfold Cal.differenceInSeconds.
  rewrite <- (Z.opp_involutive (t - s)), Z.quot_opp_l by lia.
  rewrite Z.quot_div_nonneg by lia.
  pose proof (Z.div_le_lower_bound (- (t - s)) 1000 1 ltac:(lia) ltac:(lia)).
  lia.
Qed.

(** C1, as stated, fails: for a running entry the report counts the time
    elapsed so far, the two highlight computations count nothing. *)
Lemma running_entry_counted_differently :
  Reports.calculateDuration (Cal.utc 2024 1 10 10 0 0) runningEntry = 3600
  /\ 60 * Dashboard.entryMinutes runningEntry = 0
  /\ 60 * TimeEntries.entryMinutes runningEntry = 0
  /\ ~ (forall now e,
          Reports.calculateDuration now e = 60 * Dashboard.entryMinutes e
          /\ Reports.calculateDuration now e = 60 * TimeEntries.entryMinutes e).
Proof.
  repeat split; try reflexivity.
  intro H.
  destruct (H (Cal.utc 2024 1 10 10 0 0) runningEntry) as [H1 _].
  vm_compute in H1. discriminate.
Qed.

(** C1, amended: the two highlight computations resolve the same minutes
    for every entry without the dashboard-only [duration]; the report
    resolves sixty times those minutes, in seconds, for every entry with a
    non-zero [duration_minutes], and for every entry without recorded
    minutes that has no start or has a start and an end a whole,
    non-negative number of minutes apart; a running entry counts
    [now - start] in the report and nothing in the highlights. *)
Theorem duration_sites_agree (now : Z) (e : TimeEntry.t) :
  (TimeEntry.duration e = None ->
   Dashboard.entryMinutes e = TimeEntries.entryMinutes e)
  /\ (recordedInMinutes e = true ->
      Reports.calculateDuration now e = 60 * Dashboard.entryMinutes e
      /\ Reports.calculateDuration now e = 60 * TimeEntries.entryMinutes e)
  /\ (forall s,
      TimeEntry.duration_minutes e = None -> TimeEntry.duration e = None ->
      TimeEntry.start_time e = Some s -> TimeEntry.end_time e = None ->
      Reports.calculateDuration now e = Cal.differenceInSeconds now s
      /\ Dashboard.entryMinutes e = 0 /\ TimeEntries.entryMinutes e = 0).
Proof.
  split; [|split].
  - intro Hd. unfold Dashboard.entryMinutes, TimeEntries.entryMinutes.
    rewrite Hd. reflexivity.
  - unfold recordedInMinutes, Reports.calculateDuration,
      Dashboard.entryMinutes, TimeEntries.entryMinutes.
    destruct (TimeEntry.duration_minutes e) as [m|];
      cbn [JS.truthyNum JS.valueOf].
    + intros ->. split; lia.
    + destruct (TimeEntry.duration e); [discriminate|].
      destruct (TimeEntry.start_time e) as [s|];
        destruct (TimeEntry.end_time e) as [t|]; try discriminate;
        try (intros _; split; reflexivity).
      intro H. apply andb_prop in H. destruct H as [Hle Hmod].
      apply Z.leb_le in Hle. apply Z.eqb_eq in Hmod.
      rewrite (whole_minutes_seconds s t Hle Hmod).
      pose proof (Z.div_pos (t - s) 60000 ltac:(lia) ltac:(lia)) as Hpos.
      destruct (Z.ltb_spec 0 ((t - s) / 60000)); lia.
  - intros s Hm Hd Hs Ht.
    unfold Reports.calculateDuration, Dashboard.entryMinutes,
      TimeEntries.entryMinutes.
    rewrite Hm, Hd, Hs, Ht. simpl. auto.
Qed.

Lemma duration_sites_agree_witness :
  Dashboard.entryMinutes ninetyMinutes = TimeEntries.entryMinutes ninetyMinutes
  /\ Reports.calculateDuration 0 ninetyMinutes
     = 60 * Dashboard.entryMinutes ninetyMinutes
  /\ Reports.calculateDuration 0 runningEntry
     = Cal.differenceInSeconds 0 (Cal.utc 2024 1 10 9 0 0).
Proof.
  split; [|split].
  - apply (duration_sites_agree 0 ninetyMinutes). reflexivity.
  - apply (duration_sites_agree 0 ninetyMinutes). reflexivity.
  - destruct (duration_sites_agree 0 runningEntry) as (_ & _ & H).
    apply (H (Cal.utc 2024 1 10 9 0 0)); reflexivity.
Defined.

(** C3: the report's [calculateDuration] does not clamp.  An entry that
    ends an hour before it starts resolves to -3600 seconds, at any clock
    reading, and the negative hour reaches the report's row and totals; the
    highlight computations count the same entry as 0. *)
Theorem negative_duration_not_clamped (newDate : string -> option Z)
    (now : Z) :
  Reports.calculateDuration now reversedEntry = -3600
  /\ Dashboard.entryMinutes reversedEntry = 0
  /\ TimeEntries.entryMinutes reversedEntry = 0
  /\ Reports.generateReport newDate 0 now
       (ReportFilters.mk None None "" "" customer false) [reversedEntry]
     = Reports.mkReport
         [ReportData.mk "A" (-100 # 100) (-3600) (-100 # 100) (0 # 100)]
         (-100 # 100) (-100 # 100) (0 # 100).
Proof.
  repeat split; reflexivity.
Qed.

(** C5: [if (entry.duration_minutes)] takes a recorded duration of zero
    minutes for an absent one.  With timestamps an hour apart the entry
    resolves to 3600 seconds instead of [0 * 60]; the highlight
    computations, which test against [null], resolve it to 0 minutes. *)
Theorem zero_minutes_falls_through (now : Z) :
  TimeEntry.duration_minutes zeroMinutesEntry = Some 0
  /\ Reports.calculateDuration now zeroMinutesEntry = 3600
  /\ Reports.calculateDuration now zeroMinutesEntry <> 0 * 60
  /\ Dashboard.entryMinutes zeroMinutesEntry = 0
  /\ TimeEntries.entryMinutes zeroMinutesEntry = 0.
Proof.
  repeat split; try reflexivity. discriminate.
Qed.

(** ** The effective date (claim C2) *)

(** C2, as stated, fails: in the report an entry with neither [date] nor
    [start_time] is filed under the clock reading, not under its
    [created_at]; here under 2024-06-01 instead of 2024-01-01, so that a
    filter on 2024-01-01 drops it, while the highlight computations file
    it under [created_at]. *)
Lemma report_ignores_created_at :
  TimeEntry.created_at undatedEntry = Some (Cal.utc 2024 1 1 12 0 0)
  /\ Reports.entryDate (Cal.utc 2024 6 1 12 0 0) undatedEntry
     = Cal.utc 2024 6 1 12 0 0
  /\ Some (Reports.entryDate (Cal.utc 2024 6 1 12 0 0) undatedEntry)
     <> TimeEntry.created_at undatedEntry
  /\ Reports.groupKey 0 (Cal.utc 2024 6 1 12 0 0) day undatedEntry
     = "2024-06-01"
  /\ Reports.filterTimeEntries 0 (Cal.utc 2024 6 1 12 0 0)
       (ReportFilters.mk (Some (Cal.days_from_civil 2024 1 1))
          (Some (Cal.days_from_civil 2024 1 1)) "" "" day false)
       [undatedEntry] = []
  /\ Dashboard.getEntryDate 0 undatedEntry = Some (Cal.utc 2024 1 1 12 0 0).
Proof.
  repeat split; try reflexivity. discriminate.
Qed.

(** C2, amended: the two highlight computations resolve the date by the
    precedence [date], else [start_time], else [created_at], identically,
    and yield a date whenever [created_at] is present; the report resolves
    it by the precedence [date], else [start_time], else the clock reading
    ([created_at] is not consulted), and its filter and both of its
    bucketings depend on an entry's dates through that one resolution
    only. *)
Theorem effective_date_precedence (tz now : Z) (e : TimeEntry.t) :
  Dashboard.getEntryDate tz e = TimeEntries.getEntryDate tz e
  /\ (forall d, TimeEntry.date e = Some d ->
        Dashboard.getEntryDate tz e = Some (Cal.localMidnight tz d)
        /\ Reports.entryDate now e = Cal.utcMidnight d)
  /\ (forall s, TimeEntry.date e = None -> TimeEntry.start_time e = Some s ->
        Dashboard.getEntryDate tz e = Some s /\ Reports.entryDate now e = s)
  /\ (TimeEntry.date e = None -> TimeEntry.start_time e = None ->
        Dashboard.getEntryDate tz e = TimeEntry.created_at e
        /\ Reports.entryDate now e = now)
  /\ (forall c, TimeEntry.created_at e = Some c ->
        exists t, Dashboard.getEntryDate tz e = Some t)
  /\ (forall e' f view,
        Reports.entryDate now e' = Reports.entryDate now e ->
        Reports.groupKey tz now day e' = Reports.groupKey tz now day e
        /\ Reports.periodKey tz now view e' = Reports.periodKey tz now view e
        /\ (noOtherFilter f = true ->
            Reports.keepEntry tz now f e' = Reports.keepEntry tz now f e)).
Proof.
  unfold Dashboard.getEntryDate, TimeEntries.getEntryDate, Reports.entryDate.
  split; [reflexivity|].
  split; [intros d ->; auto|].
  split; [intros s -> ->; auto|].
  split; [intros -> ->; split; [|reflexivity]|].
  { destruct (TimeEntry.created_at e); reflexivity. }
  split.
  - intros c Hc. rewrite Hc.
    destruct (TimeEntry.date e); [eauto|].
    destruct (TimeEntry.start_time e); eauto.
  - intros e' f view Heq.
    unfold Reports.groupKey, Reports.periodKey, Reports.keepEntry,
      Reports.entryDate.
    rewrite Heq. repeat split.
    unfold noOtherFilter. intro H.
    apply andb_prop in H. destruct H as [H Hb].
    apply andb_prop in H. destruct H as [Hc Hp].
    apply negb_true_iff in Hb, Hc, Hp. rewrite Hb, Hc, Hp. reflexivity.
Qed.

Lemma effective_date_precedence_witness :
  Reports.entryDate 7 undatedEntry = 7
  /\ (exists t, Dashboard.getEntryDate 0 undatedEntry = Some t)
  /\ Dashboard.getEntryDate 60 ninetyMinutes
     = Some (Cal.localMidnight 60 (Cal.days_from_civil 2024 1 1)).
Proof.
  split; [|split].
  - apply (effective_date_precedence 0 7 undatedEntry); reflexivity.
  - destruct (effective_date_precedence 0 7 undatedEntry)
      as (_ & _ & _ & _ & H & _).
    apply (H (Cal.utc 2024 1 1 12 0 0)). reflexivity.
  - destruct (effective_date_precedence 60 7 ninetyMinutes)
      as (_ & H & _).
    apply (H (Cal.days_from_civil 2024 1 1)). reflexivity.
Defined.

(** ** Date ranges (claim C6) *)

Lemma keepEntry_inRange (tz now : Z) (f : ReportFilters.t) (e : TimeEntry.t) :
  Reports.keepEntry tz now f e
  = inRange tz f (Reports.entryDate now e) && passesOtherFilters f e.
Proof.
  unfold Reports.keepEntry, inRange, passesOtherFilters.
  destruct (ReportFilters.dateFrom f) as [a|];
    destruct (ReportFilters.dateTo f) as [b|];
    repeat match goal with
      | |- context [?x <? ?y] =>
          destruct (Z.ltb_spec x y); destruct (Z.leb_spec y x); try lia
      end;
    simpl;
    destruct (JS.truthyStr (ReportFilters.customer f)
              && JS.strictNeq (TimeEntry.customer_id e)
                   (ReportFilters.customer f));
    destruct (JS.truthyStr (ReportFilters.project f));
    destruct (ReportFilters.billableOnly f && negb (TimeEntry.billable e));
    reflexivity.
Qed.

Lemma startOfDay_le (tz t : Z) : Cal.startOfDay tz t <= t.
Proof.
  unfold Cal.startOfDay, Cal.localMidnight, Cal.localDay, Cal.msPerDay,
    Cal.msPerMinute.
  Z.to_euclidean_division_equations. lia.
Qed.

Lemma le_endOfDay (tz t : Z) : t <= Cal.endOfDay tz t.
Proof.
  unfold Cal.endOfDay, Cal.startOfDay, Cal.localMidnight, Cal.localDay,
    Cal.msPerDay, Cal.msPerMinute.
  Z.to_euclidean_division_equations. lia.
Qed.

Lemma localDay_mono (tz a b : Z) :
  a <= b -> Cal.localDay tz a <= Cal.localDay tz b.
Proof.
  intro H. unfold Cal.localDay, Cal.msPerDay, Cal.msPerMinute.
  apply Z.div_le_mono; lia.
Qed.

Lemma startOfDay_mono (tz a b : Z) :
  a <= b -> Cal.startOfDay tz a <= Cal.startOfDay tz b.
Proof.
  intro H. pose proof (localDay_mono tz a b H).
  unfold Cal.startOfDay, Cal.localMidnight, Cal.msPerDay, Cal.msPerMinute.
  lia.
Qed.

Lemma same_day_le_endOfDay (tz x t : Z) :
  Cal.localDay tz x = Cal.localDay tz t -> x <= Cal.endOfDay tz t.
Proof.
  intro H. pose proof (le_endOfDay tz x) as Hx.
  unfold Cal.endOfDay, Cal.startOfDay in *. rewrite H in Hx. exact Hx.
Qed.

Lemma utcMidnight_mono (a b : Z) :
  a <= b -> Cal.utcMidnight a <= Cal.utcMidnight b.
Proof. unfold Cal.utcMidnight, Cal.msPerDay. lia. Qed.

(** A bound can never exclude its own day, and a range that is not
    reversed contains both of its normalized bounds. *)
Lemma inRange_between (tz : Z) (f : ReportFilters.t) (d : Z) :
  (forall a, ReportFilters.dateFrom f = Some a ->
     Cal.startOfDay tz (Cal.utcMidnight a) <= d) ->
  (forall b, ReportFilters.dateTo f = Some b ->
     d <= Cal.endOfDay tz (Cal.utcMidnight b)) ->
  inRange tz f d = true.
Proof.
  intros Ha Hb. unfold inRange.
  destruct (ReportFilters.dateFrom f) as [a|];
    destruct (ReportFilters.dateTo f) as [b|]; simpl;
    rewrite ?andb_true_iff, ?Z.leb_le; auto.
Qed.



(** ** The project filter (claim C9) *)

Lemma truthyStr_nonempty (s : string) : s <> "" -> JS.truthyStr s = true.
Proof.
  intro H. unfold JS.truthyStr.
  destruct (String.eqb_spec s ""); [contradiction | reflexivity].
Qed.

Lemma keepEntry_project (tz now : Z) (f : ReportFilters.t) (e : TimeEntry.t) :
  ReportFilters.project f <> "" -> Reports.keepEntry tz now f e = false.
Proof.
  intro H. rewrite keepEntry_inRange. unfold passesOtherFilters.
  rewrite (truthyStr_nonempty _ H). simpl.
  rewrite andb_false_r. simpl. apply andb_false_r.
Qed.

(** C9: once the filter's [project] field is not empty, the entry filter
    rejects every entry; the report then has no rows, and there are no
    period summaries either. *)
Theorem project_filter_rejects_everything
    (newDate : string -> option Z) (localeCompare : string -> string -> Z)
    (tz now : Z) (f : ReportFilters.t) (view : PeriodView)
    (timeEntries : list TimeEntry.t) :
  ReportFilters.project f <> "" ->
  Reports.filterTimeEntries tz now f timeEntries = []
  /\ Reports.reportData (Reports.generateReport newDate tz now f timeEntries)
     = []
  /\ Reports.generatePeriodSummaries localeCompare tz now f view timeEntries
     = [].
Proof.
  intro H.
  assert (Hf : Reports.filterTimeEntries tz now f timeEntries = []).
  { unfold Reports.filterTimeEntries.
    induction timeEntries as [|e l IH]; simpl.
    - reflexivity.
    - rewrite (keepEntry_project tz now f e H). exact IH. }
  split; [exact Hf|]. split.
  - unfold Reports.generateReport. rewrite Hf. simpl.
    destruct (ReportFilters.groupBy f); reflexivity.
  - unfold Reports.generatePeriodSummaries. rewrite Hf. reflexivity.
Qed.

Lemma project_filter_rejects_everything_witness :
  Reports.filterTimeEntries 60 0 projectFilter [ninetyMinutes; runningEntry]
  = [].
Proof.
  apply (project_filter_rejects_everything (fun _ => None) (fun _ _ => 0)
           60 0 projectFilter week [ninetyMinutes; runningEntry]).
  discriminate.
Defined.

(** ** Order of the report's rows (claim C4) *)

Lemma reportData_sorted (newDate : string -> option Z) (tz now : Z)
    (f : ReportFilters.t) (timeEntries : list TimeEntry.t) :
  Reports.reportData (Reports.generateReport newDate tz now f timeEntries)
  = JS.sort
      match ReportFilters.groupBy f with
      | day => Reports.byDateOfName newDate
      | _ => Reports.bySecondsDesc
      end
      (map (Reports.toRow tz (ReportFilters.groupBy f))
         (unsortedRows tz now f timeEntries)).
Proof.
  unfold Reports.generateReport, unsortedRows.
  destruct (ReportFilters.groupBy f); reflexivity.
Qed.

Lemma byDateOfName_same_name (newDate : string -> option Z)
    (a b : ReportData.t) :
  ReportData.name a = ReportData.name b ->
  Reports.byDateOfName newDate a b = true.
Proof.
  intro H. unfold Reports.byDateOfName. rewrite H.
  destruct (newDate (ReportData.name b)); [|reflexivity].
  apply Z.leb_le. lia.
Qed.

Lemma bySecondsDesc_sorted (l : list ReportData.t) :
  StronglySorted
    (fun a b => ReportData.seconds b <= ReportData.seconds a)
    (JS.sort Reports.bySecondsDesc l).
Proof.
  assert (H : StronglySorted (fun a b => Reports.bySecondsDesc a b = true)
                (JS.sort Reports.bySecondsDesc l)).
  { apply sort_sorted; unfold Reports.bySecondsDesc.
    - intros a b.
      destruct (Z.leb_spec (ReportData.seconds b - ReportData.seconds a) 0);
        [now left | right; apply Z.leb_le; lia].
    - intros a b c H1 H2. apply Z.leb_le in H1, H2. apply Z.leb_le. lia. }
  induction H as [|a l' Hs IH Ha]; constructor.
  - exact IH.
  - eapply Forall_impl; [|exact Ha].
    intros b Hb. unfold Reports.bySecondsDesc in Hb.
    apply Z.leb_le in Hb. lia.
Qed.

(** C4: grouped by customer, task or project the rows come in descending
    order of their seconds.  Grouped by day they do not come in
    chronological order: the comparator reads [new Date(a.name)] after the
    name was rewritten from the ['yyyy-MM-dd'] key to ['dd MMM'], which has
    no year.  The days 2024-05-01 and 2023-05-01 are both named "01 maj",
    any reading of that string gives the comparator 0 or [NaN], the stable
    sort keeps the order of first appearance, and the row of 2024 precedes
    the row of 2023. *)
Theorem report_row_order (newDate : string -> option Z) (tz now : Z)
    (f : ReportFilters.t) (timeEntries : list TimeEntry.t) :
  (ReportFilters.groupBy f <> day ->
   StronglySorted
     (fun a b => ReportData.seconds b <= ReportData.seconds a)
     (Reports.reportData
        (Reports.generateReport newDate tz now f timeEntries)))
  /\ Reports.reportData
       (Reports.generateReport newDate 120 now dayFilter [may2024; may2023])
     = [row2024; row2023]
  /\ chronologicalRows 120 now dayFilter [may2024; may2023]
     = [row2023; row2024].
Proof.
  split; [|split].
  - intro Hg. rewrite reportData_sorted.
    destruct (ReportFilters.groupBy f); try contradiction;
      apply bySecondsDesc_sorted.
  - rewrite reportData_sorted.
    change (ReportFilters.groupBy dayFilter) with day. cbv iota.
    replace (map (Reports.toRow 120 day)
               (unsortedRows 120 now dayFilter [may2024; may2023]))
      with [row2024; row2023] by (vm_compute; reflexivity).
    cbn [JS.sort JS.insert].
    rewrite byDateOfName_same_name by reflexivity. reflexivity.
  - vm_compute. reflexivity.
Qed.

Lemma report_row_order_witness :
  StronglySorted
    (fun a b => ReportData.seconds b <= ReportData.seconds a)
    (Reports.reportData
       (Reports.generateReport (fun _ => None) 120 0 customerFilter
          [may2024; reversedEntry; ninetyMinutes])).
Proof.
  apply (report_row_order (fun _ => None) 120 0 customerFilter
           [may2024; reversedEntry; ninetyMinutes]).
  discriminate.
Defined.

(** ** Client groups (claims C7, C10) *)

Lemma addToClientGroups_key (o : JS.object Reports.ClientGroup)
    (e : TimeEntry.t) :
  Reports.addToClientGroups o e
  = match clientKey e, TimeEntry.customer e with
    | Some k, Some c =>
        JS.upsert k (Reports.mkClientGroup [] c)
          (fun grp => Reports.mkClientGroup (Reports.entries grp ++ [e])
                                             (Reports.groupCustomer grp)) o
    | _, _ => o
    end.
Proof.
  unfold Reports.addToClientGroups, clientKey.
  destruct (TimeEntry.customer e) as [c|]; [|reflexivity].
  destruct (TimeEntry.customer_id e) as [cid|]; [|reflexivity].
  destruct (JS.truthyStr cid); reflexivity.
Qed.

Lemma upsert_key_in {V} (k : string) (init : V) (f : V -> V)
    (o : JS.object V) (x : string) :
  In x (map fst (JS.upsert k init f o)) <-> In x (map fst o) \/ x = k.
Proof.
  induction o as [|[k' v] o IH]; simpl.
  - intuition.
  - destruct (String.eqb_spec k k') as [-> | Hne]; simpl.
    + intuition.
    + rewrite IH. intuition.
Qed.

Lemma upsert_NoDup {V} (k : string) (init : V) (f : V -> V)
    (o : JS.object V) :
  NoDup (map fst o) -> NoDup (map fst (JS.upsert k init f o)).
Proof.
  induction o as [|[k' v] o IH]; simpl; intro H.
  - constructor; [intros [] | constructor].
  - inversion H as [|? ? Hnotin Hnd]; subst.
    destruct (String.eqb_spec k k') as [-> | Hne]; simpl.
    + now constructor.
    + constructor; [|now apply IH].
      rewrite upsert_key_in. intros [Hin | ->]; [contradiction | congruence].
Qed.

(** With distinct keys, what [upsert] leaves in the object. *)
Lemma upsert_In_inv {V} (k : string) (init : V) (f : V -> V)
    (o : JS.object V) (k' : string) (g : V) :
  NoDup (map fst o) ->
  In (k', g) (JS.upsert k init f o) ->
  (k' <> k /\ In (k', g) o)
  \/ (k' = k /\ ((~ In k (map fst o) /\ g = f init)
                 \/ exists v, In (k, v) o /\ g = f v)).
Proof.
  induction o as [|[k0 v0] o IH]; simpl; intros Hnd Hin.
  - destruct Hin as [Heq | []]. injection Heq as <- <-.
    right. split; [reflexivity|]. left. split; [tauto | reflexivity].
  - inversion Hnd as [|? ? Hnotin Hnd']; subst.
    destruct (String.eqb_spec k k0) as [-> | Hne]; simpl in Hin.
    + destruct Hin as [Heq | Hin].
      * injection Heq as <- <-. right. split; [reflexivity|].
        right. exists v0. auto.
      * left. split; [|auto].
        intros ->. apply Hnotin. apply (in_map fst) in Hin. exact Hin.
    + destruct Hin as [Heq | Hin].
      * injection Heq as <- <-. left. split; [congruence | auto].
      * destruct (IH Hnd' Hin) as [[Hk Hi] | [Hk [[Hn Hg] | [v [Hv Hg]]]]].
        -- left. auto.
        -- right. split; [exact Hk|]. left. split; [|exact Hg].
           intros [H | H]; [congruence | contradiction].
        -- right. split; [exact Hk|]. right. exists v. auto.
Qed.

Lemma filter_none {A} (p : A -> bool) (l : list A) :
  (forall x, In x l -> p x = false) -> filter p l = [].
Proof.
  induction l as [|x l IH]; simpl; intro H.
  - reflexivity.
  - rewrite (H x) by now left. apply IH. intros y Hy. apply H. now right.
Qed.

Lemma filter_snoc {A} (p : A -> bool) (l : list A) (x : A) :
  filter p (l ++ [x]) = filter p l ++ (if p x then [x] else []).
Proof.
  rewrite filter_app. simpl. destruct (p x); reflexivity.
Qed.

Lemma clientGroups_snoc (l : list TimeEntry.t) (e : TimeEntry.t) :
  Reports.clientGroups (l ++ [e])
  = Reports.addToClientGroups (Reports.clientGroups l) e.
Proof. unfold Reports.clientGroups. now rewrite fold_left_app. Qed.

(** The groups after the first pass: one group per client key, holding
    exactly the entries filed under that key, in their order. *)
Lemma clientGroups_spec (l : list TimeEntry.t) :
  NoDup (map fst (Reports.clientGroups l))
  /\ (forall k grp, In (k, grp) (Reports.clientGroups l) ->
        Reports.entries grp = filter (ofClient k) l)
  /\ (forall e k, In e l -> clientKey e = Some k ->
        In k (map fst (Reports.clientGroups l))).
Proof.
  induction l as [|e l (Hnd & Hgrp & Hkey)] using rev_ind.
  - split; [constructor|]. split; [intros k grp []|intros e k []].
  - rewrite clientGroups_snoc, addToClientGroups_key.
    destruct (clientKey e) as [k|] eqn:Hk.
    + assert (exists c, TimeEntry.customer e = Some c) as [c Hc].
      { unfold clientKey in Hk.
        destruct (TimeEntry.customer e); [eauto | discriminate]. }
      rewrite Hc. split; [now apply upsert_NoDup|]. split.
      * intros k' grp Hin. rewrite filter_snoc.
        unfold ofClient at 2. rewrite Hk.
        apply upsert_In_inv in Hin; [|exact Hnd].
        destruct Hin as [[Hne Hin] | [-> [[Hnot ->] | [v [Hv ->]]]]].
        -- destruct (String.eqb_spec k k'); [congruence|].
           rewrite app_nil_r. now apply Hgrp.
        -- rewrite String.eqb_refl. simpl.
           rewrite filter_none; [reflexivity|].
           intros x Hx. unfold ofClient.
           destruct (clientKey x) as [kx|] eqn:Hkx; [|reflexivity].
           destruct (String.eqb_spec kx k) as [-> | ]; [|reflexivity].
           exfalso. apply Hnot. eapply Hkey; eauto.
        -- rewrite String.eqb_refl. simpl. f_equal. now apply Hgrp.
      * intros x kx Hx Hkx. rewrite upsert_key_in.
        apply in_app_or in Hx. destruct Hx as [Hx | [<- | []]].
        -- left. eapply Hkey; eauto.
        -- right. congruence.
    + cbv beta iota. split; [exact Hnd|]. split.
      * intros k grp Hin. rewrite filter_snoc.
        unfold ofClient at 2. rewrite Hk, app_nil_r. now apply Hgrp.
      * intros x kx Hx Hkx.
        apply in_app_or in Hx. destruct Hx as [Hx | [<- | []]].
        -- eapply Hkey; eauto.
        -- congruence.
Qed.

Lemma clientGroups_nonempty (l : list TimeEntry.t) :
  Forall (fun kv => Reports.entries (snd kv) <> []) (Reports.clientGroups l).
Proof.
  induction l as [|e l IH] using rev_ind.
  - constructor.
  - rewrite clientGroups_snoc, addToClientGroups_key.
    destruct (clientKey e); [|exact IH].
    destruct (TimeEntry.customer e); [|exact IH].
    apply (upsert_Forall (fun g => Reports.entries g <> [])); simpl.
    + discriminate.
    + intros v _ H. now apply app_eq_nil in H as [_ H].
    + exact IH.
Qed.

(** Entries without a client key leave the groups as they are. *)
Lemma clientGroups_filter (l : list TimeEntry.t) :
  Reports.clientGroups l = Reports.clientGroups (filter hasClient l).
Proof.
  unfold Reports.clientGroups. generalize (@nil (string * Reports.ClientGroup)).
  induction l as [|e l IH]; intro o; simpl.
  - reflexivity.
  - unfold hasClient at 1.
    destruct (clientKey e) eqn:Hk; simpl.
    + apply IH.
    + rewrite IH. f_equal.
      rewrite addToClientGroups_key, Hk. reflexivity.
Qed.

(** ** Billable amounts (claim C7) *)

Lemma round2_eq (x y : Q) : (x == y)%Q -> JS.round2 x = JS.round2 y.
Proof.
  intro H. unfold JS.round2, JS.Math_round.
  assert (H' : (x * 100 + (1 # 2) == y * 100 + (1 # 2))%Q)
    by (rewrite H; reflexivity).
  now rewrite (Qfloor_comp _ _ H').
Qed.

Lemma positive_false_nonneg (r : Q) :
  JS.positive r = false -> (0 <= r)%Q -> (r == 0)%Q.
Proof.
  unfold JS.positive. intros H Hr.
  apply negb_false_iff, Qle_bool_iff in H.
  now apply Qle_antisym.
Qed.

Lemma fold_sumClientEntry (now : Z) (es : list TimeEntry.t) :
  Forall nonNegativeRate es ->
  forall acc,
    (Reports.amount (fold_left (Reports.sumClientEntry now) es acc)
     == Reports.amount acc + billableAmountOf now es)%Q
    /\ Reports.billable
         (Reports.clientDurations
            (fold_left (Reports.sumClientEntry now) es acc))
       = Reports.billable (Reports.clientDurations acc)
         + billableSecondsOf now es.
Proof.
  induction 1 as [|e es He Hes IH]; intro acc.
  - unfold billableAmountOf, billableSecondsOf. simpl. split; [ring | lia].
  - cbn [fold_left]. destruct (IH (Reports.sumClientEntry now acc e))
      as [IHa IHs].
    rewrite IHa, IHs. clear IH IHa IHs.
    unfold billableAmountOf, billableSecondsOf, Reports.sumClientEntry,
      Reports.addDuration, Reports.hasRate, Reports.rateOf, entryAmount,
      nonNegativeRate, sumQ in *.
    cbn [filter]. destruct (TimeEntry.billable e); cbn [Reports.amount
      Reports.clientDurations Reports.billable map fold_right andb].
    + split; [|lia].
      destruct (TimeEntry.rate e) as [r|].
      * destruct (JS.positive r) eqn:Hp.
        -- ring.
        -- rewrite (positive_false_nonneg r Hp He). ring.
      * ring.
    + split; [reflexivity | lia].
Qed.




(** ** Entries without a customer (claim C10) *)

Lemma clientKey_inv (e : TimeEntry.t) (k : string) :
  clientKey e = Some k ->
  exists c cid,
    TimeEntry.customer e = Some c /\ TimeEntry.customer_id e = Some cid
    /\ cid <> "" /\ Customer.id c = k.
Proof.
  unfold clientKey.
  destruct (TimeEntry.customer e) as [c|]; [|discriminate].
  destruct (TimeEntry.customer_id e) as [cid|]; [|discriminate].
  unfold JS.truthyStr.
  destruct (String.eqb_spec cid ""); simpl; [discriminate|].
  intro H. injection H as <-. exists c, cid. auto.
Qed.

Lemma ofClient_inv (k : string) (e : TimeEntry.t) :
  ofClient k e = true -> clientKey e = Some k.
Proof.
  unfold ofClient. destruct (clientKey e) as [k'|]; [|discriminate].
  intro H. apply String.eqb_eq in H. now subst.
Qed.




(** ** Determinism (claim C8) *)

Section ClockFree.
Variables (tz now1 now2 : Z).

Lemma clockFree_duration (e : TimeEntry.t) :
  clockFree e = true ->
  Reports.calculateDuration now1 e = Reports.calculateDuration now2 e.
Proof.
  unfold clockFree, Reports.calculateDuration.
  destruct (JS.truthyNum (TimeEntry.duration_minutes e)); [reflexivity|].
  destruct (TimeEntry.start_time e), (TimeEntry.end_time e);
    try reflexivity.
  simpl. rewrite andb_false_r. discriminate.
Qed.

Lemma clockFree_entryDate (e : TimeEntry.t) :
  clockFree e = true -> Reports.entryDate now1 e = Reports.entryDate now2 e.
Proof.
  unfold clockFree, Reports.entryDate.
  destruct (TimeEntry.date e); [reflexivity|].
  destruct (TimeEntry.start_time e); [reflexivity|]. discriminate.
Qed.

Lemma clockFree_keepEntry (f : ReportFilters.t) (e : TimeEntry.t) :
  clockFree e = true ->
  Reports.keepEntry tz now1 f e = Reports.keepEntry tz now2 f e.
Proof.
  intro H. unfold Reports.keepEntry.
  now rewrite (clockFree_entryDate e H).
Qed.

Lemma clockFree_accumulate (g : GroupBy) (acc : Reports.Totals)
    (e : TimeEntry.t) :
  clockFree e = true ->
  Reports.accumulate tz now1 g acc e = Reports.accumulate tz now2 g acc e.
Proof.
  intro H. unfold Reports.accumulate, Reports.groupKey.
  now rewrite (clockFree_duration e H), (clockFree_entryDate e H).
Qed.

Lemma clockFree_pushEntry (view : PeriodView)
    (o : JS.object (list TimeEntry.t)) (e : TimeEntry.t) :
  clockFree e = true ->
  Reports.pushEntry tz now1 view o e = Reports.pushEntry tz now2 view o e.
Proof.
  intro H. unfold Reports.pushEntry, Reports.periodKey.
  now rewrite (clockFree_entryDate e H).
Qed.

Lemma clockFree_filter (f : ReportFilters.t) (l : list TimeEntry.t) :
  allClockFree l ->
  Reports.filterTimeEntries tz now1 f l
  = Reports.filterTimeEntries tz now2 f l
  /\ allClockFree (Reports.filterTimeEntries tz now2 f l).
Proof.
  intro H. split.
  - apply filter_ext_in. intros e He. apply clockFree_keepEntry.
    unfold allClockFree in H. rewrite Forall_forall in H. now apply H.
  - eapply incl_Forall; [apply incl_filter | exact H].
Qed.

Lemma clockFree_sums (l : list TimeEntry.t) (acc : Reports.Durations) :
  allClockFree l ->
  fold_left (Reports.sumEntry now1) l acc
  = fold_left (Reports.sumEntry now2) l acc.
Proof.
  intro H. apply fold_left_ext_in. intros a e He.
  unfold Reports.sumEntry. rewrite (clockFree_duration e); [reflexivity|].
  unfold allClockFree in H. rewrite Forall_forall in H. now apply H.
Qed.

Lemma clockFree_clientSums (l : list TimeEntry.t)
    (acc : Reports.ClientSums) :
  allClockFree l ->
  fold_left (Reports.sumClientEntry now1) l acc
  = fold_left (Reports.sumClientEntry now2) l acc.
Proof.
  intro H. apply fold_left_ext_in. intros a e He.
  unfold Reports.sumClientEntry.
  rewrite (clockFree_duration e); [reflexivity|].
  unfold allClockFree in H. rewrite Forall_forall in H. now apply H.
Qed.

Lemma periodGroups_clockFree (view : PeriodView) (l : list TimeEntry.t) :
  allClockFree l ->
  forall o,
    Forall (fun kv => allClockFree (snd kv)) o ->
    Forall (fun kv => allClockFree (snd kv))
      (fold_left (Reports.pushEntry tz now2 view) l o).
Proof.
  induction 1 as [|e l He Hl IH]; intros o Ho; simpl.
  - exact Ho.
  - apply IH. unfold Reports.pushEntry.
    apply (upsert_Forall allClockFree).
    + repeat constructor. exact He.
    + intros v Hv. apply Forall_app. split; [exact Hv|].
      repeat constructor. exact He.
    + exact Ho.
Qed.

Lemma clockFree_generateReport (newDate : string -> option Z)
    (f : ReportFilters.t) (l : list TimeEntry.t) :
  allClockFree l ->
  Reports.generateReport newDate tz now1 f l
  = Reports.generateReport newDate tz now2 f l.
Proof.
  intro H. destruct (clockFree_filter f l H) as [Hf Hall].
  unfold Reports.generateReport. rewrite Hf.
  rewrite (fold_left_ext_in
             (Reports.accumulate tz now1 (ReportFilters.groupBy f))
             (Reports.accumulate tz now2 (ReportFilters.groupBy f))).
  - reflexivity.
  - intros a e He. apply clockFree_accumulate.
    unfold allClockFree in Hall. rewrite Forall_forall in Hall.
    now apply Hall.
Qed.

Lemma clockFree_generatePeriodSummaries
    (localeCompare : string -> string -> Z) (f : ReportFilters.t)
    (view : PeriodView) (l : list TimeEntry.t) :
  allClockFree l ->
  Reports.generatePeriodSummaries localeCompare tz now1 f view l
  = Reports.generatePeriodSummaries localeCompare tz now2 f view l.
Proof.
  intro H. destruct (clockFree_filter f l H) as [Hf Hall].
  unfold Reports.generatePeriodSummaries. rewrite Hf.
  rewrite (fold_left_ext_in (Reports.pushEntry tz now1 view)
             (Reports.pushEntry tz now2 view)).
  - f_equal. apply map_ext_in. intros [k g] Hin.
    rewrite entries_In in Hin.
    pose proof (periodGroups_clockFree view _ Hall [] (Forall_nil _)) as Hg.
    rewrite Forall_forall in Hg. specialize (Hg _ Hin). simpl in Hg.
    unfold Reports.summarizePeriod.
    now rewrite (clockFree_sums g _ Hg).
  - intros a e He. apply clockFree_pushEntry.
    unfold allClockFree in Hall. rewrite Forall_forall in Hall.
    now apply Hall.
Qed.

Lemma clockFree_generateClientSummaries (l : list TimeEntry.t) :
  allClockFree l ->
  Reports.generateClientSummaries now1 l
  = Reports.generateClientSummaries now2 l.
Proof.
  intro H. unfold Reports.generateClientSummaries.
  f_equal. f_equal. apply map_ext_in. intros [k grp] Hin.
  rewrite entries_In in Hin.
  destruct (clientGroups_spec l) as (_ & Hgrp & _).
  assert (Hg : allClockFree (Reports.entries grp)).
  { rewrite (Hgrp k grp Hin).
    eapply incl_Forall; [apply incl_filter | exact H]. }
  unfold Reports.summarizeClient.
  now rewrite (clockFree_clientSums _ _ Hg).
Qed.
End ClockFree.

(** C8, as stated, fails: the computation reads the clock.  The same
    running entry under the same filters gives a row of one hour at 10:00
    and a row of two hours at 11:00. *)
Lemma report_depends_on_clock :
  Reports.reportData
    (Reports.generateReport (fun _ => None) 0 (Cal.utc 2024 1 10 10 0 0)
       runningFilter [runningEntry])
  = [ReportData.mk "Unknown Task" (100 # 100) 3600 (100 # 100) (0 # 100)]
  /\ Reports.reportData
       (Reports.generateReport (fun _ => None) 0 (Cal.utc 2024 1 10 11 0 0)
          runningFilter [runningEntry])
     = [ReportData.mk "Unknown Task" (200 # 100) 7200 (200 # 100) (0 # 100)]
  /\ Reports.regenerate (fun _ => None) (fun _ _ => 0) 0
       (Cal.utc 2024 1 10 10 0 0) runningFilter week [runningEntry]
     <> Reports.regenerate (fun _ => None) (fun _ _ => 0) 0
          (Cal.utc 2024 1 10 11 0 0) runningFilter week [runningEntry].
Proof.
  split; [reflexivity|]. split; [reflexivity|].
  intro H. vm_compute in H. discriminate.
Qed.

(** C8, amended: the report rows, period summaries and client summaries
    are a function of the entries, the filters, the selected period view,
    the host (time zone, collation, date parsing) and the clock reading;
    two runs at different clock readings give identical results whenever
    no entry makes the computation read the clock, that is whenever every
    entry has a [date] or a [start_time], and every entry with a
    [start_time] has an [end_time] or a non-zero [duration_minutes]. *)
Theorem reports_independent_of_clock
    (newDate : string -> option Z) (localeCompare : string -> string -> Z)
    (tz : Z) (f : ReportFilters.t) (view : PeriodView)
    (timeEntries : list TimeEntry.t) (now1 now2 : Z) :
  Forall (fun e => clockFree e = true) timeEntries ->
  Reports.regenerate newDate localeCompare tz now1 f view timeEntries
  = Reports.regenerate newDate localeCompare tz now2 f view timeEntries.
Proof.
  intro H. unfold Reports.regenerate.
  destruct timeEntries as [|e l]; [reflexivity|].
  rewrite (clockFree_generateReport tz now1 now2 newDate f _ H).
  rewrite (clockFree_generatePeriodSummaries tz now1 now2 localeCompare f
             view _ H).
  rewrite (clockFree_generateClientSummaries now1 now2 _ H).
  reflexivity.
Qed.

Lemma reports_independent_of_clock_witness :
  Reports.regenerate (fun _ => None) (fun _ _ => 0) 60
    (Cal.utc 2024 1 10 10 0 0) weekFilter week
    [ninetyMinutes; reversedEntry; lastDayEntry]
  = Reports.regenerate (fun _ => None) (fun _ _ => 0) 60
      (Cal.utc 2024 1 10 11 0 0) weekFilter week
      [ninetyMinutes; reversedEntry; lastDayEntry].
Proof.
  apply (reports_independent_of_clock (fun _ => None) (fun _ _ => 0) 60
           weekFilter week [ninetyMinutes; reversedEntry; lastDayEntry]).
  repeat constructor.
Defined.

(** * Further properties of the code *)

(** ** Rounding to hundredths of an hour *)

(** [Math.round(s / 3600 * 100)] in integers: seconds are rounded to
    hundredths of an hour at 18 seconds, half of 36. *)
Lemma Math_round_hundredths (s : Z) :
  JS.Math_round (inject_Z s / 3600 * 100) = (s + 18) / 36.
Proof.
  unfold JS.Math_round.
  assert (H : (inject_Z s / 3600 * 100 + (1 # 2) == (s + 18) # 36)%Q).
  { unfold Qeq, Qplus, Qmult, Qdiv, Qinv, inject_Z. simpl. lia. }
  rewrite (Qfloor_comp _ _ H). reflexivity.
Qed.

Lemma hours2_hundredths (s : Z) :
  Reports.hours2 s = (inject_Z ((s + 18) / 36) / 100)%Q.
Proof.
  unfold Reports.hours2, JS.round2. now rewrite Math_round_hundredths.
Qed.

Lemma hundredths_close (a b c : Z) :
  a + b - 1 <= c <= a + b + 1 ->
  (inject_Z c / 100 - (1 # 100) <= inject_Z a / 100 + inject_Z b / 100
   /\ inject_Z a / 100 + inject_Z b / 100 <= inject_Z c / 100 + (1 # 100))%Q.
Proof.
  intros H.
  unfold Qle, Qplus, Qminus, Qopp, Qmult, Qdiv, Qinv, inject_Z. simpl. lia.
Qed.

Lemma round_split (b n : Z) :
  (b + 18) / 36 + (n + 18) / 36 - 1 <= (b + n + 18) / 36
  <= (b + 18) / 36 + (n + 18) / 36 + 1.
Proof.
  pose proof (Z.div_mod (b + 18) 36 ltac:(lia)).
  pose proof (Z.mod_pos_bound (b + 18) 36 ltac:(lia)).
  pose proof (Z.div_mod (n + 18) 36 ltac:(lia)).
  pose proof (Z.mod_pos_bound (n + 18) 36 ltac:(lia)).
  pose proof (Z.div_mod (b + n + 18) 36 ltac:(lia)).
  pose proof (Z.mod_pos_bound (b + n + 18) 36 ltac:(lia)).
  lia.
Qed.

Lemma hours2_split (a b c : Z) :
  a = b + c ->
  (Reports.hours2 a - (1 # 100) <= Reports.hours2 b + Reports.hours2 c
   /\ Reports.hours2 b + Reports.hours2 c <= Reports.hours2 a + (1 # 100))%Q.
Proof.
  intros ->. rewrite !hours2_hundredths.
  apply hundredths_close. apply round_split.
Qed.

(** ** Sums over the groups of an object *)

Lemma sumZ_app (l1 l2 : list Z) : sumZ (l1 ++ l2) = sumZ l1 + sumZ l2.
Proof.
  induction l1 as [|x l1 IH]; simpl; [reflexivity | rewrite IH; lia].
Qed.

Lemma sumZ_perm (l1 l2 : list Z) : Permutation l1 l2 -> sumZ l1 = sumZ l2.
Proof.
  induction 1; simpl; lia.
Qed.

Lemma filter_partition_perm {A} (p : A -> bool) (l : list A) :
  Permutation (filter p l ++ filter (fun x => negb (p x)) l) l.
Proof.
  induction l as [|x l IH]; simpl.
  - constructor.
  - destruct (p x); simpl.
    + now constructor.
    + apply Permutation_sym, Permutation_cons_app, Permutation_sym, IH.
Qed.

Lemma entries_perm {V} (o : JS.object V) : Permutation (JS.entries o) o.
Proof.
  unfold JS.entries.
  eapply perm_trans; [|apply (filter_partition_perm JS.isIndexKey)].
  apply Permutation_app_tail, Permutation_sym, sort_perm.
Qed.

(** What [upsert] does to a sum over the values: it adds the difference
    that [f] makes, whether the key was there or not. *)
Lemma upsert_sum {V} (w : V -> Z) (k : string) (init : V) (f : V -> V)
    (delta : Z) (o : JS.object V) :
  w init = 0 -> (forall v, w (f v) = w v + delta) ->
  sumZ (map (fun kv => w (snd kv)) (JS.upsert k init f o))
  = sumZ (map (fun kv => w (snd kv)) o) + delta.
Proof.
  intros Hinit Hf.
  induction o as [|[k' v] o IH]; simpl.
  - rewrite Hf, Hinit. lia.
  - destruct (k =? k')%string; simpl.
    + rewrite Hf. lia.
    + rewrite IH. lia.
Qed.

Lemma addDuration_total (b : bool) (s : Z) (d : Reports.Durations) :
  Reports.total (Reports.addDuration b s d) = Reports.total d + s.
Proof. unfold Reports.addDuration. destruct b; reflexivity. Qed.

Lemma addDuration_balanced (b : bool) (s : Z) (d : Reports.Durations) :
  balanced d -> balanced (Reports.addDuration b s d).
Proof.
  unfold balanced, Reports.addDuration. destruct b; simpl; lia.
Qed.

(** The state of the loop of [generateReport] after any number of
    entries: the groups' totals add up to [totalSeconds], which is the sum
    of the resolved durations, every group is balanced and so are the
    grand totals, and no key occurs twice. *)
Lemma accumulate_invariant (tz now : Z) (g : GroupBy) (l : list TimeEntry.t) :
  let acc := fold_left (Reports.accumulate tz now g) l
               (Reports.mkTotals [] 0 0 0) in
  sumZ (map (fun kv => Reports.total (snd kv)) (Reports.groupedData acc))
  = Reports.totalSeconds acc
  /\ Reports.totalSeconds acc = sumZ (map (Reports.calculateDuration now) l)
  /\ Reports.totalSeconds acc
     = Reports.totalBillableSeconds acc + Reports.totalNonBillableSeconds acc
  /\ Forall (fun kv => balanced (snd kv)) (Reports.groupedData acc)
  /\ NoDup (map fst (Reports.groupedData acc))
  /\ (forall k, In k (map fst (Reports.groupedData acc)) <->
                exists e, In e l /\ Reports.groupKey tz now g e = k).
Proof.
  induction l as [|e l IH] using rev_ind; cbv zeta.
  - simpl. repeat split; try constructor.
    + intros [].
    + intros [e [[] _]].
  - rewrite fold_left_app. cbn [fold_left]. cbv zeta in IH.
    set (acc := fold_left (Reports.accumulate tz now g) l
                  (Reports.mkTotals [] 0 0 0)) in *.
    destruct IH as (H1 & H2 & H3 & H4 & H5 & H6).
    unfold Reports.accumulate.
    cbn [Reports.groupedData Reports.totalSeconds
         Reports.totalBillableSeconds Reports.totalNonBillableSeconds].
    split; [|split; [|split; [|split; [|split]]]].
    + rewrite (upsert_sum Reports.total _ _ _
                 (Reports.calculateDuration now e));
        [lia | reflexivity | intro v; apply addDuration_total].
    + rewrite map_app, sumZ_app. simpl. lia.
    + destruct (TimeEntry.billable e); lia.
    + apply (upsert_Forall balanced); [| |exact H4].
      * apply addDuration_balanced. reflexivity.
      * intros v. apply addDuration_balanced.
    + now apply upsert_NoDup.
    + intro k. rewrite upsert_key_in, H6. split.
      * intros [[x [Hx Hk]] | ->].
        -- exists x. split; [apply in_or_app; now left | exact Hk].
        -- exists e. split; [apply in_or_app; right; now left | reflexivity].
      * intros [x [Hx Hk]]. apply in_app_or in Hx.
        destruct Hx as [Hx | [<- | []]]; [left; eauto | right; now subst].
Qed.

(** ** The report's rows ([generateReport]) *)

Lemma toRow_seconds (tz : Z) (g : GroupBy) (kv : string * Reports.Durations) :
  ReportData.seconds (Reports.toRow tz g kv) = Reports.total (snd kv).
Proof. destruct kv. reflexivity. Qed.

Lemma toRow_name (tz : Z) (g : GroupBy) (kv : string * Reports.Durations) :
  g <> day -> ReportData.name (Reports.toRow tz g kv) = fst kv.
Proof. destruct kv, g; simpl; congruence. Qed.

Lemma reportData_perm (newDate : string -> option Z) (tz now : Z)
    (f : ReportFilters.t) (timeEntries : list TimeEntry.t) :
  Permutation
    (Reports.reportData (Reports.generateReport newDate tz now f timeEntries))
    (map (Reports.toRow tz (ReportFilters.groupBy f))
       (Reports.groupedData
          (fold_left (Reports.accumulate tz now (ReportFilters.groupBy f))
             (Reports.filterTimeEntries tz now f timeEntries)
             (Reports.mkTotals [] 0 0 0)))).
Proof.
  rewrite reportData_sorted.
  eapply perm_trans; [apply Permutation_sym, sort_perm|].
  apply Permutation_map. unfold unsortedRows. apply entries_perm.
Qed.

(** The seconds of the rows add up to the seconds of the entries that
    passed the filter. *)
Lemma reportData_seconds_sum (newDate : string -> option Z)
    (tz now : Z) (f : ReportFilters.t) (timeEntries : list TimeEntry.t) :
  sumZ (map ReportData.seconds
          (Reports.reportData
             (Reports.generateReport newDate tz now f timeEntries)))
  = sumZ (filteredSeconds tz now f timeEntries).
Proof.
  destruct (accumulate_invariant tz now (ReportFilters.groupBy f)
              (Reports.filterTimeEntries tz now f timeEntries))
    as (H1 & H2 & _).
  rewrite (sumZ_perm _ _
             (Permutation_map _ (reportData_perm newDate tz now f _))).
  rewrite map_map.
  rewrite (map_ext _ (fun kv => Reports.total (snd kv)))
    by (intro kv; apply toRow_seconds).
  unfold filteredSeconds. now rewrite H1, H2.
Qed.


(** X2.  In every row the billable and the non-billable hours add up to the
    row's hours within one hundredth of an hour, the three being rounded
    separately. *)
Theorem row_hours_add_up (newDate : string -> option Z) (tz now : Z)
    (f : ReportFilters.t) (timeEntries : list TimeEntry.t) (r : ReportData.t) :
  In r (Reports.reportData
          (Reports.generateReport newDate tz now f timeEntries)) ->
  (ReportData.value r - (1 # 100)
   <= ReportData.billableHours r + ReportData.nonBillableHours r
   /\ ReportData.billableHours r + ReportData.nonBillableHours r
      <= ReportData.value r + (1 # 100))%Q.
Proof.
  intro Hr.
  apply (Permutation_in _ (reportData_perm newDate tz now f _)) in Hr.
  apply in_map_iff in Hr. destruct Hr as [[k d] [<- Hin]].
  destruct (accumulate_invariant tz now (ReportFilters.groupBy f)
              (Reports.filterTimeEntries tz now f timeEntries))
    as (_ & _ & _ & Hbal & _).
  cbv zeta in Hbal. rewrite Forall_forall in Hbal.
  specialize (Hbal _ Hin).
  exact (hours2_split _ _ _ Hbal).
Qed.

Lemma row_hours_add_up_witness :
  (ReportData.value row2024 - (1 # 100)
   <= ReportData.billableHours row2024 + ReportData.nonBillableHours row2024
   /\ ReportData.billableHours row2024 + ReportData.nonBillableHours row2024
      <= ReportData.value row2024 + (1 # 100))%Q.
Proof.
  apply (row_hours_add_up (fun _ => None) 120 0 dayFilter [may2024; may2023]).
  vm_compute. left. reflexivity.
Defined.

(** The names of the rows of a report that is not grouped by day. *)
Lemma reportData_names (newDate : string -> option Z)
    (tz now : Z) (f : ReportFilters.t) (timeEntries : list TimeEntry.t) :
  let rows := Reports.reportData
                (Reports.generateReport newDate tz now f timeEntries) in
  let kept := Reports.filterTimeEntries tz now f timeEntries in
  ReportFilters.groupBy f <> day ->
  NoDup (map ReportData.name rows)
  /\ forall n, In n (map ReportData.name rows) <->
       exists e, In e kept
                 /\ Reports.groupKey tz now (ReportFilters.groupBy f) e = n.
Proof.
  cbv zeta. intro Hg.
  pose proof (reportData_perm newDate tz now f timeEntries) as Hperm.
  destruct (accumulate_invariant tz now (ReportFilters.groupBy f)
              (Reports.filterTimeEntries tz now f timeEntries))
    as (_ & _ & _ & _ & Hnd & Hkeys).
  cbv zeta in Hnd, Hkeys.
  set (o := Reports.groupedData _) in *.
  assert (Hnames : Permutation
            (map ReportData.name
               (Reports.reportData
                  (Reports.generateReport newDate tz now f timeEntries)))
            (map fst o)).
  { eapply perm_trans; [apply Permutation_map, Hperm|].
    rewrite map_map.
    rewrite (map_ext _ fst) by (intro kv; now apply toRow_name).
    apply Permutation_refl. }
  split.
  - eapply Permutation_NoDup; [apply Permutation_sym, Hnames | exact Hnd].
  - intro n. rewrite <- Hkeys. split; apply Permutation_in;
      [exact Hnames | apply Permutation_sym, Hnames].
Qed.



(** X4.  Grouped by project, every entry that passes the filter lands in
    the one row "Unknown Project", which carries all their seconds. *)
Theorem project_grouping_is_one_row (newDate : string -> option Z)
    (tz now : Z) (f : ReportFilters.t) (timeEntries : list TimeEntry.t) :
  ReportFilters.groupBy f = project ->
  Reports.filterTimeEntries tz now f timeEntries <> [] ->
  exists r,
    Reports.reportData (Reports.generateReport newDate tz now f timeEntries)
    = [r]
    /\ ReportData.name r = "Unknown Project"
    /\ ReportData.seconds r = sumZ (filteredSeconds tz now f timeEntries).
Proof.
  intros Hg Hne.
  destruct (reportData_names newDate tz now f timeEntries)
    as [Hnd Hin]; [rewrite Hg; discriminate|].
  pose proof (reportData_seconds_sum newDate tz now f timeEntries) as Hsum.
  assert (Hall : forall r,
            In r (Reports.reportData
                    (Reports.generateReport newDate tz now f timeEntries)) ->
            ReportData.name r = "Unknown Project").
  { intros r Hr. apply (in_map ReportData.name) in Hr.
    apply Hin in Hr. destruct Hr as [e [_ <-]]. rewrite Hg. reflexivity. }
  destruct (Reports.filterTimeEntries tz now f timeEntries) as [|e kept] eqn:Hk;
    [contradiction|].
  assert (Hex : In "Unknown Project"
                  (map ReportData.name
                     (Reports.reportData
                        (Reports.generateReport newDate tz now f timeEntries)))).
  { apply Hin. exists e. split; [now left | rewrite Hg; reflexivity]. }
  destruct (Reports.reportData
              (Reports.generateReport newDate tz now f timeEntries))
    as [|r [|r' rows]] eqn:Hrows.
  - destruct Hex.
  - exists r. split; [reflexivity|]. split; [apply Hall; now left|].
    simpl in Hsum. lia.
  - exfalso. inversion Hnd as [|? ? Hnotin _]; subst. apply Hnotin.
    simpl. left. rewrite (Hall r), (Hall r'); simpl; auto.
Qed.

Lemma project_grouping_is_one_row_witness :
  exists r,
    Reports.reportData
      (Reports.generateReport (fun _ => None) 60 0 projectGrouping
         [ninetyMinutes; twoHoursAt500])
    = [r]
    /\ ReportData.name r = "Unknown Project"
    /\ ReportData.seconds r
       = sumZ (filteredSeconds 60 0 projectGrouping
                 [ninetyMinutes; twoHoursAt500]).
Proof.
  apply (project_grouping_is_one_row (fun _ => None) 60 0 projectGrouping
           [ninetyMinutes; twoHoursAt500]).
  - reflexivity.
  - vm_compute. discriminate.
Defined.

(** ** Period summaries ([generatePeriodSummaries]) *)

Lemma periodGroups_Forall (P : TimeEntry.t -> Prop) (tz now : Z)
    (view : PeriodView) (l : list TimeEntry.t) :
  Forall P l ->
  forall o,
    Forall (fun kv => Forall P (snd kv)) o ->
    Forall (fun kv => Forall P (snd kv))
      (fold_left (Reports.pushEntry tz now view) l o).
Proof.
  induction 1 as [|e l He Hl IH]; intros o Ho; simpl.
  - exact Ho.
  - apply IH. unfold Reports.pushEntry.
    apply (upsert_Forall (Forall P)).
    + repeat constructor. exact He.
    + intros v Hv. apply Forall_app. split; [exact Hv|].
      repeat constructor. exact He.
    + exact Ho.
Qed.

(** The three sums of a group of entries none of which resolves to a
    negative duration. *)
Lemma sumEntry_nonneg (now : Z) (l : list TimeEntry.t) :
  Forall (fun e => 0 <= Reports.calculateDuration now e) l ->
  forall acc,
    0 <= Reports.billable acc <= Reports.total acc ->
    0 <= Reports.billable (fold_left (Reports.sumEntry now) l acc)
      <= Reports.total (fold_left (Reports.sumEntry now) l acc).
Proof.
  induction 1 as [|e l He Hl IH]; intros acc Hacc; simpl.
  - exact Hacc.
  - apply IH. unfold Reports.sumEntry, Reports.addDuration.
    destruct (TimeEntry.billable e); simpl; lia.
Qed.

Lemma positive_true (x : Q) : JS.positive x = true -> (0 < x)%Q.
Proof.
  unfold JS.positive. intro H. apply negb_true_iff in H.
  apply Qnot_le_lt. intro Hle. apply Qle_bool_iff in Hle. congruence.
Qed.

(** A rounded share of a whole, in percent, lies between 0 and 100. *)
Lemma percentage_bounds (b t : Q) :
  (0 <= b)%Q -> (b <= t)%Q -> (0 < t)%Q ->
  0 <= JS.Math_round (b / t * 100) <= 100.
Proof.
  intros Hb Hbt Ht. unfold JS.Math_round.
  assert (H0 : (0 <= b / t)%Q).
  { apply Qle_shift_div_l; [exact Ht|]. now rewrite Qmult_0_l. }
  assert (H1 : (b / t <= 1)%Q).
  { apply Qle_shift_div_r; [exact Ht|]. now rewrite Qmult_1_l. }
  split.
  - change 0 with (Qfloor 0). apply Qfloor_resp_le.
    apply Qle_trans with (b / t * 100)%Q.
    + apply Qmult_le_0_compat; [exact H0 | discriminate].
    + rewrite <- (Qplus_0_r (b / t * 100)) at 1.
      apply Qplus_le_r. discriminate.
  - apply Z.le_trans with (Qfloor (1 * 100 + (1 # 2))).
    + apply Qfloor_resp_le, Qplus_le_l.
      apply Qmult_le_compat_r; [exact H1 | discriminate].
    + vm_compute. discriminate.
Qed.

(** X5.  When no entry that passes the filter resolves to a negative
    duration, the billable percentage of every period summary lies between
    0 and 100. *)
Theorem period_percentage_bounds (localeCompare : string -> string -> Z)
    (tz now : Z) (f : ReportFilters.t) (view : PeriodView)
    (timeEntries : list TimeEntry.t) (s : PeriodSummary.t) :
  Forall (fun e => 0 <= Reports.calculateDuration now e)
    (Reports.filterTimeEntries tz now f timeEntries) ->
  In s (Reports.generatePeriodSummaries localeCompare tz now f view
          timeEntries) ->
  0 <= PeriodSummary.billablePercentage s <= 100.
Proof.
  intros Hpos Hs. unfold Reports.generatePeriodSummaries in Hs.
  apply sort_In, in_map_iff in Hs. destruct Hs as [[k g] [<- Hin]].
  rewrite entries_In in Hin.
  pose proof (periodGroups_Forall _ tz now view _ Hpos []
                (Forall_nil _)) as Hg.
  rewrite Forall_forall in Hg. specialize (Hg _ Hin). simpl in Hg.
  pose proof (sumEntry_nonneg now g Hg (Reports.mkDurations 0 0 0)
                ltac:(simpl; lia)) as Hsum.
  unfold Reports.summarizePeriod. cbn [PeriodSummary.billablePercentage].
  set (sums := fold_left (Reports.sumEntry now) g _) in *.
  destruct (JS.positive (inject_Z (Reports.total sums) / 3600)) eqn:Hp;
    [|lia].
  apply positive_true in Hp.
  apply percentage_bounds; [| |exact Hp].
  - apply Qle_shift_div_l; [reflexivity|]. rewrite Qmult_0_l.
    change 0%Q with (inject_Z 0). rewrite <- Zle_Qle. lia.
  - apply Qmult_le_compat_r; [|discriminate].
    rewrite <- Zle_Qle. lia.
Qed.

Lemma period_percentage_bounds_witness :
  0 <= PeriodSummary.billablePercentage
         (PeriodSummary.mk "Week of 01/01-2024" (300 # 100) (150 # 100)
            (150 # 100) 50)
    <= 100.
Proof.
  apply (period_percentage_bounds (fun _ _ => 0) 60 0 (newYearFilter false)
           week [ninetyMinutes; ninetyMinutesTimed]).
  - vm_compute. repeat constructor; discriminate.
  - vm_compute. left. reflexivity.
Defined.

(** ** Client summaries ([generateClientSummaries]) *)

Lemma sumClientEntry_total (now : Z) (l : list TimeEntry.t) :
  forall acc,
    Reports.total
      (Reports.clientDurations (fold_left (Reports.sumClientEntry now) l acc))
    = Reports.total (Reports.clientDurations acc)
      + sumZ (map (Reports.calculateDuration now) l).
Proof.
  induction l as [|e l IH]; intro acc; simpl.
  - lia.
  - rewrite IH. unfold Reports.sumClientEntry.
    cbn [Reports.clientDurations]. rewrite addDuration_total. lia.
Qed.

(** The total hours of a client's summary, from the seconds of the
    client's entries. *)
Lemma summarizeClient_totalHours (now : Z) (timeEntries : list TimeEntry.t)
    (k : string) (grp : Reports.ClientGroup) :
  In (k, grp) (Reports.clientGroups timeEntries) ->
  ClientSummary.totalHours (Reports.summarizeClient now (k, grp))
  = Reports.hours2
      (sumZ (map (Reports.calculateDuration now)
               (filter (ofClient k) timeEntries))).
Proof.
  intro Hin. destruct (clientGroups_spec timeEntries) as (_ & Hgrp & _).
  cbn [Reports.summarizeClient ClientSummary.totalHours].
  rewrite sumClientEntry_total, (Hgrp k grp Hin). reflexivity.
Qed.

Lemma hours2_positive (s : Z) :
  JS.positive (Reports.hours2 s) = true <-> 18 <= s.
Proof.
  rewrite hours2_hundredths. unfold JS.positive.
  rewrite negb_true_iff. split.
  - intro H.
    destruct (Z_le_gt_dec 18 s) as [Hle | Hgt]; [exact Hle | exfalso].
    assert (Hq : ((s + 18) / 36 <= 0)) by
      (Z.to_euclidean_division_equations; lia).
    assert (Qle_bool (inject_Z ((s + 18) / 36) / 100) 0 = true).
    { apply Qle_bool_iff. unfold Qle, Qdiv, Qmult, Qinv, inject_Z.
      simpl. lia. }
    congruence.
  - intro H.
    destruct (Qle_bool (inject_Z ((s + 18) / 36) / 100) 0) eqn:Hb;
      [exfalso | reflexivity].
    apply Qle_bool_iff in Hb.
    unfold Qle, Qdiv, Qmult, Qinv, inject_Z in Hb. simpl in Hb.
    assert (1 <= (s + 18) / 36) by (Z.to_euclidean_division_equations; lia).
    lia.
Qed.

Lemma byTotalHoursDesc_sorted (l : list ClientSummary.t) :
  StronglySorted
    (fun a b => (ClientSummary.totalHours b <= ClientSummary.totalHours a)%Q)
    (JS.sort Reports.byTotalHoursDesc l).
Proof.
  assert (Hle : forall a b,
            Reports.byTotalHoursDesc a b = true <->
            (ClientSummary.totalHours b <= ClientSummary.totalHours a)%Q).
  { intros a b. unfold Reports.byTotalHoursDesc. rewrite Qle_bool_iff.
    unfold Qle, Qminus, Qplus, Qopp. simpl.
    rewrite ?Pos2Z.inj_mul. lia. }
  assert (H : StronglySorted (fun a b => Reports.byTotalHoursDesc a b = true)
                (JS.sort Reports.byTotalHoursDesc l)).
  { apply sort_sorted.
    - intros a b. rewrite !Hle.
      destruct (Qlt_le_dec (ClientSummary.totalHours a)
                  (ClientSummary.totalHours b)) as [H | H];
        [right; now apply Qlt_le_weak | now left].
    - intros a b c. rewrite !Hle. intros H1 H2.
      eapply Qle_trans; eauto. }
  induction H as [|a l' Hs IH Ha]; constructor.
  - exact IH.
  - eapply Forall_impl; [|exact Ha]. intros b Hb. now apply Hle.
Qed.

(** X6.  The client summaries come in descending order of total hours,
    each with more than zero hours, and no client twice. *)
Theorem client_summaries_ordered (now : Z) (timeEntries : list TimeEntry.t) :
  let summaries := Reports.generateClientSummaries now timeEntries in
  StronglySorted
    (fun a b => (ClientSummary.totalHours b <= ClientSummary.totalHours a)%Q)
    summaries
  /\ Forall (fun s => (0 < ClientSummary.totalHours s)%Q) summaries
  /\ NoDup (map ClientSummary.clientId summaries).
Proof.
  cbv zeta. unfold Reports.generateClientSummaries.
  split; [apply byTotalHoursDesc_sorted|]. split.
  - apply Forall_forall. intros s Hs.
    apply sort_In, filter_In in Hs. destruct Hs as [_ Hs].
    now apply positive_true.
  - destruct (clientGroups_spec timeEntries) as (Hnd & _ & _).
    eapply Permutation_NoDup;
      [apply Permutation_map, sort_perm|].
    assert (Hsub : forall (l : list (string * Reports.ClientGroup)),
              NoDup (map fst l) ->
              NoDup (map ClientSummary.clientId
                       (filter Reports.nonZero
                          (map (Reports.summarizeClient now) l)))).
    { induction l as [|[k g] l IH]; intro H.
      - constructor.
      - cbn [map filter fst] in *.
        inversion H as [|? ? Hnotin Hl]; subst.
        destruct (Reports.nonZero (Reports.summarizeClient now (k, g)));
          [|now apply IH].
        cbn [map]. constructor; [|now apply IH].
        change (ClientSummary.clientId (Reports.summarizeClient now (k, g)))
          with k.
        intro Hin. apply Hnotin.
        apply in_map_iff in Hin. destruct Hin as [s [Hs Hin]].
        apply filter_In in Hin. destruct Hin as [Hin _].
        apply in_map_iff in Hin. destruct Hin as [[k' g'] [<- Hin]].
        change (k' = k) in Hs. subst k'.
        apply (in_map fst) in Hin. exact Hin. }
    apply Hsub.
    eapply Permutation_NoDup;
      [apply Permutation_map, Permutation_sym, entries_perm | exact Hnd].
Qed.

(** X7.  A client has a summary exactly when the resolved seconds of the
    entries filed under it add up to 18 or more, the least that rounds to
    0.01 hours; a client with less, or with a negative total, is left
    out. *)
Theorem client_listed_from_18_seconds (now : Z)
    (timeEntries : list TimeEntry.t) (k : string) :
  (exists s, In s (Reports.generateClientSummaries now timeEntries)
             /\ ClientSummary.clientId s = k)
  <-> 18 <= sumZ (map (Reports.calculateDuration now)
                    (filter (ofClient k) timeEntries)).
Proof.
  destruct (clientGroups_spec timeEntries) as (_ & Hgrp & Hkey).
  unfold Reports.generateClientSummaries. split.
  - intros [s [Hs <-]].
    apply sort_In, filter_In in Hs. destruct Hs as [Hs Hnz].
    apply in_map_iff in Hs. destruct Hs as [[k g] [<- Hin]].
    rewrite entries_In in Hin. unfold Reports.nonZero in Hnz.
    rewrite (summarizeClient_totalHours now timeEntries k g Hin) in Hnz.
    now apply hours2_positive.
  - intro H.
    destruct (filter (ofClient k) timeEntries) as [|e rest] eqn:Hf;
      [simpl in H; lia|].
    assert (He : In e (filter (ofClient k) timeEntries))
      by (rewrite Hf; now left).
    apply filter_In in He. destruct He as [He Hk].
    apply ofClient_inv in Hk.
    pose proof (Hkey e k He Hk) as Hin.
    apply in_map_iff in Hin. destruct Hin as [[k' g] [Hk' Hin]].
    simpl in Hk'. subst k'.
    exists (Reports.summarizeClient now (k, g)). split; [|reflexivity].
    apply sort_In, filter_In. split.
    + apply in_map. now apply entries_In.
    + unfold Reports.nonZero.
      rewrite (summarizeClient_totalHours now timeEntries k g Hin).
      apply hours2_positive. now rewrite Hf.
Qed.

(** ** The calendar: civil dates and months *)

Lemma yoe_bounds doe : 0 <= doe < 146097 ->
  let yoe := (doe - doe / 1460 + doe / 36524 - doe / 146096) / 365 in
  0 <= yoe <= 399 /\ 0 <= doe - (365 * yoe + yoe / 4 - yoe / 100) <= 365
  /\ (yoe < 399 -> doe < 365 * (yoe + 1) + (yoe + 1) / 4 - (yoe + 1) / 100).
Proof.
  intros H. cbv zeta. (Z.to_euclidean_division_equations; lia).
Qed.

Lemma days_from_civil_winter (y m d : Z) :
  1 <= m <= 2 -> Cal.days_from_civil y m d = marchDay (y - 1) (m + 9) d.
Proof.
  intro H. unfold Cal.days_from_civil, marchDay.
  replace (m <=? 2) with true by (symmetry; apply Z.leb_le; lia).
  replace ((m + 9) mod 12) with (m + 9) by (Z.to_euclidean_division_equations; lia).
  reflexivity.
Qed.

Lemma days_from_civil_summer (y m d : Z) :
  3 <= m <= 12 -> Cal.days_from_civil y m d = marchDay y (m - 3) d.
Proof.
  intro H. unfold Cal.days_from_civil, marchDay.
  replace (m <=? 2) with false by (symmetry; apply Z.leb_gt; lia).
  replace ((m + 9) mod 12) with (m - 3) by (Z.to_euclidean_division_equations; lia).
  reflexivity.
Qed.

Lemma days_from_civil_day (y m d : Z) :
  Cal.days_from_civil y m d = Cal.days_from_civil y m 1 + (d - 1).
Proof. unfold Cal.days_from_civil. cbv zeta. lia. Qed.

Lemma makeDay_month (y m d : Z) :
  1 <= m <= 12 -> Cal.makeDay y (m - 1) d = Cal.days_from_civil y m d.
Proof.
  intro H. unfold Cal.makeDay.
  replace ((m - 1) / 12) with 0 by (Z.to_euclidean_division_equations; lia).
  replace ((m - 1) mod 12 + 1) with m by (Z.to_euclidean_division_equations; lia).
  rewrite Z.add_0_r. symmetry. apply days_from_civil_day.
Qed.

Lemma makeDay_monthStart (y mi d : Z) :
  Cal.makeDay y mi d = monthStart (12 * y + mi) + (d - 1).
Proof.
  unfold monthStart, Cal.makeDay.
  replace (0 + (12 * y + mi) / 12) with (y + mi / 12)
    by (Z.to_euclidean_division_equations; lia).
  replace ((12 * y + mi) mod 12) with (mi mod 12)
    by (Z.to_euclidean_division_equations; lia).
  lia.
Qed.

Lemma makeDay_next_year (y d : Z) :
  Cal.makeDay y 12 d = Cal.days_from_civil (y + 1) 1 1 + (d - 1).
Proof. reflexivity. Qed.

(** The civil date of a day number: month and day are in range, the date
    gives the day number back, and the day lies before the first of the
    next month. *)
Lemma civil_spec (z : Z) :
  exists y m d,
    Cal.civil_from_days z = (y, m, d)
    /\ 1 <= m <= 12 /\ 1 <= d
    /\ Cal.days_from_civil y m d = z
    /\ z < Cal.makeDay y m 1.
Proof.
  unfold Cal.civil_from_days. cbv zeta.
  set (z' := z + 719468).
  set (era := z' / 146097).
  set (doe := z' - era * 146097).
  assert (Hdoe : 0 <= doe < 146097)
    by (subst doe era; Z.to_euclidean_division_equations; lia).
  destruct (yoe_bounds doe Hdoe) as (Hy & Hd & Hnext).
  cbv zeta in Hy, Hd, Hnext.
  set (yoe := (doe - doe / 1460 + doe / 36524 - doe / 146096) / 365) in *.
  set (doy := doe - (365 * yoe + yoe / 4 - yoe / 100)) in *.
  assert (Hz : z = era * 146097 + doe - 719468) by (subst doe z'; lia).
  assert (Hdoe' : doe = yoe * 365 + yoe / 4 - yoe / 100 + doy)
    by (subst doy; lia).
  clearbody doy yoe era doe. clear z'.
  set (mp := (5 * doy + 2) / 153).
  assert (Hmp : 0 <= mp <= 11)
    by (subst mp; Z.to_euclidean_division_equations; lia).
  assert (Hmp1 : (153 * mp + 2) / 5 <= doy < (153 * (mp + 1) + 2) / 5)
    by (subst mp; Z.to_euclidean_division_equations; lia).
  clearbody mp.
  set (ys := yoe + era * 400).
  assert (Hera : ys / 400 = era)
    by (subst ys; Z.to_euclidean_division_equations; lia).
  assert (Hmarch : forall mp' d', marchDay ys mp' d'
            = era * 146097
              + (yoe * 365 + yoe / 4 - yoe / 100
                 + ((153 * mp' + 2) / 5 + d' - 1)) - 719468).
  { intros. unfold marchDay. cbv zeta. rewrite Hera.
    replace (ys - era * 400) with yoe by (subst ys; lia). reflexivity. }
  assert (Hmarch1 : z < marchDay (ys + 1) 0 1).
  { unfold marchDay. cbv zeta.
    destruct (Z.eq_dec yoe 399) as [E | E].
    - replace ((ys + 1) / 400) with (era + 1)
        by (subst ys; Z.to_euclidean_division_equations; lia).
      replace (ys + 1 - (era + 1) * 400) with 0 by (subst ys; lia).
      simpl. subst z doe yoe. simpl in *. lia.
    - replace ((ys + 1) / 400) with era
        by (subst ys; Z.to_euclidean_division_equations; lia).
      replace (ys + 1 - era * 400) with (yoe + 1) by (subst ys; lia).
      simpl ((153 * 0 + 2) / 5 + 1 - 1). specialize (Hnext ltac:(lia)). lia. }
  destruct (mp <? 10) eqn:E; [apply Z.ltb_lt in E | apply Z.ltb_ge in E].
  - replace (mp + 3 <=? 2) with false by (symmetry; apply Z.leb_gt; lia).
    exists ys, (mp + 3), (doy - (153 * mp + 2) / 5 + 1).
    split; [reflexivity|]. split; [lia|]. split; [lia|].
    rewrite days_from_civil_summer by lia.
    replace (mp + 3 - 3) with mp by lia. rewrite Hmarch.
    split; [lia|].
    destruct (Z.eq_dec mp 9) as [-> | Hne].
    + change (9 + 3) with 12. rewrite makeDay_next_year.
      rewrite days_from_civil_winter by lia.
      replace (ys + 1 - 1) with ys by lia. rewrite Hmarch.
      simpl in Hmp1. simpl ((153 * (1 + 9) + 2) / 5). lia.
    + replace (mp + 3) with ((mp + 4) - 1) by lia.
      rewrite makeDay_month by lia.
      rewrite days_from_civil_summer by lia.
      replace (mp + 4 - 3) with (mp + 1) by lia. rewrite Hmarch. lia.
  - replace (mp - 9 <=? 2) with true by (symmetry; apply Z.leb_le; lia).
    exists (ys + 1), (mp - 9), (doy - (153 * mp + 2) / 5 + 1).
    split; [reflexivity|]. split; [lia|]. split; [lia|].
    rewrite days_from_civil_winter by lia.
    replace (ys + 1 - 1) with ys by lia.
    replace (mp - 9 + 9) with mp by lia. rewrite Hmarch.
    split; [lia|].
    replace (mp - 9) with ((mp - 8) - 1) by lia.
    rewrite makeDay_month by lia.
    destruct (Z.eq_dec mp 10) as [-> | Hne].
    + rewrite days_from_civil_winter by lia.
      replace (ys + 1 - 1) with ys by lia. rewrite Hmarch.
      simpl in Hmp1. simpl ((153 * (10 - 8 + 9) + 2) / 5). lia.
    + assert (mp = 11) by lia. subst mp.
      rewrite days_from_civil_summer by lia.
      change (11 - 8 - 3) with 0. lia.
Qed.

Lemma month_cases (m : Z) : 0 <= m <= 11 ->
  m = 0 \/ m = 1 \/ m = 2 \/ m = 3 \/ m = 4 \/ m = 5 \/ m = 6 \/ m = 7 \/
  m = 8 \/ m = 9 \/ m = 10 \/ m = 11.
Proof. lia. Qed.

Lemma month_length_norm (Y m : Z) : 0 <= m <= 11 ->
  28 <= Cal.makeDay Y (m + 1) 1 - Cal.makeDay Y m 1 <= 31.
Proof.
  intro H.
  destruct (month_cases m H)
    as [->|[->|[->|[->|[->|[->|[->|[->|[->|[->|[->| ->]]]]]]]]]]];
  unfold Cal.makeDay, Cal.days_from_civil; simpl;
  (Z.to_euclidean_division_equations; lia).
Qed.

(** Every month has 28 to 31 days. *)
Lemma monthStart_step (n : Z) :
  28 <= monthStart (n + 1) - monthStart n <= 31.
Proof.
  pose proof (month_length_norm (n / 12) (n mod 12)
                ltac:(Z.to_euclidean_division_equations; lia)) as H.
  rewrite !makeDay_monthStart in H.
  replace (12 * (n / 12) + (n mod 12 + 1)) with (n + 1) in H
    by (Z.to_euclidean_division_equations; lia).
  replace (12 * (n / 12) + n mod 12) with n in H
    by (Z.to_euclidean_division_equations; lia).
  lia.
Qed.

Lemma monthStart_le (n k : Z) :
  0 <= k -> monthStart n + 28 * k <= monthStart (n + k).
Proof.
  intro Hk. revert k Hk. apply natlike_ind.
  - replace (n + 0) with n by lia. lia.
  - intros k Hk IH. pose proof (monthStart_step (n + k)).
    replace (n + Z.succ k) with (n + k + 1) by lia. lia.
Qed.

Lemma monthStart_mono (n n' : Z) :
  n < n' -> monthStart n < monthStart n'.
Proof.
  intro H. pose proof (monthStart_le n (n' - n) ltac:(lia)) as H'.
  replace (n + (n' - n)) with n' in H' by lia. lia.
Qed.

(** A day lies in its month. *)
Lemma monthOf_spec (z : Z) :
  monthStart (monthOf z) <= z < monthStart (monthOf z + 1).
Proof.
  unfold monthOf.
  destruct (civil_spec z) as (y & m & d & -> & Hm & Hd & Hz & Hlt).
  rewrite makeDay_monthStart in Hlt.
  rewrite <- (makeDay_month y m d Hm), makeDay_monthStart in Hz.
  replace (12 * y + (m - 1) + 1) with (12 * y + m) by lia. lia.
Qed.

(** The month of a day is the only one the day lies in. *)
Lemma monthOf_unique (z n : Z) :
  monthStart n <= z < monthStart (n + 1) -> monthOf z = n.
Proof.
  intro H. pose proof (monthOf_spec z) as H'.
  destruct (Z.lt_trichotomy (monthOf z) n) as [L | [E | L]]; [|exact E|].
  - assert (monthOf z + 1 <= n) by lia.
    destruct (Z.eq_dec (monthOf z + 1) n) as [E | Hne];
      [rewrite <- E in H; lia|].
    pose proof (monthStart_mono (monthOf z + 1) n ltac:(lia)). lia.
  - destruct (Z.eq_dec (n + 1) (monthOf z)) as [E | Hne];
      [rewrite <- E in H'; lia|].
    pose proof (monthStart_mono (n + 1) (monthOf z) ltac:(lia)). lia.
Qed.

(** The civil date in terms of the month index. *)
Lemma civil_from_days_monthOf (z : Z) :
  Cal.civil_from_days z
  = (monthOf z / 12, monthOf z mod 12 + 1, z - monthStart (monthOf z) + 1).
Proof.
  pose proof (monthOf_spec z) as Hs. unfold monthOf in *.
  destruct (civil_spec z) as (y & m & d & E & Hm & Hd & Hz & Hlt).
  rewrite E in *.
  rewrite <- (makeDay_month y m d Hm), makeDay_monthStart in Hz.
  replace ((12 * y + (m - 1)) / 12) with y
    by (Z.to_euclidean_division_equations; lia).
  replace ((12 * y + (m - 1)) mod 12 + 1) with m
    by (Z.to_euclidean_division_equations; lia).
  f_equal. lia.
Qed.

(** ** Weeks and months of date-fns and of [utils/localization.ts] *)

Lemma localDay_localMidnight (tz d x : Z) :
  0 <= x < Cal.msPerDay ->
  Cal.localDay tz (Cal.localMidnight tz d + x) = d.
Proof.
  unfold Cal.localDay, Cal.localMidnight, Cal.msPerDay, Cal.msPerMinute.
  intro H. Z.to_euclidean_division_equations; lia.
Qed.

Lemma localDay_localMidnight0 (tz d : Z) :
  Cal.localDay tz (Cal.localMidnight tz d) = d.
Proof.
  rewrite <- (localDay_localMidnight tz d 0) at 2 by (unfold Cal.msPerDay; lia).
  now rewrite Z.add_0_r.
Qed.

Lemma localMidnight_localDay (tz t : Z) :
  Cal.localMidnight tz (Cal.localDay tz t) <= t
  < Cal.localMidnight tz (Cal.localDay tz t + 1).
Proof.
  unfold Cal.localDay, Cal.localMidnight, Cal.msPerDay, Cal.msPerMinute.
  Z.to_euclidean_division_equations; lia.
Qed.

Lemma localMidnight_add (tz d k : Z) :
  Cal.localMidnight tz (d + k) = Cal.localMidnight tz d + k * Cal.msPerDay.
Proof. unfold Cal.localMidnight. lia. Qed.

(** *** Weeks *)

Lemma startOfWeek_monday (tz t : Z) :
  Localization.startOfWeek tz t
  = Cal.localMidnight tz (Cal.localDay tz t - (Cal.localDay tz t + 3) mod 7).
Proof.
  unfold Localization.startOfWeek, Cal.dateStartOfWeek, Cal.getDay. cbv zeta.
  f_equal. set (D := Cal.localDay tz t). clearbody D.
  destruct ((D + 4) mod 7 <? 1) eqn:E;
    [apply Z.ltb_lt in E | apply Z.ltb_ge in E];
    Z.to_euclidean_division_equations; lia.
Qed.

Lemma endOfWeek_sunday (tz t : Z) :
  Localization.endOfWeek tz t
  = Cal.localMidnight tz (Cal.localDay tz t - (Cal.localDay tz t + 3) mod 7 + 6)
    + (Cal.msPerDay - 1).
Proof.
  unfold Localization.endOfWeek, Cal.dateEndOfWeek, Cal.getDay. cbv zeta.
  f_equal. f_equal. set (D := Cal.localDay tz t). clearbody D.
  destruct ((D + 4) mod 7 <? 1) eqn:E;
    [apply Z.ltb_lt in E | apply Z.ltb_ge in E];
    Z.to_euclidean_division_equations; lia.
Qed.


(** *** Months *)

Lemma getFullYear_monthOf (tz t : Z) :
  Cal.getFullYear tz t = monthOf (Cal.localDay tz t) / 12.
Proof.
  unfold Cal.getFullYear. now rewrite civil_from_days_monthOf.
Qed.

Lemma getMonth_monthOf (tz t : Z) :
  Cal.getMonth tz t = monthOf (Cal.localDay tz t) mod 12.
Proof.
  unfold Cal.getMonth. rewrite civil_from_days_monthOf. lia.
Qed.

Lemma getDate_monthOf (tz t : Z) :
  Cal.getDate tz t
  = Cal.localDay tz t - monthStart (monthOf (Cal.localDay tz t)) + 1.
Proof.
  unfold Cal.getDate. now rewrite civil_from_days_monthOf.
Qed.

(** [setFullYear(getFullYear(), getMonth() + k, d)] counts months from the
    month of the date. *)
Lemma makeDay_of_date (tz t k d : Z) :
  Cal.makeDay (Cal.getFullYear tz t) (Cal.getMonth tz t + k) d
  = monthStart (monthOf (Cal.localDay tz t) + k) + (d - 1).
Proof.
  rewrite makeDay_monthStart, getFullYear_monthOf, getMonth_monthOf.
  do 2 f_equal. Z.to_euclidean_division_equations; lia.
Qed.

Lemma startOfMonth_monthStart (tz t : Z) :
  Cal.startOfMonth tz t
  = Cal.localMidnight tz (monthStart (monthOf (Cal.localDay tz t))).
Proof.
  unfold Cal.startOfMonth.
  replace (Cal.getMonth tz t) with (Cal.getMonth tz t + 0) by lia.
  rewrite makeDay_of_date, !Z.add_0_r. reflexivity.
Qed.

Lemma endOfMonth_monthStart (tz t : Z) :
  Cal.endOfMonth tz t
  = Cal.localMidnight tz (monthStart (monthOf (Cal.localDay tz t) + 1)) - 1.
Proof.
  unfold Cal.endOfMonth. rewrite makeDay_of_date.
  replace (monthStart (monthOf (Cal.localDay tz t) + 1) + (0 - 1))
    with (monthStart (monthOf (Cal.localDay tz t) + 1) + -1) by lia.
  rewrite localMidnight_add. lia.
Qed.

(** [addMonths] lands in the month [amount] months away. *)
Lemma addMonths_monthOf (amount tz t : Z) :
  monthOf (Cal.localDay tz (Cal.addMonths amount tz t))
  = monthOf (Cal.localDay tz t) + amount.
Proof.
  unfold Cal.addMonths. cbv zeta.
  replace (Cal.getMonth tz t + amount + 1)
    with (Cal.getMonth tz t + (amount + 1)) by lia.
  rewrite makeDay_of_date, getDate_monthOf.
  replace (monthOf (Cal.localDay tz t) + (amount + 1))
    with (monthOf (Cal.localDay tz t) + amount + 1) by lia.
  pose proof (localMidnight_localDay tz t) as Ht.
  unfold Cal.startOfDay.
  set (D := Cal.localDay tz t) in *.
  set (n := monthOf D).
  pose proof (monthOf_spec D) as HD. fold n in HD.
  set (E := monthStart (n + amount + 1) + (0 - 1)).
  pose proof (monthStart_step (n + amount)) as Hstep.
  assert (HE : monthOf E = n + amount)
    by (apply monthOf_unique; subst E; lia).
  rewrite (civil_from_days_monthOf E), HE.
  rewrite localMidnight_add in Ht.
  destruct (E - monthStart (n + amount) + 1 <=? D - monthStart n + 1) eqn:C.
  - rewrite localDay_localMidnight by (unfold Cal.msPerDay in *; lia).
    exact HE.
  - apply Z.leb_gt in C.
    rewrite localDay_localMidnight by (unfold Cal.msPerDay in *; lia).
    apply monthOf_unique. rewrite makeDay_monthStart.
    replace (12 * ((n + amount) / 12) + ((n + amount) mod 12 + 1 - 1))
      with (n + amount) by (Z.to_euclidean_division_equations; lia).
    subst E. lia.
Qed.

(** ** The periods of the highlights *)

Lemma isDateInRange_closed (d start end_ : Z) :
  Dashboard.isDateInRange (Some d) start (Some end_) = true
  <-> start <= d <= end_.
Proof.
  unfold Dashboard.isDateInRange.
  rewrite andb_true_iff, !orb_true_iff, !Z.ltb_lt, !Z.eqb_eq. lia.
Qed.

Lemma isDateInRange_open (d start : Z) :
  Dashboard.isDateInRange (Some d) start None = true <-> start <= d.
Proof.
  unfold Dashboard.isDateInRange.
  rewrite !orb_true_iff, !Z.ltb_lt, !Z.eqb_eq. lia.
Qed.

Lemma isDateInRange_Some (date : option Z) (start : Z) (end_ : option Z) :
  Dashboard.isDateInRange date start end_ = true -> exists d, date = Some d.
Proof. destruct date as [d|]; [eauto | discriminate]. Qed.

(** The month bounds of the highlights in terms of month starts. *)
Lemma month_bounds (tz now : Z) :
  let n := monthOf (Cal.localDay tz now) in
  Dashboard.thisMonthStart tz now = Cal.localMidnight tz (monthStart n)
  /\ Dashboard.thisMonthEnd tz now = Cal.localMidnight tz (monthStart (n + 1)) - 1
  /\ Dashboard.lastMonthStart tz now = Cal.localMidnight tz (monthStart (n - 1))
  /\ Dashboard.lastMonthEnd tz now = Cal.localMidnight tz (monthStart n) - 1.
Proof.
  cbv zeta.
  unfold Dashboard.thisMonthStart, Dashboard.thisMonthEnd,
    Dashboard.lastMonthStart, Dashboard.lastMonthEnd, Cal.subMonths.
  rewrite !startOfMonth_monthStart, !endOfMonth_monthStart, addMonths_monthOf.
  replace (monthOf (Cal.localDay tz now) + - (1))
    with (monthOf (Cal.localDay tz now) - 1) by lia.
  replace (monthOf (Cal.localDay tz now) - 1 + 1)
    with (monthOf (Cal.localDay tz now)) by lia.
  auto.
Qed.

Lemma localMidnight_lt (tz a b : Z) :
  a < b -> Cal.localMidnight tz a + Cal.msPerDay <= Cal.localMidnight tz b.
Proof. unfold Cal.localMidnight, Cal.msPerDay. lia. Qed.

(** The two pages define the same months. *)
Lemma isDateInRange_same :
  TimeEntries.isDateInRange = Dashboard.isDateInRange.
Proof. reflexivity. Qed.

Lemma getEntryDate_same : TimeEntries.getEntryDate = Dashboard.getEntryDate.
Proof. reflexivity. Qed.

Lemma lastMonthStart_same (tz now : Z) :
  TimeEntries.lastMonthStart tz now = Dashboard.lastMonthStart tz now.
Proof.
  unfold TimeEntries.lastMonthStart, Dashboard.lastMonthStart. reflexivity.
Qed.

Lemma lastMonthEnd_same (tz now : Z) :
  TimeEntries.lastMonthEnd tz now = Dashboard.lastMonthEnd tz now.
Proof.
  unfold TimeEntries.lastMonthEnd, Dashboard.lastMonthEnd. reflexivity.
Qed.

Lemma thisMonthStart_same (tz now : Z) :
  TimeEntries.thisMonthStart tz now = Dashboard.thisMonthStart tz now.
Proof.
  unfold TimeEntries.thisMonthStart, Dashboard.thisMonthStart. reflexivity.
Qed.

Lemma thisMonthEnd_same (tz now : Z) :
  TimeEntries.thisMonthEnd tz now = Dashboard.thisMonthEnd tz now.
Proof.
  unfold TimeEntries.thisMonthEnd, Dashboard.thisMonthEnd. reflexivity.
Qed.

(** X9.  "Last Month" and "This Month" of the highlights are adjacent
    calendar months: last month ends one millisecond before this month
    starts, this month contains the present instant, and an entry dated
    from the start of last month to the end of this month is counted in
    exactly one of the two. *)
Theorem months_are_adjacent (tz now : Z) (allTimeEntries : list TimeEntry.t) :
  Dashboard.lastMonthEnd tz now + 1 = Dashboard.thisMonthStart tz now
  /\ Dashboard.lastMonthStart tz now < Dashboard.lastMonthEnd tz now
  /\ Dashboard.thisMonthStart tz now <= now <= Dashboard.thisMonthEnd tz now
  /\ (forall e,
        In e (Dashboard.lastMonthEntries tz now allTimeEntries) ->
        ~ In e (Dashboard.thisMonthEntries tz now allTimeEntries))
  /\ (forall e d,
        In e allTimeEntries ->
        Dashboard.getEntryDate tz e = Some d ->
        Dashboard.lastMonthStart tz now <= d <= Dashboard.thisMonthEnd tz now ->
        In e (Dashboard.lastMonthEntries tz now allTimeEntries)
        \/ In e (Dashboard.thisMonthEntries tz now allTimeEntries))
  /\ TimeEntries.lastMonthEntries tz now allTimeEntries
     = Dashboard.lastMonthEntries tz now allTimeEntries
  /\ TimeEntries.thisMonthEntries tz now allTimeEntries
     = Dashboard.thisMonthEntries tz now allTimeEntries.
Proof.
  destruct (month_bounds tz now) as (Hts & Hte & Hls & Hle).
  cbv zeta in *.
  pose proof (localMidnight_localDay tz now) as Hnow.
  pose proof (monthOf_spec (Cal.localDay tz now)) as Hm.
  set (n := monthOf (Cal.localDay tz now)) in *.
  pose proof (monthStart_step (n - 1)) as Hstep.
  replace (n - 1 + 1) with n in Hstep by lia.
  pose proof (localMidnight_lt tz (monthStart (n - 1)) (monthStart n)
                ltac:(lia)) as Hlast.
  assert (Hin : Cal.localMidnight tz (monthStart n) <= now
                < Cal.localMidnight tz (monthStart (n + 1))).
  { unfold Cal.localMidnight, Cal.msPerDay, Cal.msPerMinute in *. lia. }
  unfold Cal.msPerDay in Hlast.
  split; [lia|]. split; [lia|]. split; [lia|].
  split; [|split; [|split]].
  - intros e H1 H2.
    unfold Dashboard.lastMonthEntries in H1.
    unfold Dashboard.thisMonthEntries in H2.
    apply filter_In in H1. apply filter_In in H2.
    destruct H1 as [_ H1]. destruct H2 as [_ H2].
    destruct (isDateInRange_Some _ _ _ H1) as [d Hd]. rewrite Hd in *.
    apply isDateInRange_closed in H1. apply isDateInRange_closed in H2. lia.
  - intros e d HIn Hd Hr.
    unfold Dashboard.lastMonthEntries, Dashboard.thisMonthEntries.
    rewrite !filter_In, Hd, !isDateInRange_closed.
    destruct (Z_le_gt_dec d (Dashboard.lastMonthEnd tz now)); [left | right];
      (split; [exact HIn | lia]).
  - unfold TimeEntries.lastMonthEntries, Dashboard.lastMonthEntries.
    rewrite isDateInRange_same, getEntryDate_same, lastMonthStart_same,
      lastMonthEnd_same. reflexivity.
  - unfold TimeEntries.thisMonthEntries, Dashboard.thisMonthEntries.
    rewrite isDateInRange_same, getEntryDate_same, thisMonthStart_same,
      thisMonthEnd_same. reflexivity.
Qed.

(** X10.  On the time-entry page every entry of "Today" also counts for
    "This Week", because neither period has an end; on the dashboard it
    does so exactly when it is dated no later than the end of the week.
    The dashboard's "This Week" is the time-entry page's, cut at the end
    of the week. *)
Theorem today_within_this_week (tz now : Z) (entries : list TimeEntry.t)
    (e : TimeEntry.t) :
  (In e (TimeEntries.todayEntries tz now entries) ->
   In e (TimeEntries.thisWeekEntries tz now entries))
  /\ (In e (Dashboard.todayEntries tz now entries) ->
      (In e (Dashboard.thisWeekEntries tz now entries)
       <-> exists d, Dashboard.getEntryDate tz e = Some d
                     /\ d <= Dashboard.thisWeekEnd tz now))
  /\ (In e (Dashboard.thisWeekEntries tz now entries)
      <-> In e (TimeEntries.thisWeekEntries tz now entries)
          /\ exists d, TimeEntries.getEntryDate tz e = Some d
                       /\ d <= Dashboard.thisWeekEnd tz now).
Proof.
  assert (Hws : Localization.startOfWeek tz now <= Cal.startOfDay tz now).
  { rewrite startOfWeek_monday.
    unfold Cal.startOfDay, Cal.localMidnight, Cal.msPerDay, Cal.msPerMinute.
    Z.to_euclidean_division_equations; lia. }
  unfold TimeEntries.todayEntries, TimeEntries.thisWeekEntries,
    Dashboard.todayEntries, Dashboard.thisWeekEntries,
    TimeEntries.today, TimeEntries.thisWeekStart, Dashboard.today,
    Dashboard.thisWeekStart.
  rewrite isDateInRange_same, getEntryDate_same, !filter_In.
  split; [|split].
  - intros [HIn H]. split; [exact HIn|].
    destruct (isDateInRange_Some _ _ _ H) as [d Hd]. rewrite Hd in *.
    apply isDateInRange_open in H. apply isDateInRange_open. lia.
  - intros [HIn H].
    destruct (isDateInRange_Some _ _ _ H) as [d Hd]. rewrite Hd in *.
    apply isDateInRange_open in H. rewrite isDateInRange_closed.
    split.
    + intros [_ Hr]. exists d. split; [reflexivity | lia].
    + intros (d' & E & Hle). inversion E; subst d'.
      split; [exact HIn | lia].
  - split.
    + intros [HIn H].
      destruct (isDateInRange_Some _ _ _ H) as [d Hd]. rewrite Hd in *.
      apply isDateInRange_closed in H. rewrite isDateInRange_open.
      split; [split; [exact HIn | lia]|].
      exists d. split; [reflexivity | lia].
    + intros [[HIn H] (d & Hd & Hle)]. rewrite Hd in *.
      apply isDateInRange_open in H. rewrite isDateInRange_closed.
      split; [exact HIn | lia].
Qed.

(** ** The timer ([stopTimer]) *)

Lemma differenceInSeconds_nonneg (a b : Z) :
  b <= a ->
  0 <= Cal.differenceInSeconds a b
  /\ 1000 * Cal.differenceInSeconds a b <= a - b
     < 1000 * Cal.differenceInSeconds a b + 1000.
Proof.
  intro H. unfold Cal.differenceInSeconds.
  rewrite Z.quot_div_nonneg by lia.
  Z.to_euclidean_division_equations; lia.
Qed.

Lemma ceilDiv_60 (s : Z) :
  60 * (JS.ceilDiv s 60 - 1) < s <= 60 * JS.ceilDiv s 60.
Proof. unfold JS.ceilDiv. Z.to_euclidean_division_equations; lia. Qed.

(** X11.  Stopping a timer that was started at or before the present instant
    records its elapsed whole seconds rounded up to whole minutes.  The
    stored minutes are what both highlight computations and the report
    count for the entry from then on, whatever the clock reads: the report
    never shows less than it showed for the running timer and less than a
    minute more; and the entry is dated by the local day of its start. *)
Theorem stopped_timer_rounds_up (tz now now' clock : Z) (timer : TimeEntry.t)
    (s : Z) :
  TimeEntry.start_time timer = Some s ->
  TimeEntry.end_time timer = None ->
  TimeEntry.duration_minutes timer = None ->
  s <= now ->
  exists stopped dm,
    TimeEntries.stopTimer tz now now' (Some timer) = Some stopped
    /\ TimeEntry.duration_minutes stopped = Some dm
    /\ 60 * (dm - 1) < Cal.differenceInSeconds now s <= 60 * dm
    /\ Reports.calculateDuration now timer = Cal.differenceInSeconds now s
    /\ Reports.calculateDuration clock stopped = 60 * dm
    /\ TimeEntries.entryMinutes stopped = dm
    /\ Dashboard.entryMinutes stopped = dm
    /\ TimeEntry.date stopped = Some (Cal.localDay tz s)
    /\ TimeEntry.end_time stopped = Some now
    /\ clockFree stopped = true.
Proof.
  intros Hs He Hd Hle.
  unfold TimeEntries.stopTimer. rewrite Hs.
  eexists. eexists. split; [reflexivity|].
  cbn [TimeEntry.duration_minutes TimeEntry.date TimeEntry.end_time
       TimeEntry.start_time TimeEntry.duration].
  pose proof (differenceInSeconds_nonneg now s Hle) as [Hn _].
  pose proof (ceilDiv_60 (Cal.differenceInSeconds now s)) as Hc.
  split; [reflexivity|]. split; [exact Hc|].
  split; [unfold Reports.calculateDuration; rewrite Hd, Hs, He; reflexivity|].
  split.
  { unfold Reports.calculateDuration.
    cbn [TimeEntry.duration_minutes TimeEntry.start_time TimeEntry.end_time].
    unfold JS.truthyNum, JS.valueOf.
    destruct (JS.ceilDiv (Cal.differenceInSeconds now s) 60 =? 0) eqn:E.
    - apply Z.eqb_eq in E. rewrite E in *. cbn [negb]. lia.
    - cbn [negb]. lia. }
  split; [reflexivity|].
  split; [reflexivity|].
  split; [reflexivity|]. split; [reflexivity|].
  unfold clockFree.
  cbn [TimeEntry.date TimeEntry.end_time TimeEntry.start_time
       TimeEntry.duration_minutes isSome].
  destruct (JS.truthyNum _); reflexivity.
Qed.

Lemma stopped_timer_rounds_up_witness :
  exists stopped dm,
    TimeEntries.stopTimer 60 (Cal.utc 2024 1 10 9 30 1)
      (Cal.utc 2024 1 10 9 30 2) (Some runningEntry) = Some stopped
    /\ TimeEntry.duration_minutes stopped = Some dm
    /\ 60 * (dm - 1)
       < Cal.differenceInSeconds (Cal.utc 2024 1 10 9 30 1)
           (Cal.utc 2024 1 10 9 0 0)
       <= 60 * dm.
Proof.
  destruct (stopped_timer_rounds_up 60 (Cal.utc 2024 1 10 9 30 1)
              (Cal.utc 2024 1 10 9 30 2) 0 runningEntry
              (Cal.utc 2024 1 10 9 0 0))
    as (stopped & dm & H1 & H2 & H3 & _).
  - reflexivity.
  - reflexivity.
  - reflexivity.
  - vm_compute. discriminate.
  - exists stopped, dm. split; [exact H1|]. split; [exact H2 | exact H3].
Defined.

(** ** The report's filter in calendar days *)

Lemma localDay_utcMidnight (tz d : Z) :
  -1440 < tz < 1440 ->
  Cal.localDay tz (Cal.utcMidnight d) = localDayOfDate tz d.
Proof.
  intro H. unfold Cal.localDay, Cal.utcMidnight, localDayOfDate,
    Cal.msPerDay, Cal.msPerMinute.
  destruct (Z.leb_spec 0 tz); Z.to_euclidean_division_equations; lia.
Qed.

Lemma inRange_dated (tz : Z) (f : ReportFilters.t) (d : Z) :
  -1440 < tz < 1440 ->
  inRange tz f (Cal.utcMidnight d) = dayInRange f d.
Proof.
  intro H. unfold inRange, dayInRange, Cal.endOfDay, Cal.startOfDay.
  f_equal.
  - destruct (ReportFilters.dateFrom f) as [a|]; [|reflexivity].
    rewrite localDay_utcMidnight by exact H.
    unfold localDayOfDate, Cal.localMidnight, Cal.utcMidnight,
      Cal.msPerDay, Cal.msPerMinute.
    destruct (Z.leb_spec 0 tz);
      match goal with |- (?x <=? ?y) = (?u <=? ?v) =>
        destruct (Z.leb_spec x y); destruct (Z.leb_spec u v); lia end.
  - destruct (ReportFilters.dateTo f) as [b|]; [|reflexivity].
    rewrite localDay_utcMidnight by exact H.
    unfold localDayOfDate, Cal.localMidnight, Cal.utcMidnight,
      Cal.msPerDay, Cal.msPerMinute.
    destruct (Z.leb_spec 0 tz);
      match goal with |- (?x <=? ?y) = (?u <=? ?v) =>
        destruct (Z.leb_spec x y); destruct (Z.leb_spec u v); lia end.
Qed.

Lemma inRange_timed (tz : Z) (f : ReportFilters.t) (s : Z) :
  -1440 < tz < 1440 ->
  inRange tz f s = dayInRange (shiftRange tz f) (Cal.localDay tz s).
Proof.
  intro H. unfold inRange, dayInRange, shiftRange, Cal.endOfDay,
    Cal.startOfDay.
  cbn [ReportFilters.dateFrom ReportFilters.dateTo].
  f_equal.
  - destruct (ReportFilters.dateFrom f) as [a|]; [|reflexivity].
    cbn [option_map].
    rewrite localDay_utcMidnight by exact H.
    set (a' := localDayOfDate tz a). clearbody a'.
    unfold Cal.localMidnight, Cal.localDay, Cal.msPerDay, Cal.msPerMinute.
    match goal with |- (?x <=? ?y) = (?u <=? ?v) =>
      destruct (Z.leb_spec x y); destruct (Z.leb_spec u v); try reflexivity;
      exfalso; Z.to_euclidean_division_equations; lia end.
  - destruct (ReportFilters.dateTo f) as [b|]; [|reflexivity].
    cbn [option_map].
    rewrite localDay_utcMidnight by exact H.
    set (b' := localDayOfDate tz b). clearbody b'.
    unfold Cal.localMidnight, Cal.localDay, Cal.msPerDay, Cal.msPerMinute.
    match goal with |- (?x <=? ?y) = (?u <=? ?v) =>
      destruct (Z.leb_spec x y); destruct (Z.leb_spec u v); try reflexivity;
      exfalso; Z.to_euclidean_division_equations; lia end.
Qed.

(** X12.  For an entry that carries a [date], the date tests of the report's
    filter compare calendar dates: the entry is kept exactly when
    [dateFrom <= date <= dateTo] (a missing bound does not constrain) and
    it passes the other filters, in every time zone.  An entry without a
    [date] is tested by the local day of its start (or of the clock
    reading, if it has no start either) against the local days on which
    UTC midnight of [dateFrom] and [dateTo] fall: the bounds themselves
    from UTC eastwards, the days before them west of UTC. *)
Theorem filter_compares_calendar_days (tz now : Z) (f : ReportFilters.t)
    (e : TimeEntry.t) :
  -1440 < tz < 1440 ->
  Reports.keepEntry tz now f e
  = match TimeEntry.date e with
    | Some d => dayInRange f d
    | None =>
        dayInRange (shiftRange tz f)
          (Cal.localDay tz (Reports.entryDate now e))
    end
    && passesOtherFilters f e.
Proof.
  intro H. rewrite keepEntry_inRange. f_equal.
  destruct (TimeEntry.date e) as [d|] eqn:E.
  - unfold Reports.entryDate. rewrite E. now apply inRange_dated.
  - now apply inRange_timed.
Qed.

Lemma filter_compares_calendar_days_witness :
  Reports.keepEntry 60 0 weekFilter lastDayEntry
  = match TimeEntry.date lastDayEntry with
    | Some d => dayInRange weekFilter d
    | None =>
        dayInRange (shiftRange 60 weekFilter)
          (Cal.localDay 60 (Reports.entryDate 0 lastDayEntry))
    end
    && passesOtherFilters weekFilter lastDayEntry.
Proof.
  apply (filter_compares_calendar_days 60 0 weekFilter lastDayEntry). lia.
Defined.

(** *** The day and the period an entry is filed under *)

Lemma civil_of_localDay (tz a b : Z) :
  Cal.localDay tz a = Cal.localDay tz b ->
  Cal.getFullYear tz a = Cal.getFullYear tz b
  /\ Cal.getMonth tz a = Cal.getMonth tz b
  /\ Cal.getDate tz a = Cal.getDate tz b.
Proof.
  intro H. unfold Cal.getFullYear, Cal.getMonth, Cal.getDate.
  now rewrite H.
Qed.

Lemma startOfWeek_localDay (tz a b : Z) :
  Cal.localDay tz a = Cal.localDay tz b ->
  Cal.startOfWeek tz a = Cal.startOfWeek tz b.
Proof. intro H. unfold Cal.startOfWeek. now rewrite H. Qed.

(** X13.  An entry that carries a [date] is filed, in the report by day and
    in the period summaries, under the local day on which UTC midnight of
    that date falls: under its own date, month, quarter and week from UTC
    eastwards, and under those of the day before west of UTC. *)
Theorem dated_entry_is_filed_by_utc_midnight (tz now : Z) (e : TimeEntry.t)
    (d : Z) :
  TimeEntry.date e = Some d ->
  -1440 < tz < 1440 ->
  let filedAt := Cal.localMidnight tz (localDayOfDate tz d) in
  Cal.localDay tz filedAt = (if 0 <=? tz then d else d - 1)
  /\ Reports.groupKey tz now day e = Cal.format_yyyy_MM_dd tz filedAt
  /\ Reports.periodKey tz now week e
     = Cal.format_yyyy_MM_dd tz (Cal.startOfWeek tz filedAt)
  /\ Reports.periodKey tz now month e = Cal.format_yyyy_MM tz filedAt
  /\ Reports.periodKey tz now quarter e
     = (JS.toString (Cal.getFullYear tz filedAt) ++ "-Q"
        ++ JS.toString (Cal.getMonth tz filedAt / 3 + 1))%string.
Proof.
  intros Hd Htz filedAt.
  assert (HD : Cal.localDay tz (Reports.entryDate now e)
               = Cal.localDay tz filedAt).
  { unfold Reports.entryDate, filedAt. rewrite Hd.
    now rewrite localDay_utcMidnight, localDay_localMidnight0. }
  destruct (civil_of_localDay tz _ _ HD) as (Hy & Hm & Hdd).
  split.
  { unfold filedAt. now rewrite localDay_localMidnight0. }
  unfold Reports.groupKey, Reports.periodKey, Cal.format_yyyy_MM_dd,
    Cal.format_yyyy_MM. cbv zeta.
  rewrite (startOfWeek_localDay tz _ _ HD), Hy, Hm, Hdd.
  repeat split; reflexivity.
Qed.

Lemma dated_entry_is_filed_by_utc_midnight_witness :
  Reports.groupKey (-300) 0 day may2024
  = Cal.format_yyyy_MM_dd (-300)
      (Cal.localMidnight (-300)
         (localDayOfDate (-300) (Cal.days_from_civil 2024 5 1))).
Proof.
  destruct (dated_entry_is_filed_by_utc_midnight (-300) 0 may2024
              (Cal.days_from_civil 2024 5 1))
    as (_ & H & _).
  - reflexivity.
  - lia.
  - exact H.
Defined.

(** ** Quick date ranges ([setDateRange]) *)

Lemma monthOf_monthStart (n : Z) : monthOf (monthStart n) = n.
Proof.
  apply monthOf_unique. pose proof (monthStart_step n). lia.
Qed.

Lemma getDate_localMidnight_monthStart (tz n : Z) :
  Cal.getDate tz (Cal.localMidnight tz (monthStart n)) = 1.
Proof.
  rewrite getDate_monthOf, localDay_localMidnight0, monthOf_monthStart. lia.
Qed.

(** X14.  The quick ranges "Today" and "This Week" of the report: "Today"
    sets both bounds to the present local day; "This Week" sets them to
    the Monday and the Sunday of the week that contains it.  "All Time"
    clears both bounds.  No quick range touches the other filters. *)
Theorem quick_ranges_today_and_week (tz now : Z) (prev : ReportFilters.t) :
  let D := Cal.localDay tz now in
  let f := fun range => Reports.setDateRange tz now range prev in
  ReportFilters.dateFrom (f Reports.today) = Some D
  /\ ReportFilters.dateTo (f Reports.today) = Some D
  /\ (exists monday,
        ReportFilters.dateFrom (f Reports.thisWeek) = Some monday
        /\ ReportFilters.dateTo (f Reports.thisWeek) = Some (monday + 6)
        /\ monday <= D <= monday + 6
        /\ Cal.getDay tz (Cal.localMidnight tz monday) = 1)
  /\ ReportFilters.dateFrom (f Reports.allTime) = None
  /\ ReportFilters.dateTo (f Reports.allTime) = None
  /\ (forall range e,
        passesOtherFilters (f range) e = passesOtherFilters prev e)
  /\ (forall range,
        ReportFilters.groupBy (f range) = ReportFilters.groupBy prev).
Proof.
  cbv zeta.
  split; [reflexivity|]. split; [reflexivity|].
  split.
  { exists (Cal.localDay tz now - (Cal.localDay tz now + 3) mod 7).
    unfold Reports.setDateRange.
    cbn [ReportFilters.dateFrom ReportFilters.dateTo].
    rewrite startOfWeek_monday, endOfWeek_sunday.
    rewrite localDay_localMidnight0.
    rewrite localDay_localMidnight by (unfold Cal.msPerDay; lia).
    split; [reflexivity|]. split; [reflexivity|].
    unfold Cal.getDay. rewrite localDay_localMidnight0.
    set (D := Cal.localDay tz now). clearbody D.
    repeat split; Z.to_euclidean_division_equations; lia. }
  split; [reflexivity|]. split; [reflexivity|].
  split; intros range; [intro e|]; destruct range; reflexivity.
Qed.

(** X15.  The quick ranges "This Month" and "Last Month" of the report:
    "This Month" runs from the first to the last day of the month of the
    present local day; "Last Month" runs from the first day of the month
    before to the day before "This Month" begins.  A month has 28 to 31
    days. *)
Theorem quick_ranges_months (tz now : Z) (prev : ReportFilters.t) :
  let D := Cal.localDay tz now in
  let f := fun range => Reports.setDateRange tz now range prev in
  exists first last firstOfLast,
    ReportFilters.dateFrom (f Reports.thisMonth) = Some first
    /\ ReportFilters.dateTo (f Reports.thisMonth) = Some last
    /\ ReportFilters.dateFrom (f Reports.lastMonth) = Some firstOfLast
    /\ ReportFilters.dateTo (f Reports.lastMonth) = Some (first - 1)
    /\ first <= D <= last
    /\ Cal.getDate tz (Cal.localMidnight tz first) = 1
    /\ Cal.getDate tz (Cal.localMidnight tz (last + 1)) = 1
    /\ Cal.getDate tz (Cal.localMidnight tz firstOfLast) = 1
    /\ 28 <= last + 1 - first <= 31
    /\ 28 <= first - firstOfLast <= 31.
Proof.
  cbv zeta.
  set (n := monthOf (Cal.localDay tz now)).
  exists (monthStart n), (monthStart (n + 1) - 1), (monthStart (n - 1)).
  unfold Reports.setDateRange.
  cbn [ReportFilters.dateFrom ReportFilters.dateTo].
  rewrite !startOfMonth_monthStart, !endOfMonth_monthStart.
  replace (Cal.getMonth tz now - 1) with (Cal.getMonth tz now + -1) by lia.
  rewrite makeDay_of_date. fold n.
  replace (n + -1) with (n - 1) by lia.
  change (1 - 1) with 0. rewrite Z.add_0_r.
  rewrite !localDay_localMidnight0, !monthOf_monthStart.
  replace (n - 1 + 1) with n by lia.
  pose proof (monthStart_step n) as H1.
  pose proof (monthStart_step (n - 1)) as H2.
  replace (n - 1 + 1) with n in H2 by lia.
  pose proof (monthOf_spec (Cal.localDay tz now)) as H3. fold n in H3.
  assert (Hl : forall x, Cal.localDay tz (Cal.localMidnight tz x - 1) = x - 1).
  { intro x. unfold Cal.localDay, Cal.localMidnight, Cal.msPerDay,
      Cal.msPerMinute. Z.to_euclidean_division_equations; lia. }
  rewrite !Hl.
  replace (monthStart (n + 1) - 1 + 1) with (monthStart (n + 1)) by lia.
  rewrite !getDate_localMidnight_monthStart.
  repeat split; try reflexivity; lia.
Qed.

(** X16.  After "Today" is chosen, a dated entry is kept exactly when its
    date is the present local day and it passes the other filters.  An
    entry without a date is kept when its start falls on the present local
    day from UTC eastwards, and when it falls on the day before west of
    UTC.  After "All Time" the dates do not matter. *)
Theorem today_range_keeps (tz now clock : Z) (prev : ReportFilters.t)
    (e : TimeEntry.t) :
  -1440 < tz < 1440 ->
  let D := Cal.localDay tz now in
  Reports.keepEntry tz clock (Reports.setDateRange tz now Reports.today prev) e
  = match TimeEntry.date e with
    | Some d => d =? D
    | None =>
        Cal.localDay tz (Reports.entryDate clock e)
        =? (if 0 <=? tz then D else D - 1)
    end
    && passesOtherFilters prev e
  /\ Reports.keepEntry tz clock
       (Reports.setDateRange tz now Reports.allTime prev) e
     = passesOtherFilters prev e.
Proof.
  intros Htz D. split.
  - rewrite keepEntry_inRange. f_equal.
    destruct (TimeEntry.date e) as [d|] eqn:E.
    + unfold Reports.entryDate. rewrite E, inRange_dated by exact Htz.
      unfold dayInRange, Reports.setDateRange.
      cbn [ReportFilters.dateFrom ReportFilters.dateTo]. fold D.
      destruct (Z.leb_spec D d), (Z.leb_spec d D), (Z.eqb_spec d D);
        try reflexivity; lia.
    + rewrite inRange_timed by exact Htz.
      unfold dayInRange, shiftRange, Reports.setDateRange, localDayOfDate.
      cbn [ReportFilters.dateFrom ReportFilters.dateTo option_map]. fold D.
      set (x := Cal.localDay tz (Reports.entryDate clock e)).
      set (y := if 0 <=? tz then D else D - 1).
      destruct (Z.leb_spec y x), (Z.leb_spec x y), (Z.eqb_spec x y);
        try reflexivity; lia.
  - rewrite keepEntry_inRange. reflexivity.
Qed.

Lemma today_range_keeps_witness :
  Reports.keepEntry 60 0
    (Reports.setDateRange 60 (Cal.utc 2024 1 1 12 0 0) Reports.today
       customerFilter)
    ninetyMinutes
  = match TimeEntry.date ninetyMinutes with
    | Some d => d =? Cal.localDay 60 (Cal.utc 2024 1 1 12 0 0)
    | None =>
        Cal.localDay 60 (Reports.entryDate 0 ninetyMinutes)
        =? (if 0 <=? 60
            then Cal.localDay 60 (Cal.utc 2024 1 1 12 0 0)
            else Cal.localDay 60 (Cal.utc 2024 1 1 12 0 0) - 1)
    end
    && passesOtherFilters customerFilter ninetyMinutes.
Proof.
  destruct (today_range_keeps 60 (Cal.utc 2024 1 1 12 0 0) 0 customerFilter
              ninetyMinutes) as [H _].
  - lia.
  - exact H.
Defined.

(** ** The duration column ([formatDuration]) *)

Lemma hoursAndMinutes_not_dash (h m : Z) :
  TimeEntries.hoursAndMinutes h m <> "-".
Proof.
  unfold TimeEntries.hoursAndMinutes.
  destruct (JS.toString h) as [|c [|c' s]]; simpl; try discriminate.
  all: destruct c as [[] [] [] [] [] [] [] []]; discriminate.
Qed.

Lemma minutes_of_span (s t : Z) :
  s <= t -> Cal.differenceInSeconds t s / 60 = (t - s) / 60000.
Proof.
  intro H. unfold Cal.differenceInSeconds.
  rewrite Z.quot_div_nonneg by lia.
  Z.to_euclidean_division_equations; lia.
Qed.

(** X17.  The duration column of the list shows the minutes that the
    highlights count.  For an entry with non-negative recorded minutes, or
    without recorded minutes and with an end not before its start, the text
    is ["<h>h <m>m"] with [60 h + m] the entry's minutes of
    [calculateTotalHours] and [0 <= m < 60]; the report formats the
    seconds it resolves for the entry to the same text, unless the
    recorded minutes are 0.  The text is ["-"] exactly for an entry
    without recorded minutes that lacks a time stamp. *)
Theorem duration_column_shows_counted_minutes (now : Z) (e : TimeEntry.t) :
  forward e ->
  let m := TimeEntries.entryMinutes e in
  (hasDuration e = true ->
   shownDuration e = TimeEntries.hoursAndMinutes (m / 60) (m mod 60)
   /\ 0 <= m
   /\ (TimeEntry.duration_minutes e <> Some 0 ->
       Reports.formatDuration (Reports.calculateDuration now e)
       = shownDuration e))
  /\ (shownDuration e = "-" <-> hasDuration e = false).
Proof.
  intros Hf m. subst m.
  unfold forward, hasDuration, shownDuration, TimeEntries.formatDuration,
    TimeEntries.entryMinutes, Reports.calculateDuration in *.
  destruct (TimeEntry.duration_minutes e) as [dm|].
  - cbn [isSome orb]. split.
    + intros _. rewrite Z.rem_mod_nonneg by lia.
      split; [reflexivity|]. split; [exact Hf|].
      intro Hne. unfold JS.truthyNum, JS.valueOf.
      destruct (Z.eqb_spec dm 0) as [-> | _]; [congruence|]. cbn [negb].
      unfold Reports.formatDuration, TimeEntries.hoursAndMinutes. cbv zeta.
      rewrite Z.rem_mod_nonneg by lia.
      replace (dm * 60 / 3600) with (dm / 60)
        by (Z.to_euclidean_division_equations; lia).
      replace ((dm * 60) mod 3600 / 60) with (dm mod 60)
        by (Z.to_euclidean_division_equations; lia).
      reflexivity.
    + split; [|discriminate].
      intro H. now apply hoursAndMinutes_not_dash in H.
  - cbn [isSome orb JS.truthyNum].
    destruct (TimeEntry.start_time e) as [s|];
      destruct (TimeEntry.end_time e) as [t|]; cbn [isSome andb].
    + cbv zeta. split.
      * intros _.
        pose proof (differenceInSeconds_nonneg t s Hf) as [Hn _].
        rewrite (minutes_of_span s t Hf).
        assert (H0 : 0 <= (t - s) / 60000)
          by (Z.to_euclidean_division_equations; lia).
        assert (Hm : (if 0 <? (t - s) / 60000 then (t - s) / 60000 else 0)
                     = (t - s) / 60000).
        { destruct (Z.ltb_spec 0 ((t - s) / 60000)); lia. }
        rewrite Hm, Z.rem_mod_nonneg by lia.
        split; [reflexivity|]. split; [exact H0|].
        intros _. unfold Reports.formatDuration, TimeEntries.hoursAndMinutes.
        cbv zeta. rewrite Z.rem_mod_nonneg by lia.
        rewrite <- (minutes_of_span s t Hf).
        set (secs := Cal.differenceInSeconds t s) in *. clearbody secs.
        replace (secs / 60 / 60) with (secs / 3600)
          by (Z.to_euclidean_division_equations; lia).
        replace ((secs / 60) mod 60) with (secs mod 3600 / 60)
          by (Z.to_euclidean_division_equations; lia).
        reflexivity.
      * split; [|discriminate].
        intro H. now apply hoursAndMinutes_not_dash in H.
    + split; [discriminate | split; reflexivity].
    + split; [discriminate | split; reflexivity].
    + split; [discriminate | split; reflexivity].
Qed.

Lemma duration_column_shows_counted_minutes_witness :
  shownDuration ninetyMinutes
  = TimeEntries.hoursAndMinutes
      (TimeEntries.entryMinutes ninetyMinutes / 60)
      (TimeEntries.entryMinutes ninetyMinutes mod 60).
Proof.
  destruct (duration_column_shows_counted_minutes 0 ninetyMinutes) as [H _].
  - vm_compute. discriminate.
  - destruct (H eq_refl) as [H1 _]. exact H1.
Defined.

(** ** Rows and their groups *)

Lemma secondsOf_snoc (now : Z) (l : list TimeEntry.t) (e : TimeEntry.t) :
  secondsOf now (l ++ [e]) = secondsOf now l + Reports.calculateDuration now e.
Proof. unfold secondsOf. rewrite map_app, sumZ_app. simpl. lia. Qed.

(** The groups of [generateReport] after the loop: each holds the seconds
    of the entries with its key, and of the billable and of the other ones
    among them. *)
Lemma groupedData_spec (tz now : Z) (g : GroupBy) (l : list TimeEntry.t) :
  forall k d,
    In (k, d)
      (Reports.groupedData
         (fold_left (Reports.accumulate tz now g) l
            (Reports.mkTotals [] 0 0 0))) ->
    Reports.total d = secondsOf now (filter (inGroup tz now g k) l)
    /\ Reports.billable d
       = secondsOf now
           (filter TimeEntry.billable (filter (inGroup tz now g k) l))
    /\ Reports.nonBillable d
       = secondsOf now (filter notBillable (filter (inGroup tz now g k) l)).
Proof.
  induction l as [|e l IH] using rev_ind; intros k d Hin.
  - destruct Hin.
  - destruct (accumulate_invariant tz now g l)
      as (_ & _ & _ & _ & Hnd & Hkeys).
    cbv zeta in Hnd, Hkeys.
    rewrite fold_left_app in Hin. cbn [fold_left] in Hin.
    set (acc := fold_left (Reports.accumulate tz now g) l
                  (Reports.mkTotals [] 0 0 0)) in *.
    unfold Reports.accumulate in Hin. cbn [Reports.groupedData] in Hin.
    rewrite !filter_snoc.
    apply upsert_In_inv in Hin; [|exact Hnd].
    unfold inGroup at 2 4 6.
    destruct Hin as [[Hne Hin] | [-> [[Hnot ->] | [v [Hv ->]]]]].
    + destruct (String.eqb_spec (Reports.groupKey tz now g e) k);
        [congruence|].
      rewrite !app_nil_r. now apply IH.
    + rewrite String.eqb_refl.
      assert (Hnone : filter (inGroup tz now g (Reports.groupKey tz now g e)) l
                      = []).
      { apply filter_none. intros x Hx. unfold inGroup.
        destruct (String.eqb_spec (Reports.groupKey tz now g x)
                    (Reports.groupKey tz now g e)) as [E|]; [|reflexivity].
        exfalso. apply Hnot. apply Hkeys. eauto. }
      rewrite Hnone. cbn [app filter]. unfold notBillable.
      unfold Reports.addDuration.
      destruct (TimeEntry.billable e); cbn; unfold secondsOf; simpl; lia.
    + rewrite String.eqb_refl.
      destruct (IH _ _ Hv) as (H1 & H2 & H3).
      rewrite !filter_app. cbn [filter]. unfold notBillable in *.
      unfold Reports.addDuration.
      destruct (TimeEntry.billable e); cbn [negb app];
        rewrite ?app_nil_r, ?secondsOf_snoc;
        cbn [Reports.total Reports.billable Reports.nonBillable]; lia.
Qed.

(** The rows of the report and the groups of the loop. *)
Lemma reportData_In (newDate : string -> option Z) (tz now : Z)
    (f : ReportFilters.t) (timeEntries : list TimeEntry.t) (r : ReportData.t) :
  In r (Reports.reportData (Reports.generateReport newDate tz now f timeEntries))
  <-> exists k d,
        In (k, d)
          (Reports.groupedData
             (fold_left (Reports.accumulate tz now (ReportFilters.groupBy f))
                (Reports.filterTimeEntries tz now f timeEntries)
                (Reports.mkTotals [] 0 0 0)))
        /\ r = Reports.toRow tz (ReportFilters.groupBy f) (k, d).
Proof.
  pose proof (reportData_perm newDate tz now f timeEntries) as Hp.
  split.
  - intro H. apply (Permutation_in _ Hp) in H.
    apply in_map_iff in H. destruct H as [[k d] [<- Hin]]. eauto.
  - intros (k & d & Hin & ->).
    apply (Permutation_in _ (Permutation_sym Hp)).
    apply in_map. exact Hin.
Qed.

Lemma groupedData_groupDurations (tz now : Z) (g : GroupBy)
    (l : list TimeEntry.t) (k : string) (d : Reports.Durations) :
  In (k, d)
    (Reports.groupedData
       (fold_left (Reports.accumulate tz now g) l
          (Reports.mkTotals [] 0 0 0))) ->
  d = groupDurations tz now g k l.
Proof.
  intro Hin. destruct (groupedData_spec tz now g l k d Hin) as (H1 & H2 & H3).
  unfold groupDurations. cbv zeta. rewrite <- H1, <- H2, <- H3.
  now destruct d.
Qed.


(** X19.  With "billable only" switched on, no row, and no total, shows
    non-billable time: the non-billable hours are 0 and the billable hours
    are the hours. *)
Theorem billable_only_has_no_other_hours (newDate : string -> option Z)
    (tz now : Z) (f : ReportFilters.t) (timeEntries : list TimeEntry.t) :
  ReportFilters.billableOnly f = true ->
  let report := Reports.generateReport newDate tz now f timeEntries in
  (forall r, In r (Reports.reportData report) ->
     ReportData.nonBillableHours r = Reports.hours2 0
     /\ ReportData.billableHours r = ReportData.value r)
  /\ Reports.totalNonBillableHours report = Reports.hours2 0
  /\ Reports.totalBillableHours report = Reports.totalHours report
  /\ (Reports.hours2 0 == 0)%Q.
Proof.
  intros Hb report.
  set (kept := Reports.filterTimeEntries tz now f timeEntries).
  assert (Hall : forall e, In e kept -> TimeEntry.billable e = true).
  { intros e He. apply filter_In in He. destruct He as [_ He].
    rewrite keepEntry_inRange in He. unfold passesOtherFilters in He.
    rewrite Hb in He. rewrite !andb_true_iff in He.
    destruct He as (_ & _ & He). cbn [andb] in He.
    now rewrite !negb_true_iff, negb_false_iff in He. }
  assert (Hnb : forall l, (forall e, In e l -> In e kept) ->
                          filter notBillable l = []).
  { intros l Hl. apply filter_none. intros e He. unfold notBillable.
    now rewrite (Hall e (Hl e He)). }
  assert (Hbl : forall l, (forall e, In e l -> In e kept) ->
                          filter TimeEntry.billable l = l).
  { intros l Hl. induction l as [|e l IH]; [reflexivity|]. simpl.
    rewrite (Hall e) by (apply Hl; now left).
    f_equal. apply IH. intros x Hx. apply Hl. now right. }
  split; [|split; [|split]].
  - intros r Hr. apply reportData_In in Hr.
    destruct Hr as (k & d & Hin & ->). fold kept in Hin.
    destruct (groupedData_spec tz now _ kept k d Hin) as (H1 & H2 & H3).
    cbn [Reports.toRow ReportData.value
         ReportData.billableHours ReportData.nonBillableHours].
    rewrite H1, H2, H3.
    rewrite Hnb, Hbl by (intros e He; apply filter_In in He; tauto).
    split; reflexivity.
  - unfold report, Reports.generateReport. cbn [Reports.totalNonBillableHours].
    fold kept. f_equal.
    assert (Hgen : forall l acc,
               (forall e, In e l -> TimeEntry.billable e = true) ->
               Reports.totalNonBillableSeconds
                 (fold_left (Reports.accumulate tz now (ReportFilters.groupBy f))
                    l acc)
               = Reports.totalNonBillableSeconds acc).
    { induction l as [|e l IH]; intros acc Hl; [reflexivity|]. simpl.
      rewrite IH by (intros x Hx; apply Hl; now right).
      unfold Reports.accumulate. cbn [Reports.totalNonBillableSeconds].
      now rewrite (Hl e) by now left. }
    now rewrite Hgen.
  - unfold report, Reports.generateReport.
    cbn [Reports.totalBillableHours Reports.totalHours]. fold kept. f_equal.
    assert (Hgen : forall l acc,
               (forall e, In e l -> TimeEntry.billable e = true) ->
               Reports.totalBillableSeconds acc = Reports.totalSeconds acc ->
               Reports.totalBillableSeconds
                 (fold_left (Reports.accumulate tz now (ReportFilters.groupBy f))
                    l acc)
               = Reports.totalSeconds
                   (fold_left
                      (Reports.accumulate tz now (ReportFilters.groupBy f))
                      l acc)).
    { induction l as [|e l IH]; intros acc Hl Hacc; [exact Hacc|]. simpl.
      apply IH; [intros x Hx; apply Hl; now right|].
      unfold Reports.accumulate.
      cbn [Reports.totalBillableSeconds Reports.totalSeconds].
      rewrite (Hl e) by now left. lia. }
    apply Hgen; [exact Hall | reflexivity].
  - reflexivity.
Qed.

Lemma billable_only_has_no_other_hours_witness :
  Reports.totalBillableHours
    (Reports.generateReport (fun _ => None) 60 0 (newYearFilter true)
       [ninetyMinutes; ninetyMinutesTimed])
  = Reports.totalHours
      (Reports.generateReport (fun _ => None) 60 0 (newYearFilter true)
         [ninetyMinutes; ninetyMinutesTimed]).
Proof.
  destruct (billable_only_has_no_other_hours (fun _ => None) 60 0
              (newYearFilter true) [ninetyMinutes; ninetyMinutesTimed])
    as (_ & _ & H & _).
  - reflexivity.
  - exact H.
Defined.

(** ** Period summaries and their periods *)

(** The period groups after the first loop of [generatePeriodSummaries]:
    one group per period key, holding the entries with that key, in their
    order. *)
Lemma periodGroups_spec (tz now : Z) (view : PeriodView)
    (l : list TimeEntry.t) :
  let o := fold_left (Reports.pushEntry tz now view) l [] in
  NoDup (map fst o)
  /\ (forall k grp, In (k, grp) o -> grp = filter (inPeriod tz now view k) l)
  /\ (forall k, In k (map fst o) <->
                exists e, In e l /\ Reports.periodKey tz now view e = k).
Proof.
  cbv zeta.
  induction l as [|e l (Hnd & Hgrp & Hkey)] using rev_ind.
  - split; [constructor|]. split; [intros k grp []|].
    intro k. split; [intros [] | intros [e [[] _]]].
  - rewrite fold_left_app. cbn [fold_left].
    set (o := fold_left (Reports.pushEntry tz now view) l []) in *.
    unfold Reports.pushEntry.
    split; [now apply upsert_NoDup|]. split.
    + intros k grp Hin. rewrite filter_snoc. unfold inPeriod at 2.
      apply upsert_In_inv in Hin; [|exact Hnd].
      destruct Hin as [[Hne Hin] | [-> [[Hnot ->] | [v [Hv ->]]]]].
      * destruct (String.eqb_spec (Reports.periodKey tz now view e) k);
          [congruence|].
        rewrite app_nil_r. now apply Hgrp.
      * rewrite String.eqb_refl.
        rewrite filter_none; [reflexivity|].
        intros x Hx. unfold inPeriod.
        destruct (String.eqb_spec (Reports.periodKey tz now view x)
                    (Reports.periodKey tz now view e)) as [E|]; [|reflexivity].
        exfalso. apply Hnot. apply Hkey. eauto.
      * rewrite String.eqb_refl. f_equal. now apply Hgrp.
    + intro k. rewrite upsert_key_in, Hkey. split.
      * intros [[x [Hx Hk]] | ->].
        -- exists x. split; [apply in_or_app; now left | exact Hk].
        -- exists e. split; [apply in_or_app; right; now left | reflexivity].
      * intros [x [Hx Hk]]. apply in_app_or in Hx.
        destruct Hx as [Hx | [<- | []]]; [left; eauto | right; now subst].
Qed.

Lemma sumEntry_spec (now : Z) (l : list TimeEntry.t) :
  forall acc,
    let sums := fold_left (Reports.sumEntry now) l acc in
    Reports.total sums = Reports.total acc + secondsOf now l
    /\ Reports.billable sums
       = Reports.billable acc + secondsOf now (filter TimeEntry.billable l)
    /\ Reports.nonBillable sums
       = Reports.nonBillable acc + secondsOf now (filter notBillable l).
Proof.
  induction l as [|e l IH]; intro acc; cbv zeta.
  - unfold secondsOf. simpl. lia.
  - cbn [fold_left]. destruct (IH (Reports.sumEntry now acc e)) as (H1 & H2 & H3).
    rewrite H1, H2, H3. unfold Reports.sumEntry, Reports.addDuration.
    cbn [filter]. unfold notBillable at 2.
    destruct (TimeEntry.billable e); cbn [negb];
      cbn [Reports.total Reports.billable Reports.nonBillable];
      unfold secondsOf; simpl; lia.
Qed.


(** ** The hours of the highlights ([calculateTotalHours]) *)

(** [Math.round(m / 60 * 10)] in integers: minutes are rounded to tenths
    of an hour at 3 minutes, half of 6. *)
Lemma Math_round_tenths (m : Z) :
  JS.Math_round (inject_Z m / 60 * 10) = (m + 3) / 6.
Proof.
  unfold JS.Math_round.
  assert (H : (inject_Z m / 60 * 10 + (1 # 2) == (m + 3) # 6)%Q).
  { unfold Qeq, Qplus, Qmult, Qdiv, Qinv, inject_Z. simpl. lia. }
  rewrite (Qfloor_comp _ _ H). reflexivity.
Qed.

Lemma fold_minutes (minutesOf : TimeEntry.t -> Z) (l : list TimeEntry.t) :
  forall acc,
    fold_left (fun acc entry => acc + minutesOf entry) l acc
    = acc + sumZ (map minutesOf l).
Proof.
  induction l as [|e l IH]; intro acc; simpl; [lia|]. rewrite IH. lia.
Qed.

Lemma entryMinutes_same_without_duration (e : TimeEntry.t) :
  TimeEntry.duration e = None ->
  Dashboard.entryMinutes e = TimeEntries.entryMinutes e.
Proof.
  intro H. unfold Dashboard.entryMinutes, TimeEntries.entryMinutes.
  now rewrite H.
Qed.

Lemma entryMinutes_nonneg (e : TimeEntry.t) :
  (forall m, TimeEntry.duration_minutes e = Some m -> 0 <= m) ->
  0 <= TimeEntries.entryMinutes e.
Proof.
  intro H. unfold TimeEntries.entryMinutes.
  destruct (TimeEntry.duration_minutes e) as [m|]; [now apply H|].
  destruct (TimeEntry.start_time e) as [s|], (TimeEntry.end_time e) as [t|];
    try lia.
  cbv zeta. destruct (Z.ltb_spec 0 ((t - s) / 60000)); lia.
Qed.

Lemma sumZ_nonneg (l : list Z) : Forall (fun x => 0 <= x) l -> 0 <= sumZ l.
Proof. induction 1; simpl; lia. Qed.

(** X21.  The hours of a highlight are the minutes of its entries, added up
    and rounded to tenths of an hour, half up: [t] tenths are shown for
    [6 t - 3] to [6 t + 2] minutes, so that less than 3 minutes show as 0
    hours.  The two pages show the same hours for entries without the
    dashboard's [duration] field, and never negative hours unless some
    entry has negative recorded minutes. *)
Theorem highlight_hours_round_at_three_minutes (entries : list TimeEntry.t) :
  (TimeEntries.calculateTotalHours entries
   == inject_Z ((sumZ (map TimeEntries.entryMinutes entries) + 3) / 6) / 10)%Q
  /\ (Dashboard.calculateTotalHours entries
      == inject_Z ((sumZ (map Dashboard.entryMinutes entries) + 3) / 6) / 10)%Q
  /\ ((forall e, In e entries -> TimeEntry.duration e = None) ->
      Dashboard.calculateTotalHours entries
      = TimeEntries.calculateTotalHours entries)
  /\ ((forall e m, In e entries ->
         TimeEntry.duration_minutes e = Some m -> 0 <= m) ->
      (0 <= TimeEntries.calculateTotalHours entries)%Q).
Proof.
  assert (HT : (TimeEntries.calculateTotalHours entries
     == inject_Z ((sumZ (map TimeEntries.entryMinutes entries) + 3) / 6) / 10)%Q).
  { unfold TimeEntries.calculateTotalHours.
    destruct entries as [|e l]; [reflexivity|].
    cbv zeta. rewrite fold_minutes. unfold JS.round1.
    rewrite Math_round_tenths. rewrite Z.add_0_l. reflexivity. }
  split; [exact HT|]. split; [|split].
  - unfold Dashboard.calculateTotalHours.
    destruct entries as [|e l]; [reflexivity|].
    cbv zeta. rewrite fold_minutes. unfold JS.round1.
    rewrite Math_round_tenths. rewrite Z.add_0_l. reflexivity.
  - intro H. unfold Dashboard.calculateTotalHours,
      TimeEntries.calculateTotalHours.
    destruct entries as [|e l]; [reflexivity|].
    cbv zeta. rewrite !fold_minutes.
    rewrite (map_ext_in Dashboard.entryMinutes TimeEntries.entryMinutes);
      [reflexivity|].
    intros x Hx. now apply entryMinutes_same_without_duration, H.
  - intro H. rewrite HT.
    assert (Hs : 0 <= sumZ (map TimeEntries.entryMinutes entries)).
    { apply sumZ_nonneg, Forall_forall. intros x Hx.
      apply in_map_iff in Hx. destruct Hx as [e [<- He]].
      apply entryMinutes_nonneg. intros m Hm. exact (H e m He Hm). }
    assert (Hq : 0 <= (sumZ (map TimeEntries.entryMinutes entries) + 3) / 6)
      by (Z.to_euclidean_division_equations; lia).
    unfold Qle, Qdiv, Qmult, Qinv, inject_Z. simpl. lia.
Qed.

(** ** The share of billable hours above the report *)

(** The grand totals of [generateReport] after the loop. *)
Lemma totals_spec (tz now : Z) (g : GroupBy) (l : list TimeEntry.t) :
  let acc := fold_left (Reports.accumulate tz now g) l
               (Reports.mkTotals [] 0 0 0) in
  Reports.totalSeconds acc = secondsOf now l
  /\ Reports.totalBillableSeconds acc
     = secondsOf now (filter TimeEntry.billable l)
  /\ Reports.totalNonBillableSeconds acc
     = secondsOf now (filter notBillable l).
Proof.
  cbv zeta. induction l as [|e l (H1 & H2 & H3)] using rev_ind.
  - repeat split; reflexivity.
  - rewrite fold_left_app. cbn [fold_left]. unfold Reports.accumulate at 1 3 5.
    cbn [Reports.totalSeconds Reports.totalBillableSeconds
         Reports.totalNonBillableSeconds].
    rewrite !filter_snoc. unfold notBillable at 2.
    rewrite H1, H2, H3.
    destruct (TimeEntry.billable e); cbn [negb];
      rewrite ?app_nil_r, ?secondsOf_snoc; repeat split; lia.
Qed.

Lemma secondsOf_filter_le (now : Z) (p : TimeEntry.t -> bool)
    (l : list TimeEntry.t) :
  Forall (fun e => 0 <= Reports.calculateDuration now e) l ->
  0 <= secondsOf now (filter p l) <= secondsOf now l.
Proof.
  unfold secondsOf. induction 1 as [|e l He Hl IH]; simpl; [lia|].
  destruct (p e); simpl; lia.
Qed.

Lemma hours2_Qle (a b : Z) :
  a <= b -> (Reports.hours2 a <= Reports.hours2 b)%Q.
Proof.
  intro H. rewrite !hours2_hundredths.
  assert ((a + 18) / 36 <= (b + 18) / 36)
    by (Z.to_euclidean_division_equations; lia).
  unfold Qle, Qdiv, Qmult, Qinv, inject_Z. simpl. lia.
Qed.

Lemma hours2_zero : (Reports.hours2 0 == 0)%Q.
Proof. reflexivity. Qed.

(** X22.  The share of billable hours shown above the report lies between 0
    and 100 when no entry that passes the filter resolves to a negative
    duration, and with "billable only" switched on it is 100 as soon as
    the total rounds to more than 0 hours. *)
Theorem page_percentage_bounds (newDate : string -> option Z) (tz now : Z)
    (f : ReportFilters.t) (timeEntries : list TimeEntry.t) :
  Forall (fun e => 0 <= Reports.calculateDuration now e)
    (Reports.filterTimeEntries tz now f timeEntries) ->
  let report := Reports.generateReport newDate tz now f timeEntries in
  0 <= Reports.billablePercentage report <= 100
  /\ (ReportFilters.billableOnly f = true ->
      (0 < Reports.totalHours report)%Q ->
      Reports.billablePercentage report = 100).
Proof.
  intros Hpos report.
  set (kept := Reports.filterTimeEntries tz now f timeEntries) in *.
  destruct (totals_spec tz now (ReportFilters.groupBy f) kept)
    as (H1 & H2 & _). cbv zeta in H1, H2.
  pose proof (secondsOf_filter_le now TimeEntry.billable kept Hpos) as Hle.
  assert (HT : Reports.totalHours report = Reports.hours2 (secondsOf now kept)).
  { unfold report, Reports.generateReport. cbn [Reports.totalHours].
    fold kept. now rewrite H1. }
  assert (HB : Reports.totalBillableHours report
               = Reports.hours2 (secondsOf now (filter TimeEntry.billable kept))).
  { unfold report, Reports.generateReport. cbn [Reports.totalBillableHours].
    fold kept. now rewrite H2. }
  unfold Reports.billablePercentage. rewrite HT, HB.
  split.
  - destruct (JS.positive (Reports.hours2 (secondsOf now kept))) eqn:Hp; [|lia].
    apply percentage_bounds.
    + rewrite <- hours2_zero. apply hours2_Qle. lia.
    + apply hours2_Qle. lia.
    + now apply positive_true.
  - intros Hb Ht.
    assert (Hall : filter TimeEntry.billable kept = kept).
    { assert (Hk : forall e, In e kept -> TimeEntry.billable e = true).
      { intros e He. apply filter_In in He. destruct He as [_ He].
        rewrite keepEntry_inRange in He. unfold passesOtherFilters in He.
        rewrite Hb in He. rewrite !andb_true_iff in He.
        destruct He as (_ & _ & He). cbn [andb] in He.
        now rewrite !negb_true_iff, negb_false_iff in He. }
      clear - Hk. induction kept as [|e l IH]; [reflexivity|]. simpl.
      rewrite (Hk e) by now left.
      f_equal. apply IH. intros x Hx. apply Hk. now right. }
    rewrite Hall.
    assert (Hp : JS.positive (Reports.hours2 (secondsOf now kept)) = true).
    { unfold JS.positive. apply negb_true_iff.
      destruct (Qle_bool (Reports.hours2 (secondsOf now kept)) 0) eqn:E;
        [|reflexivity].
      apply Qle_bool_iff in E. exfalso. eapply Qlt_not_le; eauto. }
    rewrite Hp. unfold JS.Math_round.
    assert (E : (Reports.hours2 (secondsOf now kept)
                 / Reports.hours2 (secondsOf now kept) * 100 + (1 # 2)
                 == 100 + (1 # 2))%Q).
    { unfold Qdiv. rewrite Qmult_inv_r; [reflexivity|].
      intro H0. rewrite H0 in Ht. now apply Qlt_irrefl in Ht. }
    rewrite (Qfloor_comp _ _ E). reflexivity.
Qed.

Lemma page_percentage_bounds_witness :
  0 <= Reports.billablePercentage
         (Reports.generateReport (fun _ => None) 60 0 (newYearFilter false)
            [ninetyMinutes; ninetyMinutesTimed])
    <= 100.
Proof.
  destruct (page_percentage_bounds (fun _ => None) 60 0 (newYearFilter false)
              [ninetyMinutes; ninetyMinutesTimed]) as [H _].
  - vm_compute. repeat constructor; discriminate.
  - exact H.
Defined.

(** ** Editing an entry ([openModal], [handleSubmit]) *)

Lemma parseDecimal_toString (n : Z) : parseDecimal (JS.toString n) = Some n.
Proof.
  unfold parseDecimal, JS.toString.
  rewrite NilZero.isi.
  - simpl. now rewrite DecimalZ.of_to.
  - destruct n as [|p|p]; simpl; try discriminate.
    intro H. injection H as H. now apply DecimalPos.Unsigned.to_uint_nonnil in H.
  - destruct n as [|p|p]; simpl; try discriminate.
    intro H. injection H as H. now apply DecimalPos.Unsigned.to_uint_nonnil in H.
Qed.

(** X23.  Opening an entry for editing and saving the form unchanged.  For an
    entry without negative recorded minutes and without an end before its
    start, whose form carries a task, a project and a customer: if the
    highlights count [m > 0] minutes for the entry, the payload stores
    [duration_minutes = m], the entry's date (for an entry without a date
    the local day of its start, or the present day) and the entry's
    billable flag; if they count no minutes, as for an entry of 0 minutes
    or for a running timer, the form is refused with "Please enter a
    duration". *)
Theorem edit_and_save_keeps_minutes (parseInt : string -> option Z)
    (parseFloat : string -> option Q) (numberToString : Q -> string)
    (tz now : Z) (row : ListRow.t) :
  (forall n, 0 <= n -> parseInt (JS.toString n) = Some n) ->
  parseInt "" = None ->
  let te := ListRow.entry row in
  let form := TimeEntries.openModal numberToString tz now (Some row) in
  let m := TimeEntries.entryMinutes te in
  forward te ->
  JS.truthyStr (FormData.task_id form) = true ->
  JS.truthyStr (FormData.project_id form) = true ->
  JS.truthyStr (FormData.customer_id form) = true ->
  (0 < m ->
   exists payload,
     TimeEntries.handleSubmit parseInt parseFloat form = TimeEntries.Sent payload
     /\ Payload.duration_minutes payload = m
     /\ Payload.date payload
        = match TimeEntry.date te, TimeEntry.start_time te with
          | Some d, _ => d
          | None, Some s => Cal.localDay tz s
          | None, None => Cal.localDay tz now
          end
     /\ Payload.billable payload = TimeEntry.billable te
     /\ Payload.task_id payload = ListRow.task_id row)
  /\ (m <= 0 ->
      TimeEntries.handleSubmit parseInt parseFloat form
      = TimeEntries.Rejected "Please enter a duration").
Proof.
  intros Hparse Hempty te form m Hfwd Ht Hp Hc.
  assert (Hdur : exists h mi,
             FormData.duration_hours form = h
             /\ FormData.duration_minutes form = mi
             /\ TimeEntries.orZero (parseInt h) * 60
                + TimeEntries.orZero (parseInt mi) = m
             /\ 0 <= TimeEntries.orZero (parseInt h)
             /\ 0 <= TimeEntries.orZero (parseInt mi)).
  { unfold form, m, TimeEntries.openModal, TimeEntries.entryMinutes, forward in *.
    fold te in Hfwd |- *.
    destruct (TimeEntry.duration_minutes te) as [dm|].
    - cbn [FormData.duration_hours FormData.duration_minutes].
      eexists. eexists. split; [reflexivity|]. split; [reflexivity|].
      rewrite Z.rem_mod_nonneg by lia.
      rewrite !Hparse by (Z.to_euclidean_division_equations; lia).
      cbn [TimeEntries.orZero].
      repeat split; Z.to_euclidean_division_equations; lia.
    - destruct (TimeEntry.start_time te) as [s|];
        destruct (TimeEntry.end_time te) as [t|];
        cbn [FormData.duration_hours FormData.duration_minutes];
        eexists; eexists; (split; [reflexivity|]); (split; [reflexivity|]);
        rewrite ?Hempty; cbn [TimeEntries.orZero]; try lia.
      cbv zeta.
      rewrite (minutes_of_span s t Hfwd).
      assert (H0 : 0 <= (t - s) / 60000)
        by (Z.to_euclidean_division_equations; lia).
      rewrite Z.rem_mod_nonneg by lia.
      rewrite !Hparse by (Z.to_euclidean_division_equations; lia).
      cbn [TimeEntries.orZero].
      destruct (Z.ltb_spec 0 ((t - s) / 60000));
        repeat split; Z.to_euclidean_division_equations; lia. }
  destruct Hdur as (h & mi & Hh & Hmi & Hsum & Hh0 & Hmi0).
  assert (Hdate : FormData.date form
                  = Some match TimeEntry.date te, TimeEntry.start_time te with
                         | Some d, _ => d
                         | None, Some s => Cal.localDay tz s
                         | None, None => Cal.localDay tz now
                         end).
  { unfold form, TimeEntries.openModal. fold te.
    destruct (TimeEntry.duration_minutes te);
      [|destruct (TimeEntry.start_time te), (TimeEntry.end_time te)];
      cbn [FormData.date]; destruct (TimeEntry.date te); reflexivity. }
  assert (Hbill : FormData.billable form = TimeEntry.billable te
                  /\ FormData.task_id form = ListRow.task_id row).
  { unfold form, TimeEntries.openModal. fold te.
    destruct (TimeEntry.duration_minutes te);
      [|destruct (TimeEntry.start_time te), (TimeEntry.end_time te)];
      split; reflexivity. }
  destruct Hbill as [Hbill Htask].
  unfold TimeEntries.handleSubmit.
  rewrite Ht, Hp, Hc, Hdate, Hh, Hmi. cbn [negb]. cbv zeta.
  split.
  - intro Hpos.
    destruct ((TimeEntries.orZero (parseInt h) =? 0)
              && (TimeEntries.orZero (parseInt mi) =? 0)) eqn:E.
    + apply andb_true_iff in E. rewrite !Z.eqb_eq in E. lia.
    + eexists. split; [reflexivity|].
      cbn [Payload.duration_minutes Payload.date Payload.billable
           Payload.task_id].
      repeat split; assumption.
  - intro Hle.
    assert (E : (TimeEntries.orZero (parseInt h) =? 0)
                && (TimeEntries.orZero (parseInt mi) =? 0) = true).
    { apply andb_true_iff. rewrite !Z.eqb_eq. lia. }
    now rewrite E.
Qed.

Lemma edit_and_save_keeps_minutes_witness :
  exists payload,
    TimeEntries.handleSubmit parseDecimal (fun _ => None)
      (TimeEntries.openModal (fun _ => "") 60 0 (Some sampleRow))
    = TimeEntries.Sent payload
    /\ Payload.duration_minutes payload = TimeEntries.entryMinutes ninetyMinutes.
Proof.
  destruct (edit_and_save_keeps_minutes parseDecimal (fun _ => None)
              (fun _ => "") 60 0 sampleRow) as [H _].
  - intros n _. apply parseDecimal_toString.
  - reflexivity.
  - vm_compute. discriminate.
  - reflexivity.
  - reflexivity.
  - reflexivity.
  - destruct H as (payload & H1 & H2 & _).
    + vm_compute. reflexivity.
    + exists payload. split; [exact H1 | exact H2].
Defined.

(** ** The list's filter ([filteredTimeEntries]) *)

Lemma includes_empty (s : string) : TimeEntries.includes s "" = true.
Proof. unfold TimeEntries.includes. destruct s; reflexivity. Qed.

Lemma matchesFilters_dates (tz : Z) (filters : ListFilters.t) (row : ListRow.t) :
  TimeEntries.matchesFilters tz filters row
  = TimeEntries.matchesFilters tz (clearDates filters) row
    && match TimeEntries.listEntryDate (ListRow.entry row) with
       | Some d => inRange tz (datesOnly filters) d
       | None => true
       end.
Proof.
  unfold TimeEntries.matchesFilters, clearDates, datesOnly, inRange.
  cbn [ListFilters.task ListFilters.project ListFilters.customer
       ListFilters.dateFrom ListFilters.dateTo ListFilters.billable
       ListFilters.active ReportFilters.dateFrom ReportFilters.dateTo].
  cbv zeta.
  match goal with
  | |- context [if JS.truthyStr (ListFilters.active filters) then ?a else ?b] =>
      generalize (if JS.truthyStr (ListFilters.active filters) then a else b)
  end.
  intro m5.
  destruct (TimeEntries.listEntryDate (ListRow.entry row)) as [d|].
  - destruct (ListFilters.dateFrom filters) as [a|];
      destruct (ListFilters.dateTo filters) as [b|];
      repeat match goal with
        | |- context [?x <? ?y] =>
            destruct (Z.ltb_spec x y); destruct (Z.leb_spec y x); try lia
        end;
      destruct m5; reflexivity.
  - destruct (ListFilters.dateFrom filters), (ListFilters.dateTo filters);
      now rewrite andb_true_r.
Qed.

(** X24.  The list and the report test dates alike.  An entry of the list
    with a [date] or a [start_time] passes the list's filters exactly when
    it passes them with the two dates cleared and the report's filter,
    set to the same two dates and nothing else, keeps it.  An entry with
    neither passes every date filter of the list, while the report files
    it under the present instant. *)
Theorem list_and_report_test_dates_alike (tz now : Z)
    (filters : ListFilters.t) (row : ListRow.t) :
  let e := ListRow.entry row in
  (isSome (TimeEntry.date e) || isSome (TimeEntry.start_time e) = true ->
   TimeEntries.matchesFilters tz filters row
   = TimeEntries.matchesFilters tz (clearDates filters) row
     && Reports.keepEntry tz now (datesOnly filters) e)
  /\ (isSome (TimeEntry.date e) || isSome (TimeEntry.start_time e) = false ->
      TimeEntries.matchesFilters tz filters row
      = TimeEntries.matchesFilters tz (clearDates filters) row
      /\ Reports.keepEntry tz now (datesOnly filters) e
         = inRange tz (datesOnly filters) now).
Proof.
  cbv zeta. rewrite matchesFilters_dates, keepEntry_inRange.
  unfold TimeEntries.listEntryDate, Reports.entryDate, passesOtherFilters.
  cbn [datesOnly ReportFilters.customer ReportFilters.project
       ReportFilters.billableOnly JS.truthyStr String.eqb negb andb].
  destruct (TimeEntry.date (ListRow.entry row)) as [d|];
    [|destruct (TimeEntry.start_time (ListRow.entry row)) as [s|]];
    cbn [isSome orb]; split; intro H; try discriminate;
    rewrite ?andb_true_r; try reflexivity.
  split; reflexivity.
Qed.

Lemma matchesFilters_billable (tz : Z) (filters : ListFilters.t)
    (choice : string) (row : ListRow.t) :
  TimeEntries.matchesFilters tz (withBillable choice filters) row
  = negb (JS.truthyStr choice
          && (((choice =? "yes")%string
               && negb (TimeEntry.billable (ListRow.entry row)))
              || ((choice =? "no")%string
                  && TimeEntry.billable (ListRow.entry row))))
    && TimeEntries.matchesFilters tz (withBillable "" filters) row.
Proof.
  unfold TimeEntries.matchesFilters, withBillable.
  cbn [ListFilters.task ListFilters.project ListFilters.customer
       ListFilters.dateFrom ListFilters.dateTo ListFilters.billable
       ListFilters.active].
  cbv zeta.
  change (JS.truthyStr "") with false. cbv iota.
  match goal with
  | |- context [negb ?a && negb ?b && negb ?c] =>
      generalize (negb a && negb b && negb c)
  end.
  intro m3.
  destruct (JS.truthyStr choice);
    destruct ((choice =? "yes")%string
              && negb (TimeEntry.billable (ListRow.entry row)));
    destruct ((choice =? "no")%string
              && TimeEntry.billable (ListRow.entry row));
    cbn [negb andb orb];
    destruct (JS.truthyStr (ListFilters.active filters));
    destruct ((ListFilters.active filters =? "yes")%string
              && negb (ListRow.active row));
    destruct ((ListFilters.active filters =? "no")%string
              && ListRow.active row);
    destruct (ListFilters.dateFrom filters);
    destruct (ListFilters.dateTo filters);
    destruct (TimeEntries.listEntryDate (ListRow.entry row));
    repeat match goal with
      | |- context [if ?c then _ else _] => destruct c
      end;
    reflexivity.
Qed.

(** X25.  With an empty search box and no filter set, the list shows every
    entry, in the order in which it came; and the choices "yes" and "no"
    of the billable filter split what the list shows without that filter
    in two: every such entry is shown under exactly one of them. *)
Theorem list_filter_defaults_and_billable_split
    (toLowerCase : string -> string) (tz : Z) (searchQuery : string)
    (filters : ListFilters.t) (timeEntries : list ListRow.t) :
  toLowerCase "" = "" ->
  TimeEntries.filteredTimeEntries toLowerCase tz "" noListFilters timeEntries
  = timeEntries
  /\ forall row,
       In row (TimeEntries.filteredTimeEntries toLowerCase tz searchQuery
                 (withBillable "" filters) timeEntries)
       <-> (In row (TimeEntries.filteredTimeEntries toLowerCase tz searchQuery
                      (withBillable "yes" filters) timeEntries)
            /\ TimeEntry.billable (ListRow.entry row) = true)
           \/ (In row (TimeEntries.filteredTimeEntries toLowerCase tz
                         searchQuery (withBillable "no" filters) timeEntries)
               /\ TimeEntry.billable (ListRow.entry row) = false).
Proof.
  intro Hlow. split.
  - unfold TimeEntries.filteredTimeEntries.
    induction timeEntries as [|row l IH]; [reflexivity|].
    cbn [filter].
    assert (Hs : TimeEntries.matchesSearch toLowerCase "" row = true).
    { unfold TimeEntries.matchesSearch. cbv zeta.
      rewrite Hlow, !includes_empty. reflexivity. }
    assert (Hf : TimeEntries.matchesFilters tz noListFilters row = true)
      by reflexivity.
    rewrite Hs, Hf. cbn [andb]. now rewrite IH.
  - intro row. unfold TimeEntries.filteredTimeEntries.
    rewrite !filter_In, !andb_true_iff.
    rewrite (matchesFilters_billable tz filters "yes"),
      (matchesFilters_billable tz filters "no").
    change (JS.truthyStr "yes") with true.
    change (JS.truthyStr "no") with true.
    change ("yes" =? "yes")%string with true.
    change ("yes" =? "no")%string with false.
    change ("no" =? "yes")%string with false.
    change ("no" =? "no")%string with true.
    destruct (TimeEntry.billable (ListRow.entry row)); cbn [negb andb orb];
      intuition discriminate.
Qed.

Lemma list_filter_defaults_and_billable_split_witness :
  TimeEntries.filteredTimeEntries (fun s => s) 60 "" noListFilters [sampleRow]
  = [sampleRow].
Proof.
  exact (proj1 (list_filter_defaults_and_billable_split (fun s => s) 60 ""
                  noListFilters [sampleRow] eq_refl)).
Defined.

(** ** The running timer's display ([formatElapsedTime]) *)

(** Padding a number below 100 to two places gives its two digits. *)
Lemma padStart0_two_digits (n : Z) :
  0 <= n < 100 -> JS.padStart0 2 (JS.toString n) = Cal.pad2 n.
Proof.
  intro H.
  assert (Hall : forallb
            (fun k => (JS.padStart0 2 (JS.toString (Z.of_nat k))
                       =? Cal.pad2 (Z.of_nat k))%string)
            (seq 0 100) = true) by (vm_compute; reflexivity).
  rewrite forallb_forall in Hall.
  specialize (Hall (Z.to_nat n)).
  rewrite Z2Nat.id in Hall by lia.
  apply String.eqb_eq, Hall, in_seq. lia.
Qed.

(** X26.  The running timer is shown as [HH:MM:SS].  For an elapsed time of
    less than a hundred hours the text is the two digits of the hours, of
    the minutes and of the seconds, which add up to the elapsed seconds;
    minutes and seconds stay below 60. *)
Theorem elapsed_time_is_HH_MM_SS (seconds : Z) :
  0 <= seconds < 360000 ->
  exists h m s,
    TimeEntries.formatElapsedTime seconds
    = (Cal.pad2 h ++ ":" ++ Cal.pad2 m ++ ":" ++ Cal.pad2 s)%string
    /\ 3600 * h + 60 * m + s = seconds
    /\ 0 <= h < 100 /\ 0 <= m < 60 /\ 0 <= s < 60
    /\ String.length (TimeEntries.formatElapsedTime seconds) = 8%nat.
Proof.
  intro H.
  exists (seconds / 3600), (seconds mod 3600 / 60), (seconds mod 60).
  assert (Hh : 0 <= seconds / 3600 < 100)
    by (Z.to_euclidean_division_equations; lia).
  assert (Hm : 0 <= seconds mod 3600 / 60 < 60)
    by (Z.to_euclidean_division_equations; lia).
  assert (Hs : 0 <= seconds mod 60 < 60)
    by (Z.to_euclidean_division_equations; lia).
  assert (E : TimeEntries.formatElapsedTime seconds
              = (Cal.pad2 (seconds / 3600) ++ ":"
                 ++ Cal.pad2 (seconds mod 3600 / 60) ++ ":"
                 ++ Cal.pad2 (seconds mod 60))%string).
  { unfold TimeEntries.formatElapsedTime. cbv zeta.
    rewrite !Z.rem_mod_nonneg by lia.
    rewrite !padStart0_two_digits by lia. reflexivity. }
  split; [exact E|].
  split; [Z.to_euclidean_division_equations; lia|].
  split; [exact Hh|]. split; [exact Hm|]. split; [exact Hs|].
  rewrite E. reflexivity.
Qed.

Lemma elapsed_time_is_HH_MM_SS_witness :
  exists h m s,
    TimeEntries.formatElapsedTime 3725
    = (Cal.pad2 h ++ ":" ++ Cal.pad2 m ++ ":" ++ Cal.pad2 s)%string
    /\ 3600 * h + 60 * m + s = 3725
    /\ 0 <= h < 100 /\ 0 <= m < 60 /\ 0 <= s < 60
    /\ String.length (TimeEntries.formatElapsedTime 3725) = 8%nat.
Proof.
  apply (elapsed_time_is_HH_MM_SS 3725). lia.
Defined.

(** ** Labels of rows and periods *)

Lemma digitVal_digit (n : Z) : JS.digitVal (Cal.digit n) = Some (n mod 10).
Proof.
  unfold Cal.digit.
  pose proof (Z.mod_pos_bound n 10 ltac:(lia)) as H.
  set (k := n mod 10) in *. clearbody k.
  assert (Hk : k = 0 \/ k = 1 \/ k = 2 \/ k = 3 \/ k = 4 \/ k = 5 \/ k = 6
               \/ k = 7 \/ k = 8 \/ k = 9) by lia.
  destruct Hk as [->|[->|[->|[->|[->|[->|[->|[->|[->| ->]]]]]]]]];
    reflexivity.
Qed.

Lemma num2_digits (a b : Z) :
  Cal.num2 (Cal.digit a) (Cal.digit b) = Some (a mod 10 * 10 + b mod 10).
Proof. unfold Cal.num2. now rewrite !digitVal_digit. Qed.

(** The civil date of a day: its parts are in range and give the day
    back. *)
Lemma civil_date_in_range (z : Z) :
  exists y m d,
    Cal.civil_from_days z = (y, m, d)
    /\ 1 <= m <= 12 /\ 1 <= d <= 31
    /\ Cal.days_from_civil y m d = z.
Proof.
  destruct (civil_spec z) as (y & m & d & E & Hm & Hd & Hz & Hlt).
  exists y, m, d. split; [exact E|]. split; [exact Hm|]. split; [|exact Hz].
  split; [exact Hd|].
  pose proof (month_length_norm y (m - 1) ltac:(lia)) as Hlen.
  replace (m - 1 + 1) with m in Hlen by lia.
  rewrite (makeDay_month y m 1 Hm) in Hlen.
  rewrite (days_from_civil_day y m d) in Hz. lia.
Qed.

(** [parseISO] reads back what [format(d, 'yyyy-MM-dd')] wrote: the start
    of the day of [d]. *)
Lemma parseISO_format_yyyy_MM_dd (tz t : Z) :
  fourDigitYear tz t ->
  Cal.parseISO tz (Cal.format_yyyy_MM_dd tz t) = Some (Cal.startOfDay tz t).
Proof.
  unfold fourDigitYear, Cal.format_yyyy_MM_dd, Cal.getFullYear, Cal.getMonth,
    Cal.getDate, Cal.startOfDay.
  destruct (civil_date_in_range (Cal.localDay tz t))
    as (y & m & d & E & Hm & Hd & Hz).
  rewrite E. intro Hy.
  replace (m - 1 + 1) with m by lia.
  unfold Cal.pad4, Cal.pad2. cbn [append].
  unfold Cal.parseISO.
  rewrite !num2_digits.
  replace ((y / 1000) mod 10 * 10 + (y / 100) mod 10) with (y / 100)
    by (Z.to_euclidean_division_equations; lia).
  replace ((y / 10) mod 10 * 10 + y mod 10) with (y mod 100)
    by (Z.to_euclidean_division_equations; lia).
  replace ((m / 10) mod 10 * 10 + m mod 10) with m
    by (Z.to_euclidean_division_equations; lia).
  replace ((d / 10) mod 10 * 10 + d mod 10) with d
    by (Z.to_euclidean_division_equations; lia).
  replace (y / 100 * 100 + y mod 100) with y
    by (Z.to_euclidean_division_equations; lia).
  replace ((1 <=? m) && (m <=? 12) && (1 <=? d) && (d <=? 31)) with true.
  - now rewrite Hz.
  - symmetry. rewrite !andb_true_iff, !Z.leb_le. lia.
Qed.

Lemma startOfMonth_first (tz t : Z) :
  Cal.startOfMonth tz t
  = Cal.localMidnight tz
      (Cal.days_from_civil (Cal.getFullYear tz t) (Cal.getMonth tz t + 1) 1).
Proof.
  unfold Cal.startOfMonth, Cal.getFullYear, Cal.getMonth.
  destruct (civil_date_in_range (Cal.localDay tz t))
    as (y & m & d & E & Hm & Hd & Hz).
  rewrite E. replace (m - 1 + 1) with m by lia.
  now rewrite (makeDay_month y m 1 Hm).
Qed.

(** [parseISO] reads the key of a month, completed by ["-01"], as the
    start of that month. *)
Lemma parseISO_format_yyyy_MM (tz t : Z) :
  fourDigitYear tz t ->
  Cal.parseISO tz (Cal.format_yyyy_MM tz t ++ "-01")
  = Some (Cal.startOfMonth tz t).
Proof.
  intro Hy. rewrite startOfMonth_first.
  unfold fourDigitYear in Hy. unfold Cal.format_yyyy_MM.
  assert (Hm : 1 <= Cal.getMonth tz t + 1 <= 12).
  { unfold Cal.getMonth.
    destruct (civil_date_in_range (Cal.localDay tz t))
      as (y & m & d & E & Hm & _). rewrite E. lia. }
  set (y := Cal.getFullYear tz t) in *.
  set (m := Cal.getMonth tz t + 1) in *. clearbody y m.
  unfold Cal.pad4, Cal.pad2. cbn [append].
  unfold Cal.parseISO.
  rewrite !num2_digits.
  change (Cal.num2 "0" "1") with (Some 1).
  replace ((y / 1000) mod 10 * 10 + (y / 100) mod 10) with (y / 100)
    by (Z.to_euclidean_division_equations; lia).
  replace ((y / 10) mod 10 * 10 + y mod 10) with (y mod 100)
    by (Z.to_euclidean_division_equations; lia).
  replace ((m / 10) mod 10 * 10 + m mod 10) with m
    by (Z.to_euclidean_division_equations; lia).
  replace (y / 100 * 100 + y mod 100) with y
    by (Z.to_euclidean_division_equations; lia).
  replace ((1 <=? m) && (m <=? 12) && (1 <=? 1) && (1 <=? 31)) with true.
  - reflexivity.
  - symmetry. rewrite !andb_true_iff, !Z.leb_le. lia.
Qed.

Lemma localDay_startOfDay (tz t : Z) :
  Cal.localDay tz (Cal.startOfDay tz t) = Cal.localDay tz t.
Proof. unfold Cal.startOfDay. apply localDay_localMidnight0. Qed.

Lemma startOfMonth_same_month (tz t : Z) :
  Cal.getFullYear tz (Cal.startOfMonth tz t) = Cal.getFullYear tz t
  /\ Cal.getMonth tz (Cal.startOfMonth tz t) = Cal.getMonth tz t.
Proof.
  rewrite !getFullYear_monthOf, !getMonth_monthOf, startOfMonth_monthStart,
    localDay_localMidnight0, monthOf_monthStart.
  split; reflexivity.
Qed.

(** The labels of the keys of an entry. *)
Lemma labels_of_keys (tz now : Z) (e : TimeEntry.t) :
  let t := Reports.entryDate now e in
  fourDigitYear tz t ->
  (forall d,
     ReportData.name (Reports.toRow tz day (Reports.groupKey tz now day e, d))
     = Cal.format_dd_MMM tz t)
  /\ Reports.periodLabel tz month (Reports.periodKey tz now month e)
     = Cal.formatMonthYear tz t
  /\ (fourDigitYear tz (Cal.startOfWeek tz t) ->
      Reports.periodLabel tz week (Reports.periodKey tz now week e)
      = ("Week of " ++ Cal.formatDate tz (Cal.startOfWeek tz t))%string).
Proof.
  intros t Hy. split; [|split].
  - intro d. cbn [Reports.toRow ReportData.name Reports.groupKey]. fold t.
    rewrite (parseISO_format_yyyy_MM_dd tz t Hy).
    destruct (civil_of_localDay tz _ _ (localDay_startOfDay tz t))
      as (_ & Hm & Hd).
    unfold Cal.format_dd_MMM. now rewrite Hm, Hd.
  - unfold Reports.periodLabel, Reports.periodKey. cbv zeta. fold t.
    rewrite (parseISO_format_yyyy_MM tz t Hy).
    destruct (startOfMonth_same_month tz t) as [Hyy Hm].
    unfold Cal.formatMonthYear. now rewrite Hyy, Hm.
  - intro Hw. unfold Reports.periodLabel, Reports.periodKey. cbv zeta. fold t.
    rewrite (parseISO_format_yyyy_MM_dd tz _ Hw).
    destruct (civil_of_localDay tz _ _
                (localDay_startOfDay tz (Cal.startOfWeek tz t)))
      as (Hyy & Hm & Hd).
    unfold Cal.formatDate. now rewrite Hyy, Hm, Hd.
Qed.

(** X27.  Labels are never "Invalid Date".  When the entries that pass the
    filter are filed in years that are written with four digits, every row
    of the report by day is named by the day and the month, without the
    year, under which an entry of its group is filed; and every period
    summary is labelled "Week of" the Monday of an entry of its period, by
    the month and year of such an entry, or by its quarter. *)
Theorem labels_show_the_filed_date (newDate : string -> option Z)
    (localeCompare : string -> string -> Z) (tz now : Z)
    (f : ReportFilters.t) (view : PeriodView)
    (timeEntries : list TimeEntry.t) :
  let kept := Reports.filterTimeEntries tz now f timeEntries in
  (forall e, In e kept ->
     fourDigitYear tz (Reports.entryDate now e)
     /\ fourDigitYear tz (Cal.startOfWeek tz (Reports.entryDate now e))) ->
  (ReportFilters.groupBy f = day ->
   forall r,
     In r (Reports.reportData
             (Reports.generateReport newDate tz now f timeEntries)) ->
     exists e, In e kept
               /\ ReportData.name r
                  = Cal.format_dd_MMM tz (Reports.entryDate now e))
  /\ (forall s,
        In s (Reports.generatePeriodSummaries localeCompare tz now f view
                timeEntries) ->
        exists e,
          In e kept
          /\ PeriodSummary.period s
             = match view with
               | week =>
                   ("Week of "
                    ++ Cal.formatDate tz
                         (Cal.startOfWeek tz (Reports.entryDate now e)))%string
               | month => Cal.formatMonthYear tz (Reports.entryDate now e)
               | quarter => Reports.periodKey tz now quarter e
               end).
Proof.
  intros kept Hyears. split.
  - intros Hg r Hr. apply reportData_In in Hr.
    destruct Hr as (k & d & Hin & ->). fold kept in Hin.
    destruct (accumulate_invariant tz now (ReportFilters.groupBy f) kept)
      as (_ & _ & _ & _ & _ & Hkeys).
    cbv zeta in Hkeys.
    destruct (proj1 (Hkeys k)) as [e [He Hk]];
      [apply (in_map fst) in Hin; exact Hin|].
    exists e. split; [exact He|].
    rewrite Hg in *. rewrite <- Hk.
    destruct (labels_of_keys tz now e (proj1 (Hyears e He))) as [H _].
    apply H.
  - intros s Hs. unfold Reports.generatePeriodSummaries in Hs. fold kept in Hs.
    apply sort_In, in_map_iff in Hs. destruct Hs as [[k grp] [<- Hin]].
    rewrite entries_In in Hin.
    destruct (periodGroups_spec tz now view kept) as (_ & _ & Hkey).
    cbv zeta in Hkey.
    destruct (proj1 (Hkey k)) as [e [He Hk]];
      [apply (in_map fst) in Hin; exact Hin|].
    exists e. split; [exact He|].
    cbn [Reports.summarizePeriod PeriodSummary.period]. rewrite <- Hk.
    destruct (Hyears e He) as [Hy Hw].
    destruct (labels_of_keys tz now e Hy) as (_ & Hm & Hwk).
    destruct view; [now apply Hwk | exact Hm | reflexivity].
Qed.

Lemma labels_show_the_filed_date_witness :
  exists e,
    In e (Reports.filterTimeEntries 120 0 dayFilter [may2024; may2023])
    /\ ReportData.name row2024 = Cal.format_dd_MMM 120 (Reports.entryDate 0 e).
Proof.
  destruct (labels_show_the_filed_date (fun _ => None) (fun _ _ => 0) 120 0
              dayFilter week [may2024; may2023]) as [H _].
  - intros e He.
    assert (Hk : Reports.filterTimeEntries 120 0 dayFilter [may2024; may2023]
                 = [may2024; may2023]) by reflexivity.
    rewrite Hk in He.
    destruct He as [<- | [<- | []]]; vm_compute; repeat split; discriminate.
  - apply H; [reflexivity|]. vm_compute. left. reflexivity.
Defined.

(** ** How the quick ranges nest *)

(** A wider range keeps what a narrower one keeps. *)
Lemma inRange_wider (tz : Z) (f g : ReportFilters.t) (d : Z) :
  (forall b, ReportFilters.dateFrom g = Some b ->
     exists a, ReportFilters.dateFrom f = Some a /\ b <= a) ->
  (forall b, ReportFilters.dateTo g = Some b ->
     exists a, ReportFilters.dateTo f = Some a /\ a <= b) ->
  inRange tz f d = true -> inRange tz g d = true.
Proof.
  intros Hfrom Hto. unfold inRange. rewrite !andb_true_iff.
  intros [H1 H2]. split.
  - destruct (ReportFilters.dateFrom g) as [b|]; [|reflexivity].
    destruct (Hfrom b eq_refl) as (a & Ea & Hle). rewrite Ea in H1.
    apply Z.leb_le in H1. apply Z.leb_le.
    pose proof (startOfDay_mono tz _ _ (utcMidnight_mono b a Hle)). lia.
  - destruct (ReportFilters.dateTo g) as [b|]; [|reflexivity].
    destruct (Hto b eq_refl) as (a & Ea & Hle). rewrite Ea in H2.
    apply Z.leb_le in H2. apply Z.leb_le.
    pose proof (startOfDay_mono tz _ _ (utcMidnight_mono a b Hle)).
    unfold Cal.endOfDay in *. lia.
Qed.

Lemma setDateRange_others (tz now : Z) (range : Reports.DateRange)
    (prev : ReportFilters.t) (e : TimeEntry.t) :
  passesOtherFilters (Reports.setDateRange tz now range prev) e
  = passesOtherFilters prev e.
Proof. destruct range; reflexivity. Qed.

(** Two ranges of which one ends the day before the other begins have no
    instant in common. *)
Lemma inRange_disjoint (tz : Z) (f g : ReportFilters.t) (a d : Z) :
  ReportFilters.dateTo f = Some (a - 1) ->
  ReportFilters.dateFrom g = Some a ->
  inRange tz f d = true -> inRange tz g d = false.
Proof.
  intros Hf Hg. unfold inRange. rewrite Hf, Hg.
  rewrite andb_true_iff, andb_false_iff, Z.leb_le, Z.leb_gt.
  intros [_ H]. left.
  assert (Hlt : Cal.endOfDay tz (Cal.utcMidnight (a - 1))
                < Cal.startOfDay tz (Cal.utcMidnight a)).
  { unfold Cal.endOfDay, Cal.startOfDay, Cal.localMidnight, Cal.localDay,
      Cal.utcMidnight, Cal.msPerDay, Cal.msPerMinute.
    Z.to_euclidean_division_equations; lia. }
  lia.
Qed.

(** The bounds that the quick ranges set. *)
Lemma setDateRange_bounds (tz now : Z) (prev : ReportFilters.t) :
  let D := Cal.localDay tz now in
  let f := fun range => Reports.setDateRange tz now range prev in
  exists monday first last firstOfLast,
    ReportFilters.dateFrom (f Reports.thisWeek) = Some monday
    /\ ReportFilters.dateTo (f Reports.thisWeek) = Some (monday + 6)
    /\ monday <= D <= monday + 6
    /\ ReportFilters.dateFrom (f Reports.thisMonth) = Some first
    /\ ReportFilters.dateTo (f Reports.thisMonth) = Some last
    /\ first <= D <= last
    /\ ReportFilters.dateFrom (f Reports.lastMonth) = Some firstOfLast
    /\ ReportFilters.dateTo (f Reports.lastMonth) = Some (first - 1).
Proof.
  cbv zeta.
  set (n := monthOf (Cal.localDay tz now)).
  exists (Cal.localDay tz now - (Cal.localDay tz now + 3) mod 7),
    (monthStart n), (monthStart (n + 1) - 1), (monthStart (n - 1)).
  unfold Reports.setDateRange.
  cbn [ReportFilters.dateFrom ReportFilters.dateTo].
  rewrite startOfWeek_monday, endOfWeek_sunday.
  rewrite !startOfMonth_monthStart, !endOfMonth_monthStart.
  replace (Cal.getMonth tz now - 1) with (Cal.getMonth tz now + -1) by lia.
  rewrite makeDay_of_date. fold n.
  replace (n + -1) with (n - 1) by lia.
  change (1 - 1) with 0. rewrite Z.add_0_r.
  rewrite !localDay_localMidnight0, !monthOf_monthStart.
  rewrite localDay_localMidnight by (unfold Cal.msPerDay; lia).
  replace (n - 1 + 1) with n by lia.
  pose proof (monthOf_spec (Cal.localDay tz now)) as H3. fold n in H3.
  assert (Hl : forall x, Cal.localDay tz (Cal.localMidnight tz x - 1) = x - 1).
  { intro x. unfold Cal.localDay, Cal.localMidnight, Cal.msPerDay,
      Cal.msPerMinute. Z.to_euclidean_division_equations; lia. }
  rewrite !Hl.
  set (D := Cal.localDay tz now) in *. clearbody D.
  repeat split; try reflexivity; try lia;
    Z.to_euclidean_division_equations; lia.
Qed.

(** X28.  The quick ranges of the report nest: what "Today" keeps, "This
    Week" keeps and "This Month" keeps, and what any quick range keeps,
    "All Time" keeps.  "Last Month" and "This Month" exclude each other:
    no entry is kept by both. *)
Theorem quick_ranges_nest (tz now clock : Z) (prev : ReportFilters.t)
    (e : TimeEntry.t) :
  let kept range :=
    Reports.keepEntry tz clock (Reports.setDateRange tz now range prev) e in
  (kept Reports.today = true ->
   kept Reports.thisWeek = true /\ kept Reports.thisMonth = true)
  /\ (forall range, kept range = true -> kept Reports.allTime = true)
  /\ (kept Reports.lastMonth = true -> kept Reports.thisMonth = false).
Proof.
  cbv zeta.
  destruct (setDateRange_bounds tz now prev)
    as (monday & first & last & firstOfLast
        & Hw1 & Hw2 & Hw3 & Hm1 & Hm2 & Hm3 & Hl1 & Hl2).
  cbv zeta in *.
  assert (Ht1 : ReportFilters.dateFrom
                  (Reports.setDateRange tz now Reports.today prev)
                = Some (Cal.localDay tz now)) by reflexivity.
  assert (Ht2 : ReportFilters.dateTo
                  (Reports.setDateRange tz now Reports.today prev)
                = Some (Cal.localDay tz now)) by reflexivity.
  rewrite !keepEntry_inRange, !setDateRange_others.
  split; [|split].
  - rewrite !andb_true_iff. intros [H Hp]. split; (split; [|exact Hp]).
    + revert H. apply inRange_wider; intros b Hb.
      * rewrite Hw1 in Hb. injection Hb as <-. rewrite Ht1. eexists.
        split; [reflexivity | lia].
      * rewrite Hw2 in Hb. injection Hb as <-. rewrite Ht2. eexists.
        split; [reflexivity | lia].
    + revert H. apply inRange_wider; intros b Hb.
      * rewrite Hm1 in Hb. injection Hb as <-. rewrite Ht1. eexists.
        split; [reflexivity | lia].
      * rewrite Hm2 in Hb. injection Hb as <-. rewrite Ht2. eexists.
        split; [reflexivity | lia].
  - intros range. rewrite !keepEntry_inRange, !setDateRange_others.
    rewrite !andb_true_iff. intros [_ Hp].
    split; [reflexivity | exact Hp].
  - rewrite andb_true_iff. intros [H _].
    apply andb_false_iff. left.
    exact (inRange_disjoint tz _ _ first _ Hl2 Hm1 H).
Qed.

(** ** The highlights of dated entries *)

Lemma monthOf_iff (z n : Z) :
  monthOf z = n <-> monthStart n <= z < monthStart (n + 1).
Proof.
  split; [intros <-; apply monthOf_spec | apply monthOf_unique].
Qed.

(** X29.  The highlights file an entry that carries a [date] under that
    date, in every time zone: it counts for "Today" when the date is the
    present local day or a later one, for the dashboard's "This Week" when
    the date lies in the Monday-to-Sunday week of the present day, for
    "This Month" and "Last Month" when the date lies in the month of the
    present day and in the month before it. *)
Theorem highlights_file_by_date (tz now : Z) (entries : list TimeEntry.t)
    (e : TimeEntry.t) (d : Z) :
  TimeEntry.date e = Some d ->
  let D := Cal.localDay tz now in
  let monday := D - (D + 3) mod 7 in
  (In e (Dashboard.todayEntries tz now entries) <-> In e entries /\ D <= d)
  /\ (In e (Dashboard.thisWeekEntries tz now entries)
      <-> In e entries /\ monday <= d <= monday + 6)
  /\ (In e (TimeEntries.thisWeekEntries tz now entries)
      <-> In e entries /\ monday <= d)
  /\ (In e (Dashboard.thisMonthEntries tz now entries)
      <-> In e entries /\ monthOf d = monthOf D)
  /\ (In e (Dashboard.lastMonthEntries tz now entries)
      <-> In e entries /\ monthOf d = monthOf D - 1).
Proof.
  intros Hd D monday.
  assert (Hg : Dashboard.getEntryDate tz e = Some (Cal.localMidnight tz d))
    by (unfold Dashboard.getEntryDate; now rewrite Hd).
  destruct (month_bounds tz now) as (Hts & Hte & Hls & Hle).
  cbv zeta in Hts, Hte, Hls, Hle. fold D in Hts, Hte, Hls, Hle.
  unfold Dashboard.todayEntries, Dashboard.thisWeekEntries,
    TimeEntries.thisWeekEntries, Dashboard.thisMonthEntries,
    Dashboard.lastMonthEntries.
  rewrite isDateInRange_same, getEntryDate_same.
  rewrite !filter_In, Hg, !isDateInRange_closed, !isDateInRange_open.
  rewrite Hts, Hte, Hls, Hle.
  unfold Dashboard.today, Dashboard.thisWeekStart, Dashboard.thisWeekEnd,
    TimeEntries.thisWeekStart, Cal.startOfDay.
  rewrite startOfWeek_monday, endOfWeek_sunday. fold D monday.
  rewrite !monthOf_iff.
  replace (monthOf D - 1 + 1) with (monthOf D) by lia.
  unfold Cal.localMidnight, Cal.msPerDay, Cal.msPerMinute.
  repeat match goal with |- _ /\ _ => split end;
    (split; intros [Hin H]; (split; [exact Hin | lia])).
Qed.

Lemma highlights_file_by_date_witness :
  In lastDayEntry
    (Dashboard.thisMonthEntries 60 (Cal.utc 2024 1 10 9 0 0) [lastDayEntry])
  <-> In lastDayEntry [lastDayEntry]
      /\ monthOf (Cal.days_from_civil 2024 1 14)
         = monthOf (Cal.localDay 60 (Cal.utc 2024 1 10 9 0 0)).
Proof.
  destruct (highlights_file_by_date 60 (Cal.utc 2024 1 10 9 0 0)
              [lastDayEntry] lastDayEntry (Cal.days_from_civil 2024 1 14))
    as (_ & _ & _ & H & _).
  - reflexivity.
  - exact H.
Defined.
